(** * Condor2Nav: translation of a Condor task into an XCSoar-family profile

    A shallow embedding of [src/targetXCSoarCommon.cpp]
    ([condor2nav::CTargetXCSoarCommon]): [SceneryTimeProcess],
    [WaypointBearing], [TaskProcess] and [PenaltyZonesProcess], followed by
    the properties the specification states about them and by further
    properties of the same code.

    Conventions.
    - [unsigned] is a 32-bit integer, held as a [Z] in [0, 2^32); every
      subtraction that can wrap is written with [usub].
    - The INI parsers are finite maps from (chapter, key) to text.
    - A C++ exception is the [Throw] case of [Result]; the loop of
      [TaskProcess] threads a [State] record through the task points.
    - The warning and error sinks are lists of messages, oldest first. *)

From stdpp Require Import gmap strings list fin_maps.
From Stdlib Require Import ZArith Lia QArith DecimalString.

Local Open Scope string_scope.
Local Open Scope Z_scope.

(** ** Unsigned arithmetic *)

Definition UINT_BITS : Z := 32.
Definition UINT_MODULUS : Z := 2 ^ UINT_BITS.
Definition UINT_MAX : Z := UINT_MODULUS - 1.

(** [a - b] on [unsigned]: the result wraps modulo [2^32]. *)
Definition usub (a b : Z) : Z := (a - b) mod UINT_MODULUS.

(** [a + b] on [unsigned]. *)
Definition uadd (a b : Z) : Z := (a + b) mod UINT_MODULUS.

Definition is_unsigned (n : Z) : Prop := 0 <= n < UINT_MODULUS.

(** ** Exceptions *)

Inductive Exception : Type :=
| EOperationFailed (what : string)     (* thrown by the code of this file *)
| EValueMissing (chapter key : string) (* CFileParserINI::Value, key absent *)
| EConvert (str : string).             (* Convert<T>, text that is no T *)

Inductive Result (A : Type) : Type :=
| Throw (e : Exception)
| Return (a : A).
Arguments Throw {A} e.
Arguments Return {A} a.

#[global] Instance Result_ret : MRet Result := fun A a => Return a.
#[global] Instance Result_bind : MBind Result :=
  fun A B f m => match m with Throw e => Throw e | Return a => f a end.

Definition of_option {A} (e : Exception) (o : option A) : Result A :=
  match o with Some a => Return a | None => Throw e end.

(** ** What the file imports

    The headers [imports/xcsoarTypes.h], [condor2nav.h] and [tools.h] are not
    part of the sources at hand.  Their enumerators are taken as parameters,
    and so are the collaborators [TaskProcess] calls. *)

Class XCSoarTypes : Type := {
  (* ASTSectorType_t *)
  AST_CIRCLE : Z;
  AST_FAI : Z;
  (* StartSectorType_t *)
  START_CIRCLE : Z;
  START_LINE : Z;
  START_SECTOR : Z;
  (* FinishSectorType_t *)
  FINISH_CIRCLE : Z;
  FINISH_LINE : Z;
  FINISH_SECTOR : Z;
  (* AATSectorType_t *)
  WAYPOINT_AAT_CIRCLE : Z;
  WAYPOINT_AAT_SECTOR : Z;
  AUTOADVANCE_ARMSTART : Z;
  WAYPOINT_TURNPOINT : Z;
  WAYPOINT_INDEX_OFFSET : Z;
  (* condor::TSectorType *)
  SECTOR_CLASSIC : Z;
  SECTOR_WINDOW : Z;
}.

Class Collaborators : Type := {
  (* tools.h: Convert<unsigned>(str); [None] when it throws *)
  Convert_unsigned : string -> option Z;
  Convert_unsigned_range :
    forall s n, Convert_unsigned s = Some n -> is_unsigned n;
  (* IEEE doubles and <cmath>, kept abstract *)
  double : Type;
  Convert_double : string -> option double;
  double_of_unsigned : Z -> double;
  double_of_int : Z -> double;
  double_half : double;                       (* the literal 0.5 *)
  dadd : double -> double -> double;
  dsub : double -> double -> double;
  dmul : double -> double -> double;
  dcos : double -> double;
  dsin : double -> double;
  datan2 : double -> double -> double;
  double_is_zero : double -> bool;            (* d == 0 *)
  static_cast_unsigned : double -> Z;         (* static_cast<unsigned>(d) *)
  Deg2Rad : double -> double;
  Rad2Deg : double -> double;
  ostream_double : double -> string;          (* operator<< *)
  (* CCondor::CCoordConverter and the coordinate printers *)
  Latitude : string -> string -> double;
  Longitude : string -> string -> double;
  Coord2DDMMFF_lat : double -> string;
  Coord2DDMMFF_lon : double -> string;
  Coord2DDMMSS_lat : double -> string;
  Coord2DDMMSS_lon : double -> string;
  (* the target's Name() *)
  Name : string;
  (* boost::filesystem: (a / b).string() *)
  path_append : string -> string -> string;
}.

(** Convert(value): a number printed in decimal. *)
Definition Convert (n : Z) : string := NilZero.string_of_int (Z.to_int n).

(** ** Data model (the fields of the XCSoar records this file touches) *)

Record SETTINGS_TASK : Type := {
  AATEnabled : bool;
  AATTaskLength : Z;
  AutoAdvance : Z;
  EnableMultipleStartPoints : bool;
  StartType : Z;
  StartRadius : Z;
  StartMaxHeight : Z;
  SectorType : Z;
  SectorRadius : Z;
  FinishType : Z;
  FinishRadius : Z;
  FinishMinHeight : Z;
}.

Record TASK_POINT : Type := {
  Index : Z;
  AATType : Z;
  AATCircleRadius : Z;
  AATSectorRadius : Z;
  AATStartRadial : Z;
  AATFinishRadial : Z;
}.

Record START_POINT : Type := { StartIndex : Z }.

Record TWaypoint `{Collaborators} : Type := {
  number : Z;
  latitude : double;
  longitude : double;
  altitude : double;
  flags : Z;
  name : string;
  comment : string;
  inTask : bool;
}.

(** [SETTINGS_TASK settingsTask{}]: every field zero. *)
Definition SETTINGS_TASK_zero : SETTINGS_TASK :=
  {| AATEnabled := false; AATTaskLength := 0; AutoAdvance := 0;
     EnableMultipleStartPoints := false;
     StartType := 0; StartRadius := 0; StartMaxHeight := 0;
     SectorType := 0; SectorRadius := 0;
     FinishType := 0; FinishRadius := 0; FinishMinHeight := 0 |}.

(** Field assignments. *)
Definition set_AAT (en : bool) (len : Z) (s : SETTINGS_TASK) : SETTINGS_TASK :=
  {| AATEnabled := en; AATTaskLength := len; AutoAdvance := AutoAdvance s;
     EnableMultipleStartPoints := EnableMultipleStartPoints s;
     StartType := StartType s; StartRadius := StartRadius s;
     StartMaxHeight := StartMaxHeight s;
     SectorType := SectorType s; SectorRadius := SectorRadius s;
     FinishType := FinishType s; FinishRadius := FinishRadius s;
     FinishMinHeight := FinishMinHeight s |}.

Definition set_AutoAdvance (v : Z) (s : SETTINGS_TASK) : SETTINGS_TASK :=
  {| AATEnabled := AATEnabled s; AATTaskLength := AATTaskLength s;
     AutoAdvance := v;
     EnableMultipleStartPoints := EnableMultipleStartPoints s;
     StartType := StartType s; StartRadius := StartRadius s;
     StartMaxHeight := StartMaxHeight s;
     SectorType := SectorType s; SectorRadius := SectorRadius s;
     FinishType := FinishType s; FinishRadius := FinishRadius s;
     FinishMinHeight := FinishMinHeight s |}.

Definition set_StartType (v : Z) (s : SETTINGS_TASK) : SETTINGS_TASK :=
  {| AATEnabled := AATEnabled s; AATTaskLength := AATTaskLength s;
     AutoAdvance := AutoAdvance s;
     EnableMultipleStartPoints := EnableMultipleStartPoints s;
     StartType := v; StartRadius := StartRadius s;
     StartMaxHeight := StartMaxHeight s;
     SectorType := SectorType s; SectorRadius := SectorRadius s;
     FinishType := FinishType s; FinishRadius := FinishRadius s;
     FinishMinHeight := FinishMinHeight s |}.

Definition set_Start (radius height : Z) (s : SETTINGS_TASK) : SETTINGS_TASK :=
  {| AATEnabled := AATEnabled s; AATTaskLength := AATTaskLength s;
     AutoAdvance := AutoAdvance s;
     EnableMultipleStartPoints := EnableMultipleStartPoints s;
     StartType := StartType s; StartRadius := radius;
     StartMaxHeight := height;
     SectorType := SectorType s; SectorRadius := SectorRadius s;
     FinishType := FinishType s; FinishRadius := FinishRadius s;
     FinishMinHeight := FinishMinHeight s |}.

Definition set_SectorType (v : Z) (s : SETTINGS_TASK) : SETTINGS_TASK :=
  {| AATEnabled := AATEnabled s; AATTaskLength := AATTaskLength s;
     AutoAdvance := AutoAdvance s;
     EnableMultipleStartPoints := EnableMultipleStartPoints s;
     StartType := StartType s; StartRadius := StartRadius s;
     StartMaxHeight := StartMaxHeight s;
     SectorType := v; SectorRadius := SectorRadius s;
     FinishType := FinishType s; FinishRadius := FinishRadius s;
     FinishMinHeight := FinishMinHeight s |}.

Definition set_SectorRadius (v : Z) (s : SETTINGS_TASK) : SETTINGS_TASK :=
  {| AATEnabled := AATEnabled s; AATTaskLength := AATTaskLength s;
     AutoAdvance := AutoAdvance s;
     EnableMultipleStartPoints := EnableMultipleStartPoints s;
     StartType := StartType s; StartRadius := StartRadius s;
     StartMaxHeight := StartMaxHeight s;
     SectorType := SectorType s; SectorRadius := v;
     FinishType := FinishType s; FinishRadius := FinishRadius s;
     FinishMinHeight := FinishMinHeight s |}.

Definition set_FinishType (v : Z) (s : SETTINGS_TASK) : SETTINGS_TASK :=
  {| AATEnabled := AATEnabled s; AATTaskLength := AATTaskLength s;
     AutoAdvance := AutoAdvance s;
     EnableMultipleStartPoints := EnableMultipleStartPoints s;
     StartType := StartType s; StartRadius := StartRadius s;
     StartMaxHeight := StartMaxHeight s;
     SectorType := SectorType s; SectorRadius := SectorRadius s;
     FinishType := v; FinishRadius := FinishRadius s;
     FinishMinHeight := FinishMinHeight s |}.

Definition set_Finish (radius minHeight : Z) (s : SETTINGS_TASK) : SETTINGS_TASK :=
  {| AATEnabled := AATEnabled s; AATTaskLength := AATTaskLength s;
     AutoAdvance := AutoAdvance s;
     EnableMultipleStartPoints := EnableMultipleStartPoints s;
     StartType := StartType s; StartRadius := StartRadius s;
     StartMaxHeight := StartMaxHeight s;
     SectorType := SectorType s; SectorRadius := SectorRadius s;
     FinishType := FinishType s; FinishRadius := radius;
     FinishMinHeight := minHeight |}.

Definition set_Index (v : Z) (p : TASK_POINT) : TASK_POINT :=
  {| Index := v; AATType := AATType p;
     AATCircleRadius := AATCircleRadius p; AATSectorRadius := AATSectorRadius p;
     AATStartRadial := AATStartRadial p; AATFinishRadial := AATFinishRadial p |}.

Definition set_AATCircle (ty radius : Z) (p : TASK_POINT) : TASK_POINT :=
  {| Index := Index p; AATType := ty;
     AATCircleRadius := radius; AATSectorRadius := AATSectorRadius p;
     AATStartRadial := AATStartRadial p; AATFinishRadial := AATFinishRadial p |}.

Definition set_AATSector (ty radius startRadial finishRadial : Z)
    (p : TASK_POINT) : TASK_POINT :=
  {| Index := Index p; AATType := ty;
     AATCircleRadius := AATCircleRadius p; AATSectorRadius := radius;
     AATStartRadial := startRadial; AATFinishRadial := finishRadial |}.

Definition TASK_POINT_init : TASK_POINT :=
  {| Index := -1; AATType := 0; AATCircleRadius := 0; AATSectorRadius := 0;
     AATStartRadial := 0; AATFinishRadial := 360 |}.

Definition START_POINT_init : START_POINT := {| StartIndex := -1 |}.

(** ** The state of the task-point loop *)

Record State `{Collaborators} : Type := {
  settingsTask : SETTINGS_TASK;
  taskPointArray : list TASK_POINT;
  startPointArray : list START_POINT;
  waypointArray : list TWaypoint;
  tpsValid : bool;
  Warning : list string;      (* Translator().App().Warning() *)
  Error : list string;        (* Translator().App().Error() *)
  wpFile : list string;       (* lines written to WP_FILE_NAME *)
}.

Section Engine.
Context `{X : XCSoarTypes} `{C : Collaborators}.

Definition with_settings (f : SETTINGS_TASK -> SETTINGS_TASK) (st : State) : State :=
  {| settingsTask := f (settingsTask st);
     taskPointArray := taskPointArray st; startPointArray := startPointArray st;
     waypointArray := waypointArray st; tpsValid := tpsValid st;
     Warning := Warning st; Error := Error st; wpFile := wpFile st |}.

(** [taskPointArray[k]] updated in place. *)
Definition with_taskPoint (k : Z) (f : TASK_POINT -> TASK_POINT) (st : State) : State :=
  {| settingsTask := settingsTask st;
     taskPointArray := alter f (Z.to_nat k) (taskPointArray st);
     startPointArray := startPointArray st;
     waypointArray := waypointArray st; tpsValid := tpsValid st;
     Warning := Warning st; Error := Error st; wpFile := wpFile st |}.

Definition emplace_back (w : TWaypoint) (st : State) : State :=
  {| settingsTask := settingsTask st;
     taskPointArray := taskPointArray st; startPointArray := startPointArray st;
     waypointArray := waypointArray st ++ [w]; tpsValid := tpsValid st;
     Warning := Warning st; Error := Error st; wpFile := wpFile st |}.

Definition invalidate (st : State) : State :=
  {| settingsTask := settingsTask st;
     taskPointArray := taskPointArray st; startPointArray := startPointArray st;
     waypointArray := waypointArray st; tpsValid := false;
     Warning := Warning st; Error := Error st; wpFile := wpFile st |}.

Definition warn (msg : string) (st : State) : State :=
  {| settingsTask := settingsTask st;
     taskPointArray := taskPointArray st; startPointArray := startPointArray st;
     waypointArray := waypointArray st; tpsValid := tpsValid st;
     Warning := Warning st ++ [msg]; Error := Error st; wpFile := wpFile st |}.

Definition report (msg : string) (st : State) : State :=
  {| settingsTask := settingsTask st;
     taskPointArray := taskPointArray st; startPointArray := startPointArray st;
     waypointArray := waypointArray st; tpsValid := tpsValid st;
     Warning := Warning st; Error := Error st ++ [msg]; wpFile := wpFile st |}.

Definition wpFile_line (line : string) (st : State) : State :=
  {| settingsTask := settingsTask st;
     taskPointArray := taskPointArray st; startPointArray := startPointArray st;
     waypointArray := waypointArray st; tpsValid := tpsValid st;
     Warning := Warning st; Error := Error st; wpFile := wpFile st ++ [line] |}.

(** ** Parsers *)

(** [parser.Value(chapter, key)]. *)
Definition Value (parser : gmap (string * string) string) (chapter key : string)
    : Result string :=
  of_option (EValueMissing chapter key) (parser !! (chapter, key)).

(** [Convert<unsigned>(str)]. *)
Definition Convert_u (str : string) : Result Z :=
  of_option (EConvert str) (Convert_unsigned str).

(** [Convert<double>(str)]. *)
Definition Convert_d (str : string) : Result double :=
  of_option (EConvert str) (Convert_double str).

(** [taskParser.Value("Task", key + Convert(i))]. *)
Definition TaskValue (taskParser : gmap (string * string) string)
    (key : string) (i : Z) : Result string :=
  Value taskParser "Task" (key +:+ Convert i).

(** [Convert<unsigned>(taskParser.Value("Task", key + Convert(i)))]. *)
Definition TaskUnsigned (taskParser : gmap (string * string) string)
    (key : string) (i : Z) : Result Z :=
  TaskValue taskParser key i ≫= Convert_u.

(** [Convert<double>(taskParser.Value("Task", key + Convert(i)))]. *)
Definition TaskDouble (taskParser : gmap (string * string) string)
    (key : string) (i : Z) : Result double :=
  TaskValue taskParser key i ≫= Convert_d.

(** ** WaypointBearing (lines 82-96) *)

Definition WaypointBearing (lon1 lat1 lon2 lat2 : double) : Z :=
  let longitude1 := Deg2Rad lon1 in
  let latitude1 := Deg2Rad lat1 in
  let longitude2 := Deg2Rad lon2 in
  let latitude2 := Deg2Rad lat2 in
  let clat1 := dcos latitude1 in
  let clat2 := dcos latitude2 in
  let dlon := dsub longitude2 longitude1 in
  let y := dmul (dsin dlon) clat2 in
  let x := dsub (dmul clat1 (dsin latitude2))
                (dmul (dmul (dsin latitude1) clat2) (dcos dlon)) in
  if double_is_zero x && double_is_zero y then 0
  else static_cast_unsigned
         (dadd (dadd (double_of_int 360) (Rad2Deg (datan2 y x))) double_half)
       mod 360.

(** ** The AAT sector radials (lines 227-236)

    The doubles of this block are integers or halves of integers below
    [2^33], which a double holds exactly; they are computed here in units of
    half a degree. *)

(** [static_cast<unsigned>(t / 2.0)] for an integer [t]: the fraction is
    dropped.  C++ defines the conversion only when the truncated value fits
    [unsigned]; outside that range the model keeps the low 32 bits, as the
    x86 conversion does. *)
Definition cast_half (t : Z) : Z := (t ÷ 2) mod UINT_MODULUS.

Definition halfAngle (angle1 angle2 : Z) : Z :=
  if angle1 =? angle2 then angle1
  else
    let h := cast_half (uadd angle1 angle2) in
    if ((angle2 <? angle1) && (180 <? usub angle1 angle2))
       || ((angle1 <? angle2) && (180 <? usub angle2 angle1))
    then uadd h 180 mod 360
    else h.

(** [static_cast<unsigned>(360 + halfAngle - angle / 2.0) % 360] *)
Definition StartRadial (h angle : Z) : Z :=
  cast_half (2 * uadd 360 h - angle) mod 360.

(** [static_cast<unsigned>(360 + halfAngle + angle / 2.0) % 360] *)
Definition FinishRadial (h angle : Z) : Z :=
  cast_half (2 * uadd 360 h + angle) mod 360.

(** ** Messages (the texts of lines 125, 254, 271, 279, 292, 318, 320, 324) *)

Definition too_many_waypoints (tpNum maxTaskPoints : Z) : string :=
  "ERROR: Too many waypoints (" +:+ Convert (usub tpNum 1)
  +:+ ") in a task file (only " +:+ Convert maxTaskPoints +:+ " supported)!!!".

Definition warning_FAI_radius (name : string) : string :=
  "WARNING: " +:+ name +:+ ": " +:+ Name
  +:+ " does not support different TPs types. The smallest radius will be used for all FAI sectors. If you advance a sector in "
  +:+ Name +:+ " you will advance it in Condor.".

Definition warning_line (name : string) : string :=
  "WARNING: " +:+ name +:+ ": " +:+ Name
  +:+ " does not support line TP type. FAI Sector will be used instead. You may need to manualy advance a waypoint after reaching it in Condor.".

Definition warning_270 (name : string) : string :=
  "WARNING: " +:+ name +:+ ": " +:+ Name
  +:+ " does not support TP with angle '270'. Circle sector will be used instead. Be carefull to advance a waypoint in Condor after it has been advanced by the "
  +:+ Name +:+ ".".

Definition warning_circle_radius (name : string) : string :=
  "WARNING: " +:+ name +:+ ": " +:+ Name
  +:+ " does not support different TPs types. The smallest radius will be used for all circle sectors. If you advance a sector in "
  +:+ Name +:+ " you will advance it in Condor.".

Definition warning_window (name : string) : string :=
  "WARNING: " +:+ name +:+ ": " +:+ Name
  +:+ " does not support window TP type. Circle TP will be used and you are responsible for reaching it on correct height and with correct heading.".

Definition error_sector_type (sectorTypeStr name : string) : string :=
  "ERROR: Unsupported sector type '" +:+ sectorTypeStr
  +:+ "' specified for TP '" +:+ name +:+ "'!!!".

Definition warning_not_uniform : string :=
  "WARNING: " +:+ Name
  +:+ " does not support different TPs types. FAI Sector will be used for all sectors. You may need to manualy advance a waypoint after reaching it in Condor.".

(** ** The sector switch of a start, finish or regular point (lines 241-303) *)

Section Switch.
Variables (i tpNum radius : Z) (name : string).

(** [case 90] *)
Definition case_90 (st : State) : State :=
  if i =? 1 then with_settings (set_StartType START_SECTOR) st
  else if i =? usub tpNum 1 then with_settings (set_FinishType FINISH_SECTOR) st
  else
    let st1 :=
      if (2 <? i) && negb (SectorType (settingsTask st) =? AST_FAI)
      then with_settings (set_SectorRadius radius) (invalidate st)
      else st in
    let st2 := with_settings (set_SectorType AST_FAI) st1 in
    if (2 <? i) && negb (SectorRadius (settingsTask st2) =? radius)
    then with_settings
           (set_SectorRadius (Z.min (SectorRadius (settingsTask st2)) radius))
           (warn (warning_FAI_radius name) st2)
    else with_settings (set_SectorRadius radius) st2.

(** [case 180] *)
Definition case_180 (st : State) : State :=
  if i =? 1 then with_settings (set_StartType START_LINE) st
  else if i =? usub tpNum 1 then with_settings (set_FinishType FINISH_LINE) st
  else if (2 <? i) && (SectorType (settingsTask st) =? AST_FAI)
  then invalidate st
  else with_settings (set_SectorRadius radius)
         (with_settings (set_SectorType AST_FAI)
            (warn (warning_line name) st)).

(** [case 360], which [case 270] falls into *)
Definition case_360 (st : State) : State :=
  if i =? 1 then with_settings (set_StartType START_CIRCLE) st
  else if i =? usub tpNum 1 then with_settings (set_FinishType FINISH_CIRCLE) st
  else if (2 <? i) && negb (SectorType (settingsTask st) =? AST_CIRCLE)
  then invalidate st
  else
    let st1 := with_settings (set_SectorType AST_CIRCLE) st in
    if (2 <? i) && negb (SectorRadius (settingsTask st1) =? radius)
    then with_settings
           (set_SectorRadius (Z.min (SectorRadius (settingsTask st1)) radius))
           (warn (warning_circle_radius name) st1)
    else with_settings (set_SectorRadius radius) st1.

(** [switch(angle)] *)
Definition sector_switch (angle : Z) (st : State) : State :=
  if angle =? 90 then case_90 st
  else if angle =? 180 then case_180 st
  else if angle =? 270 then case_360 (warn (warning_270 name) st)
  else if angle =? 360 then case_360 st
  else st.

End Switch.

(** ** The body of the task-point loop (lines 158-320) *)

Section Loop.
Variables (taskParser : gmap (string * string) string).
Variables (tpNum : Z) (generateWPFile : bool).

(** The display name of point [i] (lines 161-167). *)
Definition point_name (i : Z) (tpName : string) : string :=
  if i =? 1 then "S:" +:+ tpName
  else if i =? usub tpNum 1 then "F:" +:+ tpName
  else Convert (i - 1) +:+ ":" +:+ tpName.

(** An AAT waypoint (lines 206-237). *)
Definition AAT_waypoint (i radius angle : Z) (longitude latitude : double)
    (st : State) : Result State :=
  if angle =? 360 then
    Return (with_taskPoint (i - 1) (set_AATCircle WAYPOINT_AAT_CIRCLE radius) st)
  else
    x1 ← TaskValue taskParser "TPPosX" (i - 1);
    y1 ← TaskValue taskParser "TPPosY" (i - 1);
    let lon1 := Longitude x1 y1 in
    let lat1 := Latitude x1 y1 in
    let angle1 := WaypointBearing lon1 lat1 longitude latitude in
    x2 ← TaskValue taskParser "TPPosX" (i + 1);
    y2 ← TaskValue taskParser "TPPosY" (i + 1);
    let lon2 := Longitude x2 y2 in
    let lat2 := Latitude x2 y2 in
    let angle2 := WaypointBearing lon2 lat2 longitude latitude in
    let h := halfAngle angle1 angle2 in
    Return (with_taskPoint (i - 1)
              (set_AATSector WAYPOINT_AAT_SECTOR radius
                 (StartRadial h angle) (FinishRadial h angle)) st).

(** [settingsTask.AATEnabled && i > 1 && i < tpNum - 1] (line 205) *)
Definition AAT_point (i : Z) (st : State) : bool :=
  AATEnabled (settingsTask st) && (1 <? i) && (i <? usub tpNum 1).

(** A start, finish or regular point (lines 240-315). *)
Definition regular_waypoint (i radius angle : Z) (name : string)
    (st : State) : Result State :=
  let st1 := sector_switch i tpNum radius name angle st in
  if i =? 1 then
    height ← TaskUnsigned taskParser "TPHeight" i;
    Return (with_settings (set_Start radius height) st1)
  else if i =? usub tpNum 1 then
    Return (with_settings (set_Finish radius 0) st1)
  else Return st1.

(** The WP file line and the waypoint record of point [i] (lines 178-196). *)
Definition fill_waypoint (i : Z) (tpName x y : string) (altitude : double)
    (st : State) : State :=
  let name := point_name i tpName in
  let latitude := Latitude x y in
  let longitude := Longitude x y in
  let latitudeStr := Coord2DDMMFF_lat latitude in
  let longitudeStr := Coord2DDMMFF_lon longitude in
  let st1 :=
    if generateWPFile
    then wpFile_line (Convert i +:+ "," +:+ latitudeStr +:+ "," +:+ longitudeStr
                      +:+ "," +:+ ostream_double altitude +:+ "M,T," +:+ name
                      +:+ "," +:+ tpName) st
    else st in
  let waypoint :=
    {| number := WAYPOINT_INDEX_OFFSET + i;
       latitude := latitude; longitude := longitude; altitude := altitude;
       flags := WAYPOINT_TURNPOINT; name := name; comment := tpName;
       inTask := true |} in
  emplace_back waypoint
    (with_taskPoint (i - 1) (set_Index (WAYPOINT_INDEX_OFFSET + i)) st1).

Definition TaskProcess_point (i : Z) (st : State) : Result State :=
  tpName ← TaskValue taskParser "TPName" i;
  let name := point_name i tpName in
  x ← TaskValue taskParser "TPPosX" i;
  y ← TaskValue taskParser "TPPosY" i;
  minAlt ← TaskUnsigned taskParser "TPWidth" i;
  altitude ← (if minAlt =? 0
              then TaskDouble taskParser "TPPosZ" i
              else Return (double_of_unsigned minAlt));
  let st2 := fill_waypoint i tpName x y altitude st in
  (* dump Task File data *)
  sectorTypeStr ← TaskValue taskParser "TPSectorType" i;
  sectorType ← Convert_u sectorTypeStr;
  if sectorType =? SECTOR_CLASSIC then
    radius ← TaskUnsigned taskParser "TPRadius" i;
    angle ← TaskUnsigned taskParser "TPAngle" i;
    if AAT_point i st2
    then AAT_waypoint i radius angle (Longitude x y) (Latitude x y) st2
    else regular_waypoint i radius angle name st2
  else if sectorType =? SECTOR_WINDOW then
    Return (warn (warning_window name) st2)
  else
    Return (report (error_sector_type sectorTypeStr name) st2).

(** [for(size_t i = 1; i < tpNum; i++)]: [n] iterations from index [i]. *)
Fixpoint TaskProcess_loop (n : nat) (i : Z) (st : State) : Result State :=
  match n with
  | O => Return st
  | S n' => st' ← TaskProcess_point i st; TaskProcess_loop n' (i + 1) st'
  end.

End Loop.

(** ** TaskProcess (lines 113-347) *)

(** The profile keys of lines 329-343, written in that order. *)
Definition profile_write (settingsTask : SETTINGS_TASK)
    (profileParser : gmap (string * string) string)
    : gmap (string * string) string :=
  let p := <[("", "StartLine") := Convert (StartType settingsTask)]> profileParser in
  let p := <[("", "StartMaxHeight") := Convert (StartMaxHeight settingsTask)]> p in
  let p := <[("", "StartMaxHeightMargin") := "0"]> p in
  let p := <[("", "StartHeightRef") := "1"]> p in
  let p := <[("", "StartRadius") := Convert (StartRadius settingsTask)]> p in
  let p := <[("", "StartMaxSpeed") := "0"]> p in
  let p := <[("", "StartMaxSpeedMargin") := "0"]> p in
  let p := <[("", "FAISector") := Convert (SectorType settingsTask)]> p in
  let p := <[("", "Radius") := Convert (SectorRadius settingsTask)]> p in
  let p := <[("", "FinishLine") := Convert (FinishType settingsTask)]> p in
  let p := <[("", "FinishMinHeight") := Convert (FinishMinHeight settingsTask)]> p in
  let p := <[("", "FinishRadius") := Convert (FinishRadius settingsTask)]> p in
  <[("", "FAIFinishHeight") := Convert (FinishMinHeight settingsTask)]> p.

(** The state before the loop (lines 127-154). *)
Definition TaskProcess_init (profileParser : gmap (string * string) string)
    (aatTime maxTaskPoints maxStartPoints : Z) : State :=
  let autoAdvance :=
    match Value profileParser "" "AutoAdvance" ≫= Convert_u with
    | Return v => v
    | Throw _ => AUTOADVANCE_ARMSTART
    end in
  {| settingsTask :=
       set_AutoAdvance autoAdvance
         (set_AAT (0 <? aatTime) aatTime SETTINGS_TASK_zero);
     taskPointArray := replicate (Z.to_nat maxTaskPoints) TASK_POINT_init;
     startPointArray := replicate (Z.to_nat maxStartPoints) START_POINT_init;
     waypointArray := [];
     tpsValid := true;
     Warning := []; Error := []; wpFile := [] |}.

(** What [TaskProcess] leaves behind: the profile it wrote, and the state
    whose settings, task points, start points and waypoints it passes to
    [TaskDump] (implemented by the concrete targets). *)
Definition TaskProcess (profileParser taskParser : gmap (string * string) string)
    (aatTime maxTaskPoints maxStartPoints : Z) (generateWPFile : bool)
    : Result (gmap (string * string) string * State) :=
  tpNum ← (Value taskParser "Task" "Count" ≫= Convert_u);
  (* check if enough waypoints to create a task *)
  if maxTaskPoints <? usub tpNum 1 then
    Throw (EOperationFailed (too_many_waypoints tpNum maxTaskPoints))
  else
    let st0 := TaskProcess_init profileParser aatTime maxTaskPoints maxStartPoints in
    st ← TaskProcess_loop taskParser tpNum generateWPFile
           (Z.to_nat (tpNum - 1)) 1 st0;
    let st' := if tpsValid st then st else warn warning_not_uniform st in
    Return (profile_write (settingsTask st') profileParser, st').

(** ** PenaltyZonesProcess (lines 361-399) *)

Definition AIRSPACES_FILE_NAME : string := "Condor.txt".

(** The text made of one double-quote character. *)
Definition dquote : string := String (Ascii.ascii_of_nat 34) EmptyString.

(** The three banner lines of the airspace file. *)
Definition airspaces_banner : list string :=
  [ "*******************************************************";
    "* Condor Task Penalty Zones generated with Condor2Nav *";
    "*******************************************************" ].

Section PenaltyZones.
Variable taskParser : gmap (string * string) string.

(** The [DP] line of corner [j] of zone [i] (lines 392-396). *)
Definition PenaltyZone_corner (i j : Z) : Result string :=
  x ← Value taskParser "Task" ("PZPos" +:+ Convert j +:+ "X" +:+ Convert i);
  y ← Value taskParser "Task" ("PZPos" +:+ Convert j +:+ "Y" +:+ Convert i);
  Return ("DP " +:+ Coord2DDMMSS_lat (Latitude x y) +:+ " "
          +:+ Coord2DDMMSS_lon (Longitude x y)).

(** [for(size_t j = 0; j < 4; j++)]: [n] iterations from corner [j]. *)
Fixpoint PenaltyZone_corners (n : nat) (i j : Z) (airspacesFile : list string)
    : Result (list string) :=
  match n with
  | O => Return airspacesFile
  | S n' =>
      line ← PenaltyZone_corner i j;
      PenaltyZone_corners n' i (j + 1) (airspacesFile ++ [line])
  end.

(** The body of the zone loop (lines 380-397). *)
Definition PenaltyZone (i : Z) (airspacesFile : list string)
    : Result (list string) :=
  let f1 := (airspacesFile ++ [""])%list in
  let f2 := (f1 ++ ["AC P"])%list in
  let f3 := (f2 ++ ["AN Penalty Zone " +:+ Convert (i + 1)])%list in
  top ← TaskValue taskParser "PZTop" i;
  let f4 := (f3 ++ ["AH " +:+ top +:+ "m AMSL"])%list in
  base ← TaskUnsigned taskParser "PZBase" i;
  let f5 := (f4 ++ [if base =? 0 then "AL 0"
                    else "AL " +:+ Convert base +:+ "m AMSL"])%list in
  PenaltyZone_corners 4 i 0 f5.

(** [for(size_t i = 0; i < pzNum; i++)]: [n] iterations from zone [i]. *)
Fixpoint PenaltyZones_loop (n : nat) (i : Z) (airspacesFile : list string)
    : Result (list string) :=
  match n with
  | O => Return airspacesFile
  | S n' =>
      f ← PenaltyZone i airspacesFile;
      PenaltyZones_loop n' (i + 1) f
  end.

End PenaltyZones.

(** The profile [PenaltyZonesProcess] leaves, and the airspace file it wrote
    (its path and its lines), if any. *)
Definition PenaltyZonesProcess
    (profileParser taskParser : gmap (string * string) string)
    (pathPrefix outputPathPrefix : string)
    : Result (gmap (string * string) string * option (string * list string)) :=
  pzNum ← (Value taskParser "Task" "PZCount" ≫= Convert_u);
  if pzNum =? 0 then
    Return (<[("", "AirspaceFile") := dquote +:+ dquote]> profileParser, None)
  else
    let profile :=
      <[("", "AirspaceFile") :=
          dquote +:+ path_append pathPrefix AIRSPACES_FILE_NAME +:+ dquote]>
        profileParser in
    airspacesFile ← PenaltyZones_loop taskParser (Z.to_nat pzNum) 0
                      airspaces_banner;
    Return (profile,
            Some (path_append outputPathPrefix AIRSPACES_FILE_NAME,
                  airspacesFile)).

(** ** Well-formed task files

    What a task file declares for point [i]: every key the loop body may
    read is present and converts. *)

Record TPDecl : Type := {
  TPName : string;
  TPPosX : string;
  TPPosY : string;
  TPWidth : Z;
  TPPosZ : double;
  TPSectorTypeStr : string;
  TPSectorType : Z;
  TPRadius : Z;
  TPAngle : Z;
  TPHeight : Z;
}.

Record declares (taskParser : gmap (string * string) string) (i : Z)
    (d : TPDecl) : Prop := {
  declares_TPName : TaskValue taskParser "TPName" i = Return (TPName d);
  declares_TPPosX : TaskValue taskParser "TPPosX" i = Return (TPPosX d);
  declares_TPPosY : TaskValue taskParser "TPPosY" i = Return (TPPosY d);
  declares_TPWidth : TaskUnsigned taskParser "TPWidth" i = Return (TPWidth d);
  declares_TPPosZ : TaskDouble taskParser "TPPosZ" i = Return (TPPosZ d);
  declares_TPSectorTypeStr :
    TaskValue taskParser "TPSectorType" i = Return (TPSectorTypeStr d);
  declares_TPSectorType : Convert_u (TPSectorTypeStr d) = Return (TPSectorType d);
  declares_TPRadius : TaskUnsigned taskParser "TPRadius" i = Return (TPRadius d);
  declares_TPAngle : TaskUnsigned taskParser "TPAngle" i = Return (TPAngle d);
  declares_TPHeight : TaskUnsigned taskParser "TPHeight" i = Return (TPHeight d);
}.

(** [double altitude = minAlt ? minAlt : Convert<double>(TPPosZ)] *)
Definition altitude_of (d : TPDecl) : double :=
  if TPWidth d =? 0 then TPPosZ d else double_of_unsigned (TPWidth d).

(** The task file declares [tpNum] points: the takeoff point, which the
    translation skips, and the points [1 .. tpNum - 1] in full. *)
Definition well_formed_task (taskParser : gmap (string * string) string)
    (tpNum : Z) : Prop :=
  (Value taskParser "Task" "Count" ≫= Convert_u) = Return tpNum
  /\ 1 <= tpNum
  /\ forall i, 1 <= i < tpNum -> exists d, declares taskParser i d.

(** Point [i] of a task of [tpNum] points is neither the start nor the
    finish. *)
Definition intermediate (tpNum i : Z) : Prop := 1 < i < tpNum - 1.

(** The declaration [d] with its angle replaced. *)
Definition with_TPAngle (angle : Z) (d : TPDecl) : TPDecl :=
  {| TPName := TPName d; TPPosX := TPPosX d; TPPosY := TPPosY d;
     TPWidth := TPWidth d; TPPosZ := TPPosZ d;
     TPSectorTypeStr := TPSectorTypeStr d; TPSectorType := TPSectorType d;
     TPRadius := TPRadius d; TPAngle := angle; TPHeight := TPHeight d |}.

(** ** Well-formed penalty zones *)

(** What a task file declares for penalty zone [i]: its top altitude (kept
    as text), its base altitude and its four corners. *)
Record PZDecl : Type := {
  PZTop : string;
  PZBase : Z;
  PZPosX : Z -> string;
  PZPosY : Z -> string;
}.

Record zone_declares (taskParser : gmap (string * string) string) (i : Z)
    (z : PZDecl) : Prop := {
  zone_PZTop : TaskValue taskParser "PZTop" i = Return (PZTop z);
  zone_PZBase : TaskUnsigned taskParser "PZBase" i = Return (PZBase z);
  zone_PZPosX : forall j, 0 <= j < 4 ->
    Value taskParser "Task" ("PZPos" +:+ Convert j +:+ "X" +:+ Convert i)
    = Return (PZPosX z j);
  zone_PZPosY : forall j, 0 <= j < 4 ->
    Value taskParser "Task" ("PZPos" +:+ Convert j +:+ "Y" +:+ Convert i)
    = Return (PZPosY z j);
}.

(** The boundary point line of corner [j]. *)
Definition zone_DP (z : PZDecl) (j : Z) : string :=
  "DP " +:+ Coord2DDMMSS_lat (Latitude (PZPosX z j) (PZPosY z j)) +:+ " "
  +:+ Coord2DDMMSS_lon (Longitude (PZPosX z j) (PZPosY z j)).

(** The airspace record of zone [i]: a blank line, the class, the name, the
    ceiling, the floor and the four corners. *)
Definition zone_record (i : Z) (z : PZDecl) : list string :=
  [ "";
    "AC P";
    "AN Penalty Zone " +:+ Convert (i + 1);
    "AH " +:+ PZTop z +:+ "m AMSL";
    (if PZBase z =? 0 then "AL 0"
     else "AL " +:+ Convert (PZBase z) +:+ "m AMSL");
    zone_DP z 0; zone_DP z 1; zone_DP z 2; zone_DP z 3 ].

(** What the loop body reads of a point before it looks at the sector
    type: the name, the position, the minimum altitude and, only when that
    is 0, the ground altitude. *)
Record declares_position (taskParser : gmap (string * string) string) (i : Z)
    (tpName x y : string) (alt : double) : Prop := {
  position_TPName : TaskValue taskParser "TPName" i = Return tpName;
  position_TPPosX : TaskValue taskParser "TPPosX" i = Return x;
  position_TPPosY : TaskValue taskParser "TPPosY" i = Return y;
  position_altitude :
    exists minAlt,
      TaskUnsigned taskParser "TPWidth" i = Return minAlt
      /\ (if minAlt =? 0 then TaskDouble taskParser "TPPosZ" i
          else Return (double_of_unsigned minAlt)) = Return alt;
}.

(** ** Further definitions the properties below are stated with *)

(** The waypoint record the loop body builds for point [i] of a task of
    [tpNum] points that declares [d] (lines 186-195). *)
Definition waypoint_of (tpNum i : Z) (d : TPDecl) : TWaypoint :=
  {| number := WAYPOINT_INDEX_OFFSET + i;
     latitude := Latitude (TPPosX d) (TPPosY d);
     longitude := Longitude (TPPosX d) (TPPosY d);
     altitude := altitude_of d;
     flags := WAYPOINT_TURNPOINT;
     name := point_name tpNum i (TPName d);
     comment := TPName d;
     inTask := true |}.

(** The profile keys [TaskProcess] writes (lines 329-343). *)
Definition task_profile_keys : list (string * string) :=
  [ ("", "StartLine"); ("", "StartMaxHeight"); ("", "StartMaxHeightMargin");
    ("", "StartHeightRef"); ("", "StartRadius"); ("", "StartMaxSpeed");
    ("", "StartMaxSpeedMargin"); ("", "FAISector"); ("", "Radius");
    ("", "FinishLine"); ("", "FinishMinHeight"); ("", "FinishRadius");
    ("", "FAIFinishHeight") ].

(** The length in degrees of the shorter arc between two compass
    directions. *)
Definition arc (a b : Z) : Z := Z.min ((a - b) mod 360) ((b - a) mod 360).

(** ** SceneryTimeProcess (lines 64-67) *)


(** The WP file line of point [i] (lines 180-181):
    [index,latitude,longitude,altitudeM,T,name,raw name]. *)
Definition wp_line (tpNum i : Z) (d : TPDecl) : string :=
  Convert i +:+ "," +:+ Coord2DDMMFF_lat (Latitude (TPPosX d) (TPPosY d))
  +:+ "," +:+ Coord2DDMMFF_lon (Longitude (TPPosX d) (TPPosY d))
  +:+ "," +:+ ostream_double (altitude_of d) +:+ "M,T,"
  +:+ point_name tpNum i (TPName d) +:+ "," +:+ TPName d.

(** A state with what was written to the WP file forgotten. *)
Definition without_wpFile (st : State) : State :=
  {| settingsTask := settingsTask st;
     taskPointArray := taskPointArray st; startPointArray := startPointArray st;
     waypointArray := waypointArray st; tpsValid := tpsValid st;
     Warning := Warning st; Error := Error st; wpFile := [] |}.

(** [f] applied to what a computation returns. *)
Definition Result_map {A B} (f : A -> B) (r : Result A) : Result B :=
  match r with Throw e => Throw e | Return a => Return (f a) end.

End Engine.

(** ** A sample target, used to run the engine on concrete tasks

    The enumerators carry the values of the XCSoar headers.  The sample
    collaborators read decimal texts and doubles are whole numbers.  The
    trigonometry is a stand-in (sin is the identity, cos is 1, atan2 y x is
    y), which makes the bearing from one point to another the difference of
    their longitudes in whole degrees. *)

Module Sample.

Fixpoint digits_value (s : string) (acc : Z) : option Z :=
  match s with
  | EmptyString => Some acc
  | String c s' =>
      let n := Z.of_nat (Ascii.nat_of_ascii c) in
      if (48 <=? n) && (n <=? 57) then digits_value s' (10 * acc + (n - 48))
      else None
  end.

Definition parse_unsigned (s : string) : option Z :=
  match s with
  | EmptyString => None
  | _ => match digits_value s 0 with
         | Some n => if n <? UINT_MODULUS then Some n else None
         | None => None
         end
  end.

Lemma digits_value_nonneg s : forall acc n,
  0 <= acc -> digits_value s acc = Some n -> 0 <= n.
Proof.
  induction s as [|c s IH]; simpl; intros acc n Hacc Hn.
  - congruence.
  - destruct ((48 <=? Z.of_nat (Ascii.nat_of_ascii c))
              && (Z.of_nat (Ascii.nat_of_ascii c) <=? 57)) eqn:E; [|discriminate].
    apply andb_prop in E as [E1 E2].
    apply Z.leb_le in E1. eapply IH; [|exact Hn]. lia.
Qed.

Lemma parse_unsigned_range s n : parse_unsigned s = Some n -> is_unsigned n.
Proof.
  unfold parse_unsigned, is_unsigned. destruct s as [|c s]; [discriminate|].
  destruct (digits_value (String c s) 0) as [m|] eqn:E; [|discriminate].
  destruct (m <? UINT_MODULUS) eqn:L; [|discriminate].
  intros [= <-]. apply Z.ltb_lt in L.
  split; [|exact L]. exact (digits_value_nonneg _ _ _ (Z.le_refl 0) E).
Qed.

#[export] Instance xcsoar : XCSoarTypes := {|
  AST_CIRCLE := 0; AST_FAI := 1;
  START_CIRCLE := 0; START_LINE := 1; START_SECTOR := 2;
  FINISH_CIRCLE := 0; FINISH_LINE := 1; FINISH_SECTOR := 2;
  WAYPOINT_AAT_CIRCLE := 0; WAYPOINT_AAT_SECTOR := 1;
  AUTOADVANCE_ARMSTART := 3;
  WAYPOINT_TURNPOINT := 2;
  WAYPOINT_INDEX_OFFSET := 100000;
  SECTOR_CLASSIC := 0; SECTOR_WINDOW := 1;
|}.

#[export] Instance collaborators : Collaborators := {|
  Convert_unsigned := parse_unsigned;
  Convert_unsigned_range := parse_unsigned_range;
  double := Z;
  Convert_double := parse_unsigned;
  double_of_unsigned := fun n => n;
  double_of_int := fun n => n;
  double_half := 0;
  dadd := Z.add; dsub := Z.sub; dmul := Z.mul;
  dcos := fun _ => 1; dsin := fun d => d; datan2 := fun y _ => y;
  double_is_zero := fun d => d =? 0;
  static_cast_unsigned := fun d => d mod UINT_MODULUS;
  Deg2Rad := fun d => d; Rad2Deg := fun d => d;
  ostream_double := Convert;
  Latitude := fun x y => default 0 (parse_unsigned y);
  Longitude := fun x y => default 0 (parse_unsigned x);
  Coord2DDMMFF_lat := Convert; Coord2DDMMFF_lon := Convert;
  Coord2DDMMSS_lat := Convert; Coord2DDMMSS_lon := Convert;
  Name := "XCSoar";
  path_append := fun a b => a +:+ "/" +:+ b;
|}.

(** The texts of one task point. *)
Record TPText : Type := {
  t_name : string;
  t_sector : Z;
  t_radius : Z;
  t_angle : Z;
  t_height : Z;
}.

Definition point_keys (i : Z) (t : TPText) : list ((string * string) * string) :=
  [ (("Task", "TPName" +:+ Convert i), t_name t);
    (("Task", "TPPosX" +:+ Convert i), Convert (10 * i));
    (("Task", "TPPosY" +:+ Convert i), Convert (20 * i));
    (("Task", "TPPosZ" +:+ Convert i), "300");
    (("Task", "TPWidth" +:+ Convert i), "0");
    (("Task", "TPSectorType" +:+ Convert i), Convert (t_sector t));
    (("Task", "TPRadius" +:+ Convert i), Convert (t_radius t));
    (("Task", "TPAngle" +:+ Convert i), Convert (t_angle t));
    (("Task", "TPHeight" +:+ Convert i), Convert (t_height t)) ].

(** A task file declaring the points [pts], the takeoff point first. *)
Definition task_file (pts : list TPText) : gmap (string * string) string :=
  list_to_map
    ((("Task", "Count"), Convert (Z.of_nat (length pts)))
     :: concat (imap (fun i t => point_keys (Z.of_nat i) t) pts)).

Definition classic (name : string) (radius angle : Z) : TPText :=
  {| t_name := name; t_sector := 0; t_radius := radius; t_angle := angle;
     t_height := 1500 |}.

(** What [task_file] declares for point [i]. *)
Definition decl_of (i : Z) (t : TPText) : TPDecl :=
  {| TPName := t_name t;
     TPPosX := Convert (10 * i); TPPosY := Convert (20 * i);
     TPWidth := 0; TPPosZ := 300;
     TPSectorTypeStr := Convert (t_sector t); TPSectorType := t_sector t;
     TPRadius := t_radius t; TPAngle := t_angle t; TPHeight := t_height t |}.

(** The loop state of a task without AAT ([aatTime = 0]) and of a task
    with AAT, for a target with ten task points and ten start points. *)
Definition st_plain : State := TaskProcess_init ∅ 0 10 10.
Definition st_AAT : State := TaskProcess_init ∅ 60 10 10.

(** A task file with two penalty zones, the first on the ground, the second
    from 500 m up. *)
Definition zone_keys (i : Z) (top : string) (base : Z)
    : list ((string * string) * string) :=
  [ (("Task", "PZTop" +:+ Convert i), top);
    (("Task", "PZBase" +:+ Convert i), Convert base);
    (("Task", "PZPos0X" +:+ Convert i), "100");
    (("Task", "PZPos0Y" +:+ Convert i), "200");
    (("Task", "PZPos1X" +:+ Convert i), "101");
    (("Task", "PZPos1Y" +:+ Convert i), "201");
    (("Task", "PZPos2X" +:+ Convert i), "102");
    (("Task", "PZPos2Y" +:+ Convert i), "202");
    (("Task", "PZPos3X" +:+ Convert i), "103");
    (("Task", "PZPos3Y" +:+ Convert i), "203") ].

Definition zones_file : gmap (string * string) string :=
  list_to_map ((("Task", "PZCount"), "2")
               :: zone_keys 0 "1500" 0 ++ zone_keys 1 "2500" 500).

Definition no_zones_file : gmap (string * string) string :=
  list_to_map [(("Task", "PZCount"), "0")].

Definition zones_decl (i : Z) : PZDecl :=
  {| PZTop := if i =? 0 then "1500" else "2500";
     PZBase := if i =? 0 then 0 else 500;
     PZPosX := fun j => Convert (100 + j);
     PZPosY := fun j => Convert (200 + j) |}.

(** What [task_file pts] declares for each of its points. *)
Definition decls_of (pts : list TPText) (i : Z) : TPDecl :=
  decl_of i (default (classic "" 0 0) (pts !! Z.to_nat i)).

Definition points_360 : list TPText :=
  [classic "TO" 0 0; classic "A" 500 90; classic "B" 1000 360;
   classic "C" 400 180].

End Sample.


(** * Properties *)

Section Properties.
Context `{X : XCSoarTypes} `{C : Collaborators}.

Implicit Types (taskParser profileParser : gmap (string * string) string).
Implicit Types (st : State) (d : TPDecl) (i tpNum : Z).

Lemma bind_Return {A B} (f : A -> Result B) (a : A) : (Return a ≫= f) = f a.
Proof. reflexivity. Qed.

Lemma usub_1 tpNum : 1 <= tpNum < UINT_MODULUS -> usub tpNum 1 = tpNum - 1.
Proof. intros H. unfold usub. apply Z.mod_small. lia. Qed.

(** Filling the waypoint touches the task-point table, the waypoint list
    and the WP file only. *)
Lemma fill_waypoint_frame tpNum gen i tpName x y alt st :
  let st2 := fill_waypoint tpNum gen i tpName x y alt st in
  settingsTask st2 = settingsTask st /\ tpsValid st2 = tpsValid st
  /\ Warning st2 = Warning st /\ Error st2 = Error st
  /\ startPointArray st2 = startPointArray st.
Proof. unfold fill_waypoint. destruct gen; simpl; auto. Qed.

Lemma fill_waypoint_settings tpNum gen i tpName x y alt st :
  settingsTask (fill_waypoint tpNum gen i tpName x y alt st) = settingsTask st.
Proof. apply fill_waypoint_frame. Qed.

Lemma fill_waypoint_tpsValid tpNum gen i tpName x y alt st :
  tpsValid (fill_waypoint tpNum gen i tpName x y alt st) = tpsValid st.
Proof. apply fill_waypoint_frame. Qed.

Lemma fill_waypoint_Warning tpNum gen i tpName x y alt st :
  Warning (fill_waypoint tpNum gen i tpName x y alt st) = Warning st.
Proof. apply fill_waypoint_frame. Qed.

Lemma fill_waypoint_Error tpNum gen i tpName x y alt st :
  Error (fill_waypoint tpNum gen i tpName x y alt st) = Error st.
Proof. apply fill_waypoint_frame. Qed.

(** On a declared point the reads of the loop body succeed, and what is
    left is the dispatch on the sector type. *)
Lemma TaskProcess_point_declared taskParser tpNum gen i d st :
  declares taskParser i d ->
  TaskProcess_point taskParser tpNum gen i st =
    let name := point_name tpNum i (TPName d) in
    let st2 := fill_waypoint tpNum gen i (TPName d) (TPPosX d) (TPPosY d)
                 (altitude_of d) st in
    if TPSectorType d =? SECTOR_CLASSIC then
      if AAT_point tpNum i st
      then AAT_waypoint taskParser i (TPRadius d) (TPAngle d)
             (Longitude (TPPosX d) (TPPosY d)) (Latitude (TPPosX d) (TPPosY d)) st2
      else regular_waypoint taskParser tpNum i (TPRadius d) (TPAngle d) name st2
    else if TPSectorType d =? SECTOR_WINDOW then
      Return (warn (warning_window name) st2)
    else
      Return (report (error_sector_type (TPSectorTypeStr d) name) st2).
Proof.
  intros [Hn Hx Hy Hw Hz Hss Hs Hr Ha Hh].
  unfold TaskProcess_point.
  rewrite Hn, bind_Return, Hx, bind_Return, Hy, bind_Return, Hw, bind_Return.
  replace (if TPWidth d =? 0 then TaskDouble taskParser "TPPosZ" i
           else Return (double_of_unsigned (TPWidth d)))
    with (Return (altitude_of d) : Result double)
    by (unfold altitude_of; rewrite Hz; now destruct (TPWidth d =? 0)).
  rewrite bind_Return, Hss, bind_Return, Hs, bind_Return.
  cbv zeta.
  destruct (TPSectorType d =? SECTOR_CLASSIC); [|reflexivity].
  rewrite Hr, bind_Return, Ha, bind_Return.
  unfold AAT_point. rewrite fill_waypoint_settings.
  reflexivity.
Qed.

(** On a declared point a start, finish or regular point is the sector
    switch followed by the start or finish settings. *)
Lemma regular_waypoint_declared taskParser tpNum i d name st :
  declares taskParser i d ->
  regular_waypoint taskParser tpNum i (TPRadius d) (TPAngle d) name st =
    Return
      (let st1 := sector_switch i tpNum (TPRadius d) name (TPAngle d) st in
       if i =? 1 then with_settings (set_Start (TPRadius d) (TPHeight d)) st1
       else if i =? usub tpNum 1
            then with_settings (set_Finish (TPRadius d) 0) st1
            else st1).
Proof.
  intros Hd. unfold regular_waypoint. cbv zeta.
  rewrite (declares_TPHeight _ _ _ Hd), bind_Return.
  destruct (i =? 1); [reflexivity|].
  destruct (i =? usub tpNum 1); reflexivity.
Qed.

(** ** Unmapped angles *)

Ltac is_false b := replace b with false by (symmetry; first [apply Z.eqb_neq | apply Z.ltb_ge | apply Z.leb_gt]; lia).
Ltac is_true b := replace b with true by (symmetry; first [apply Z.eqb_eq | apply Z.ltb_lt | apply Z.leb_le]; lia).

(** C7. An intermediate point of a task without AAT, of classic sector type,
    whose angle is none of 90, 180, 270 and 360: processing it succeeds and
    leaves the task-level sector type and radius (indeed all the task
    settings and the validity flag) as they were, and writes nothing to the
    warning and error sinks. *)
Theorem other_angle_silently_dropped taskParser tpNum gen i d st :
  is_unsigned tpNum ->
  intermediate tpNum i ->
  AATEnabled (settingsTask st) = false ->
  declares taskParser i d ->
  TPSectorType d = SECTOR_CLASSIC ->
  TPAngle d <> 90 -> TPAngle d <> 180 -> TPAngle d <> 270 -> TPAngle d <> 360 ->
  exists st',
    TaskProcess_point taskParser tpNum gen i st = Return st'
    /\ SectorType (settingsTask st') = SectorType (settingsTask st)
    /\ SectorRadius (settingsTask st') = SectorRadius (settingsTask st)
    /\ settingsTask st' = settingsTask st
    /\ tpsValid st' = tpsValid st
    /\ Warning st' = Warning st
    /\ Error st' = Error st.
Proof.
  intros Hu [Hi1 Hi2] Haat Hd Hs H90 H180 H270 H360.
  assert (Hsub : usub tpNum 1 = tpNum - 1) by (apply usub_1; unfold is_unsigned in Hu; lia).
  rewrite (TaskProcess_point_declared _ _ _ _ _ _ Hd). cbv zeta.
  unfold AAT_point. rewrite Hs, Z.eqb_refl, Haat. cbn [andb].
  rewrite (regular_waypoint_declared _ _ _ _ _ _ Hd). cbv zeta.
  rewrite Hsub.
  is_false (i =? 1). is_false (i =? tpNum - 1).
  unfold sector_switch.
  is_false (TPAngle d =? 90). is_false (TPAngle d =? 180).
  is_false (TPAngle d =? 270). is_false (TPAngle d =? 360).
  eexists. split; [reflexivity|].
  pose proof (fill_waypoint_frame tpNum gen i (TPName d) (TPPosX d) (TPPosY d)
                (altitude_of d) st) as F.
  cbv zeta in F. destruct F as (F1 & F2 & F3 & F4 & _).
  rewrite F1, F2, F3, F4. repeat split; reflexivity.
Qed.

(** ** Angle 270 *)

Lemma fill_waypoint_warn tpNum gen i tpName x y alt msg st :
  fill_waypoint tpNum gen i tpName x y alt (warn msg st)
  = warn msg (fill_waypoint tpNum gen i tpName x y alt st).
Proof. unfold fill_waypoint. destruct gen; reflexivity. Qed.

(** C6, amended. A point of classic sector type and angle 270 that is not
    handled as an AAT point (the start, the finish, or any point of a task
    without AAT): the "angle '270'" warning is emitted, and from there the
    point is processed exactly as the same point with angle 360 would be.
    At the start this sets the start type to circle, at the finish the
    finish type to circle; at an intermediate point the task sector type
    becomes circle, unless an earlier intermediate point left another type,
    in which case type and radius stay and the task is flagged as not
    uniform. *)
Theorem angle_270_warns_then_as_360 taskParser taskParser' tpNum gen i d st :
  is_unsigned tpNum ->
  1 <= i < tpNum ->
  AAT_point tpNum i st = false ->
  declares taskParser i d ->
  TPSectorType d = SECTOR_CLASSIC ->
  TPAngle d = 270 ->
  declares taskParser' i (with_TPAngle 360 d) ->
  let w := warning_270 (point_name tpNum i (TPName d)) in
  exists st',
    TaskProcess_point taskParser tpNum gen i st = Return st'
    /\ TaskProcess_point taskParser' tpNum gen i (warn w st) = Return st'
    /\ (exists rest, Warning st' = (Warning st ++ w :: rest)%list)
    /\ (i = 1 -> StartType (settingsTask st') = START_CIRCLE)
    /\ (i <> 1 -> i = tpNum - 1 ->
        FinishType (settingsTask st') = FINISH_CIRCLE)
    /\ (intermediate tpNum i ->
        (i = 2 \/ SectorType (settingsTask st) = AST_CIRCLE ->
         SectorType (settingsTask st') = AST_CIRCLE)
        /\ (2 < i -> SectorType (settingsTask st) <> AST_CIRCLE ->
            tpsValid st' = false
            /\ SectorType (settingsTask st') = SectorType (settingsTask st)
            /\ SectorRadius (settingsTask st') = SectorRadius (settingsTask st))).
Proof.
  intros Hu Hi Haat Hd Hs Ha Hd' w.
  assert (Hsub : usub tpNum 1 = tpNum - 1)
    by (apply usub_1; unfold is_unsigned in Hu; lia).
  rewrite (TaskProcess_point_declared _ _ _ _ _ _ Hd).
  rewrite (TaskProcess_point_declared _ _ _ _ _ _ Hd').
  cbv zeta. cbn [with_TPAngle TPName TPPosX TPPosY TPSectorType TPRadius TPAngle].
  replace (altitude_of (with_TPAngle 360 d)) with (altitude_of d) by reflexivity.
  replace (AAT_point tpNum i (warn w st)) with (AAT_point tpNum i st)
    by reflexivity.
  rewrite Hs, Z.eqb_refl, Haat.
  rewrite (regular_waypoint_declared _ _ _ _ _ _ Hd).
  pose proof (regular_waypoint_declared taskParser' tpNum i (with_TPAngle 360 d)
                (point_name tpNum i (TPName d))
                (fill_waypoint tpNum gen i (TPName d) (TPPosX d) (TPPosY d)
                   (altitude_of d) (warn w st)) Hd') as R.
  cbn [with_TPAngle TPName TPPosX TPPosY TPSectorType TPRadius TPAngle TPHeight] in R.
  rewrite R. clear R.
  cbv zeta. rewrite Ha, fill_waypoint_warn, Hsub.
  unfold sector_switch. cbn [Z.eqb Pos.eqb].
  fold w.
  pose proof (fill_waypoint_frame tpNum gen i (TPName d) (TPPosX d) (TPPosY d)
                (altitude_of d) st) as F.
  cbv zeta in F. destruct F as (F1 & F2 & F3 & F4 & _).
  set (st2 := fill_waypoint tpNum gen i (TPName d) (TPPosX d) (TPPosY d)
                (altitude_of d) st) in *.
  clearbody st2.
  eexists. split; [reflexivity|]. split; [reflexivity|].
  unfold case_360. rewrite Hsub.
  destruct (Z.eqb_spec i 1) as [E1|N1].
  { cbn. rewrite F3. split; [eexists; reflexivity|].
    split; [reflexivity|]. split; [lia|]. unfold intermediate. lia. }
  destruct (Z.eqb_spec i (tpNum - 1)) as [E2|N2].
  { cbn. rewrite F3. split; [eexists; reflexivity|].
    split; [lia|]. split; [reflexivity|]. unfold intermediate. lia. }
  cbn [warn settingsTask].
  destruct (Z.ltb_spec 2 i) as [L|L];
    destruct (Z.eqb_spec (SectorType (settingsTask st2)) AST_CIRCLE) as [E|N];
    cbn [andb negb].
  all: try (destruct (Z.eqb_spec (SectorRadius
              (settingsTask (with_settings (set_SectorType AST_CIRCLE)
                 (warn w st2)))) (TPRadius d)));
       cbn; rewrite ?F1, ?F2, ?F3 in *.
  all: split; [eexists; try reflexivity|].
  all: try (rewrite <- app_assoc; reflexivity).
  all: try (rewrite app_nil_r; reflexivity).
  all: split; [lia|]; split; [lia|]; intros _; split.
  all: try (intros [?|?]; first [reflexivity | lia | congruence]).
  all: try (intros ? ?; first [lia | congruence | auto]).
Qed.

(** ** Whole runs *)

(** The keys [profile_write] sets. *)
Lemma profile_write_lookup s profileParser :
  let p := profile_write s profileParser in
  p !! ("", "StartLine") = Some (Convert (StartType s))
  /\ p !! ("", "StartMaxHeight") = Some (Convert (StartMaxHeight s))
  /\ p !! ("", "StartMaxHeightMargin") = Some "0"
  /\ p !! ("", "StartHeightRef") = Some "1"
  /\ p !! ("", "StartRadius") = Some (Convert (StartRadius s))
  /\ p !! ("", "StartMaxSpeed") = Some "0"
  /\ p !! ("", "StartMaxSpeedMargin") = Some "0"
  /\ p !! ("", "FAISector") = Some (Convert (SectorType s))
  /\ p !! ("", "Radius") = Some (Convert (SectorRadius s))
  /\ p !! ("", "FinishLine") = Some (Convert (FinishType s))
  /\ p !! ("", "FinishMinHeight") = Some (Convert (FinishMinHeight s))
  /\ p !! ("", "FinishRadius") = Some (Convert (FinishRadius s))
  /\ p !! ("", "FAIFinishHeight") = Some (Convert (FinishMinHeight s)).
Proof.
  unfold profile_write. cbv zeta.
  repeat split;
    repeat first [ apply lookup_insert_eq
                 | rewrite lookup_insert_ne by discriminate ].
Qed.

(** Reads a key of the written profile off [profile_write_lookup]. *)
Ltac profile_key :=
  lazymatch goal with
  | |- profile_write ?s ?p !! ?k = _ =>
      let P := fresh "P" in
      pose proof (profile_write_lookup s p) as P; cbv zeta in P;
      decompose [and] P; clear P;
      match goal with
      | H : profile_write s p !! k = _ |- _ => rewrite H
      end
  end.

(** Projections of a state built by the loop body. *)
Ltac state_simpl :=
  cbn [settingsTask taskPointArray startPointArray waypointArray tpsValid
       Warning Error wpFile
       with_settings with_taskPoint emplace_back invalidate warn report
       wpFile_line
       AATEnabled AATTaskLength AutoAdvance EnableMultipleStartPoints
       StartType StartRadius StartMaxHeight SectorType SectorRadius
       FinishType FinishRadius FinishMinHeight
       set_AAT set_AutoAdvance set_StartType set_Start set_SectorType
       set_SectorRadius set_FinishType set_Finish
       andb negb orb app].

Ltac state_eval :=
  repeat (progress (state_simpl;
                    rewrite ?fill_waypoint_settings, ?fill_waypoint_tpsValid,
                      ?fill_waypoint_Warning, ?fill_waypoint_Error, ?Z.eqb_refl;
                    cbn [Z.eqb Pos.eqb Z.ltb Z.leb Z.compare Pos.compare
                         Pos.compare_cont andb negb orb Z.min]));
  change (usub 4 1) with 3; change (usub 5 1) with 4.

(** One iteration of the loop on a declared point of classic type, of known
    angle and radius, that is not an AAT point. *)
Ltac regular_step Hd Hs Ha Hr :=
  cbn [TaskProcess_loop];
  rewrite (TaskProcess_point_declared _ _ _ _ _ _ Hd); cbv zeta;
  rewrite Hs, Z.eqb_refl;
  unfold AAT_point at 1; state_eval;
  rewrite (regular_waypoint_declared _ _ _ _ _ _ Hd), bind_Return; cbv zeta;
  rewrite ?Ha, ?Hr; unfold sector_switch, case_90, case_180, case_360;
  state_eval.

(** C5. A task of a start (angle 90, radius 500), one intermediate point
    (angle 360, radius 1000) and a finish (angle 180, radius 400), all of
    classic type, translated without AAT: the start is a sector of radius
    500, the task sector a circle of radius 1000, the finish a line of radius
    400, and the warning and error sinks stay empty. *)
Theorem three_point_task profileParser taskParser maxTaskPoints maxStartPoints
    gen d1 d2 d3 :
  (Value taskParser "Task" "Count" ≫= Convert_u) = Return 4 ->
  3 <= maxTaskPoints ->
  declares taskParser 1 d1 -> declares taskParser 2 d2 ->
  declares taskParser 3 d3 ->
  TPSectorType d1 = SECTOR_CLASSIC -> TPAngle d1 = 90 -> TPRadius d1 = 500 ->
  TPSectorType d2 = SECTOR_CLASSIC -> TPAngle d2 = 360 -> TPRadius d2 = 1000 ->
  TPSectorType d3 = SECTOR_CLASSIC -> TPAngle d3 = 180 -> TPRadius d3 = 400 ->
  exists profile st,
    TaskProcess profileParser taskParser 0 maxTaskPoints maxStartPoints gen
      = Return (profile, st)
    /\ StartType (settingsTask st) = START_SECTOR
    /\ StartRadius (settingsTask st) = 500
    /\ SectorType (settingsTask st) = AST_CIRCLE
    /\ SectorRadius (settingsTask st) = 1000
    /\ FinishType (settingsTask st) = FINISH_LINE
    /\ FinishRadius (settingsTask st) = 400
    /\ Warning st = [] /\ Error st = []
    /\ profile !! ("", "StartLine") = Some (Convert START_SECTOR)
    /\ profile !! ("", "StartRadius") = Some (Convert 500)
    /\ profile !! ("", "FAISector") = Some (Convert AST_CIRCLE)
    /\ profile !! ("", "Radius") = Some (Convert 1000)
    /\ profile !! ("", "FinishLine") = Some (Convert FINISH_LINE)
    /\ profile !! ("", "FinishRadius") = Some (Convert 400).
Proof.
  intros HC Hmax Hd1 Hd2 Hd3 Hs1 Ha1 Hr1 Hs2 Ha2 Hr2 Hs3 Ha3 Hr3.
  unfold TaskProcess. rewrite HC, bind_Return.
  change (usub 4 1) with 3. is_false (maxTaskPoints <? 3).
  change (Z.to_nat (4 - 1)) with 3%nat.
  unfold TaskProcess_init.
  regular_step Hd1 Hs1 Ha1 Hr1. change (1 + 1) with 2.
  regular_step Hd2 Hs2 Ha2 Hr2. change (2 + 1) with 3.
  regular_step Hd3 Hs3 Ha3 Hr3.
  cbn [TaskProcess_loop]. rewrite bind_Return. state_eval.
  eexists _, _. split; [reflexivity|].
  repeat split; try (state_eval; reflexivity).
  all: profile_key; state_eval; reflexivity.
Qed.

(** ** Sector conflicts between intermediate points *)

(** The sector switch writes the start, sector and finish types, the sector
    radius, the validity flag and warnings; nothing else. *)
Lemma sector_switch_frame i tpNum radius name angle st :
  let st' := sector_switch i tpNum radius name angle st in
  Error st' = Error st
  /\ AATEnabled (settingsTask st') = AATEnabled (settingsTask st)
  /\ FinishMinHeight (settingsTask st') = FinishMinHeight (settingsTask st)
  /\ taskPointArray st' = taskPointArray st
  /\ waypointArray st' = waypointArray st.
Proof.
  unfold sector_switch, case_90, case_180, case_360.
  repeat match goal with
         | |- context [if ?b then _ else _] => destruct b
         end; cbn; auto.
Qed.


(** After the loop, a task flagged as not uniform ends its warnings with
    the summary warning (lines 323-324). *)
Lemma TaskProcess_not_uniform profileParser taskParser aatTime maxTaskPoints
    maxStartPoints gen profile st :
  TaskProcess profileParser taskParser aatTime maxTaskPoints maxStartPoints gen
    = Return (profile, st) ->
  tpsValid st = false ->
  exists ws, Warning st = (ws ++ [warning_not_uniform])%list.
Proof.
  unfold TaskProcess. intros H Hv.
  destruct (Value taskParser "Task" "Count" ≫= Convert_u) as [e|tpNum];
    [discriminate|].
  rewrite bind_Return in H.
  destruct (maxTaskPoints <? usub tpNum 1); [discriminate|].
  destruct (TaskProcess_loop _ _ _ _ _ _) as [e|st1]; [discriminate|].
  rewrite bind_Return in H. cbv zeta in H.
  injection H as _ <-.
  destruct (tpsValid st1) eqn:E; [congruence|].
  exists (Warning st1). reflexivity.
Qed.

(** An intermediate point of classic type and angle 90 or 360 that follows
    another intermediate point, in a task without AAT. *)
Lemma conflict_step taskParser tpNum gen i d st :
  is_unsigned tpNum ->
  intermediate tpNum i -> 2 < i ->
  AATEnabled (settingsTask st) = false ->
  declares taskParser i d ->
  TPSectorType d = SECTOR_CLASSIC ->
  let name := point_name tpNum i (TPName d) in
  let s := settingsTask st in
  exists st',
    TaskProcess_point taskParser tpNum gen i st = Return st'
    /\ Error st' = Error st
    /\ AATEnabled (settingsTask st') = false
    /\ (TPAngle d = 90 ->
        (SectorType s = AST_FAI -> SectorRadius s <> TPRadius d ->
         SectorType (settingsTask st') = AST_FAI
         /\ SectorRadius (settingsTask st') = Z.min (SectorRadius s) (TPRadius d)
         /\ Warning st' = (Warning st ++ [warning_FAI_radius name])%list
         /\ tpsValid st' = tpsValid st)
        /\ (SectorType s = AST_FAI -> SectorRadius s = TPRadius d ->
            SectorType (settingsTask st') = AST_FAI
            /\ SectorRadius (settingsTask st') = SectorRadius s
            /\ Warning st' = Warning st
            /\ tpsValid st' = tpsValid st)
        /\ (SectorType s <> AST_FAI ->
            SectorType (settingsTask st') = AST_FAI
            /\ SectorRadius (settingsTask st') = TPRadius d
            /\ Warning st' = Warning st
            /\ tpsValid st' = false))
    /\ (TPAngle d = 360 ->
        (SectorType s = AST_CIRCLE -> SectorRadius s <> TPRadius d ->
         SectorType (settingsTask st') = AST_CIRCLE
         /\ SectorRadius (settingsTask st') = Z.min (SectorRadius s) (TPRadius d)
         /\ Warning st' = (Warning st ++ [warning_circle_radius name])%list
         /\ tpsValid st' = tpsValid st)
        /\ (SectorType s = AST_CIRCLE -> SectorRadius s = TPRadius d ->
            SectorType (settingsTask st') = AST_CIRCLE
            /\ SectorRadius (settingsTask st') = SectorRadius s
            /\ Warning st' = Warning st
            /\ tpsValid st' = tpsValid st)
        /\ (SectorType s <> AST_CIRCLE ->
            SectorType (settingsTask st') = SectorType s
            /\ SectorRadius (settingsTask st') = SectorRadius s
            /\ Warning st' = Warning st
            /\ tpsValid st' = false)).
Proof.
  intros Hu [Hi1 Hi2] H2 Haat Hd Hs name s.
  assert (Hsub : usub tpNum 1 = tpNum - 1)
    by (apply usub_1; unfold is_unsigned in Hu; lia).
  rewrite (TaskProcess_point_declared _ _ _ _ _ _ Hd). cbv zeta.
  unfold AAT_point. rewrite Hs, Z.eqb_refl, Haat. cbn [andb].
  rewrite (regular_waypoint_declared _ _ _ _ _ _ Hd). cbv zeta.
  rewrite Hsub. is_false (i =? 1). is_false (i =? tpNum - 1).
  fold name.
  pose proof (fill_waypoint_frame tpNum gen i (TPName d) (TPPosX d) (TPPosY d)
                (altitude_of d) st) as F.
  cbv zeta in F. destruct F as (F1 & F2 & F3 & F4 & _).
  set (st2 := fill_waypoint tpNum gen i (TPName d) (TPPosX d) (TPPosY d)
                (altitude_of d) st) in *.
  clearbody st2. fold s in F1.
  eexists. split; [reflexivity|].
  pose proof (sector_switch_frame i tpNum (TPRadius d) name (TPAngle d) st2)
    as (S1 & S2 & _).
  split; [rewrite S1; exact F4|].
  split; [rewrite S2, F1; exact Haat|].
  clear S1 S2.
  unfold sector_switch, case_90, case_360. rewrite Hsub.
  is_false (i =? 1). is_false (i =? tpNum - 1). is_true (2 <? i).
  cbn [andb]. rewrite F1.
  split.
  - intros ->. cbn [Z.eqb Pos.eqb].
    destruct (Z.eqb_spec (SectorType s) AST_FAI) as [E|N]; cbn [negb].
    + state_simpl. rewrite F1.
      destruct (Z.eqb_spec (SectorRadius s) (TPRadius d)) as [Er|Nr];
        cbn [negb]; state_simpl; rewrite ?F1, ?F2, ?F3.
      * repeat split; intros; first [congruence | reflexivity].
      * repeat split; intros; first [congruence | reflexivity].
    + state_simpl. rewrite Z.eqb_refl. cbn [negb]. state_simpl.
      rewrite ?F1, ?F2, ?F3.
      repeat split; intros; first [congruence | reflexivity].
  - intros ->. cbn [Z.eqb Pos.eqb].
    destruct (Z.eqb_spec (SectorType s) AST_CIRCLE) as [E|N]; cbn [negb].
    + state_simpl. rewrite F1.
      destruct (Z.eqb_spec (SectorRadius s) (TPRadius d)) as [Er|Nr];
        cbn [negb]; state_simpl; rewrite ?F1, ?F2, ?F3.
      * repeat split; intros; first [congruence | reflexivity].
      * repeat split; intros; first [congruence | reflexivity].
    + state_simpl. rewrite ?F1, ?F2, ?F3.
      repeat split; intros; first [congruence | reflexivity].
Qed.

(** Comparisons of an angle the context knows to differ from a constant. *)
Ltac angle_neq :=
  repeat match goal with
         | H : ?a <> ?b |- context [?a =? ?b] =>
             rewrite (proj2 (Z.eqb_neq a b) H)
         end.

(** The angles the switch tells apart, 270 excluded. *)
Lemma angle_cases (a : Z) :
  a <> 270 ->
  a = 90 \/ a = 180 \/ a = 360
  \/ (a <> 90 /\ a <> 180 /\ a <> 270 /\ a <> 360).
Proof. lia. Qed.

(** Two intermediate points of angle 90 and radii 500 and 300, between a
    start and a finish that raise no warning of their own. *)
Lemma two_FAI_points profileParser taskParser maxTaskPoints maxStartPoints
    gen d1 d2 d3 d4 :
  (Value taskParser "Task" "Count" ≫= Convert_u) = Return 5 ->
  4 <= maxTaskPoints ->
  declares taskParser 1 d1 -> declares taskParser 2 d2 ->
  declares taskParser 3 d3 -> declares taskParser 4 d4 ->
  TPSectorType d1 = SECTOR_CLASSIC -> TPAngle d1 <> 270 ->
  TPSectorType d2 = SECTOR_CLASSIC -> TPAngle d2 = 90 -> TPRadius d2 = 500 ->
  TPSectorType d3 = SECTOR_CLASSIC -> TPAngle d3 = 90 -> TPRadius d3 = 300 ->
  TPSectorType d4 = SECTOR_CLASSIC -> TPAngle d4 <> 270 ->
  exists profile st,
    TaskProcess profileParser taskParser 0 maxTaskPoints maxStartPoints gen
      = Return (profile, st)
    /\ SectorType (settingsTask st) = AST_FAI
    /\ SectorRadius (settingsTask st) = 300
    /\ Warning st = [warning_FAI_radius (Convert 2 +:+ ":" +:+ TPName d3)]
    /\ tpsValid st = true
    /\ profile !! ("", "Radius") = Some (Convert 300).
Proof.
  intros HC Hmax Hd1 Hd2 Hd3 Hd4 Hs1 Ha1 Hs2 Ha2 Hr2 Hs3 Ha3 Hr3 Hs4 Ha4.
  unfold TaskProcess. rewrite HC, bind_Return.
  change (usub 5 1) with 4. is_false (maxTaskPoints <? 4).
  change (Z.to_nat (5 - 1)) with 4%nat.
  unfold TaskProcess_init.
  destruct (angle_cases _ Ha1) as [E1|[E1|[E1|(N1 & N2 & N3 & N4)]]];
    destruct (angle_cases _ Ha4) as [E4|[E4|[E4|(M1 & M2 & M3 & M4)]]].
  all: regular_step Hd1 Hs1 E1 E1; angle_neq; state_eval;
       change (1 + 1) with 2;
       regular_step Hd2 Hs2 Ha2 Hr2; change (2 + 1) with 3;
       regular_step Hd3 Hs3 Ha3 Hr3; change (3 + 1) with 4;
       regular_step Hd4 Hs4 E4 E4; angle_neq; state_eval;
       cbn [TaskProcess_loop]; rewrite bind_Return; state_eval;
       eexists _, _; (split; [reflexivity|]);
       repeat split; try (state_eval; reflexivity);
       profile_key; state_eval; reflexivity.
Qed.

(** C1, amended. In a task without AAT, let an intermediate point of classic
    type and angle 90 (candidate type FAI) or 360 (candidate type circle)
    follow another intermediate point.
    - If the task sector type already is the candidate and the radii differ,
      the smaller radius is kept and the point's "smallest radius" warning is
      emitted; if the radii agree nothing changes.
    - If the task sector type is another one, no radius is compared and no
      warning names the point: the task is flagged as not uniform; angle 90
      switches the task to FAI with the point's own radius, angle 360 leaves
      type and radius as they were.
    A task flagged as not uniform ends with the summary warning.  In
    particular two intermediate points of angle 90 and radii 500 and 300
    give the task sector radius 300 and exactly one warning. *)
Theorem sector_conflict_policy :
  (forall taskParser tpNum gen i d st,
     is_unsigned tpNum ->
     intermediate tpNum i -> 2 < i ->
     AATEnabled (settingsTask st) = false ->
     declares taskParser i d ->
     TPSectorType d = SECTOR_CLASSIC ->
     let name := point_name tpNum i (TPName d) in
     let s := settingsTask st in
     exists st',
       TaskProcess_point taskParser tpNum gen i st = Return st'
       /\ Error st' = Error st
       /\ AATEnabled (settingsTask st') = false
       /\ (TPAngle d = 90 ->
           (SectorType s = AST_FAI -> SectorRadius s <> TPRadius d ->
            SectorType (settingsTask st') = AST_FAI
            /\ SectorRadius (settingsTask st')
               = Z.min (SectorRadius s) (TPRadius d)
            /\ Warning st' = (Warning st ++ [warning_FAI_radius name])%list
            /\ tpsValid st' = tpsValid st)
           /\ (SectorType s = AST_FAI -> SectorRadius s = TPRadius d ->
               SectorType (settingsTask st') = AST_FAI
               /\ SectorRadius (settingsTask st') = SectorRadius s
               /\ Warning st' = Warning st
               /\ tpsValid st' = tpsValid st)
           /\ (SectorType s <> AST_FAI ->
               SectorType (settingsTask st') = AST_FAI
               /\ SectorRadius (settingsTask st') = TPRadius d
               /\ Warning st' = Warning st
               /\ tpsValid st' = false))
       /\ (TPAngle d = 360 ->
           (SectorType s = AST_CIRCLE -> SectorRadius s <> TPRadius d ->
            SectorType (settingsTask st') = AST_CIRCLE
            /\ SectorRadius (settingsTask st')
               = Z.min (SectorRadius s) (TPRadius d)
            /\ Warning st' = (Warning st ++ [warning_circle_radius name])%list
            /\ tpsValid st' = tpsValid st)
           /\ (SectorType s = AST_CIRCLE -> SectorRadius s = TPRadius d ->
               SectorType (settingsTask st') = AST_CIRCLE
               /\ SectorRadius (settingsTask st') = SectorRadius s
               /\ Warning st' = Warning st
               /\ tpsValid st' = tpsValid st)
           /\ (SectorType s <> AST_CIRCLE ->
               SectorType (settingsTask st') = SectorType s
               /\ SectorRadius (settingsTask st') = SectorRadius s
               /\ Warning st' = Warning st
               /\ tpsValid st' = false)))
  /\ (forall profileParser taskParser aatTime maxTaskPoints maxStartPoints gen
        profile st,
        TaskProcess profileParser taskParser aatTime maxTaskPoints
          maxStartPoints gen = Return (profile, st) ->
        tpsValid st = false ->
        exists ws, Warning st = (ws ++ [warning_not_uniform])%list)
  /\ (forall profileParser taskParser maxTaskPoints maxStartPoints gen
        d1 d2 d3 d4,
        (Value taskParser "Task" "Count" ≫= Convert_u) = Return 5 ->
        4 <= maxTaskPoints ->
        declares taskParser 1 d1 -> declares taskParser 2 d2 ->
        declares taskParser 3 d3 -> declares taskParser 4 d4 ->
        TPSectorType d1 = SECTOR_CLASSIC -> TPAngle d1 <> 270 ->
        TPSectorType d2 = SECTOR_CLASSIC ->
        TPAngle d2 = 90 -> TPRadius d2 = 500 ->
        TPSectorType d3 = SECTOR_CLASSIC ->
        TPAngle d3 = 90 -> TPRadius d3 = 300 ->
        TPSectorType d4 = SECTOR_CLASSIC -> TPAngle d4 <> 270 ->
        exists profile st,
          TaskProcess profileParser taskParser 0 maxTaskPoints maxStartPoints
            gen = Return (profile, st)
          /\ SectorType (settingsTask st) = AST_FAI
          /\ SectorRadius (settingsTask st) = 300
          /\ Warning st
             = [warning_FAI_radius (Convert 2 +:+ ":" +:+ TPName d3)]
          /\ tpsValid st = true
          /\ profile !! ("", "Radius") = Some (Convert 300)).
Proof.
  split; [|split].
  - exact conflict_step.
  - exact TaskProcess_not_uniform.
  - exact two_FAI_points.
Qed.

(** ** Invariants of the loop *)

Lemma bind_Throw {A B} (f : A -> Result B) (e : Exception) :
  (Throw e ≫= f) = Throw e.
Proof. reflexivity. Qed.

(** Case analysis on the reads of a computation known to return. *)
Ltac returns H :=
  repeat first
    [ discriminate H
    | rewrite bind_Return in H
    | rewrite bind_Throw in H
    | match type of H with
      | (?m ≫= _) = Return _ => destruct m eqn:?
      end ];
  cbv zeta in H.

(** What the loop body leaves untouched, whatever the point declares. *)
Lemma TaskProcess_point_frame taskParser tpNum gen i st st' :
  TaskProcess_point taskParser tpNum gen i st = Return st' ->
  AATEnabled (settingsTask st') = AATEnabled (settingsTask st)
  /\ (FinishMinHeight (settingsTask st) = 0 ->
      FinishMinHeight (settingsTask st') = 0)
  /\ startPointArray st' = startPointArray st.
Proof.
  intros H. unfold TaskProcess_point in H. returns H.
  match type of H with
  | context [fill_waypoint ?a ?b ?c ?d ?e ?f ?g ?h] =>
      pose proof (fill_waypoint_frame a b c d e f g h) as F;
      cbv zeta in F; destruct F as (F1 & _ & _ & _ & F5);
      set (st2 := fill_waypoint a b c d e f g h) in *; clearbody st2
  end.
  destruct (_ =? SECTOR_CLASSIC).
  - returns H. destruct (AAT_point tpNum i st2).
    + unfold AAT_waypoint in H.
      destruct (_ =? 360).
      * injection H as <-. cbn. rewrite F1, F5. auto.
      * returns H. injection H as <-. cbn. rewrite F1, F5. auto.
    + unfold regular_waypoint in H. cbv zeta in H.
      match type of H with
      | context [sector_switch ?a ?b ?c ?d ?e ?f] =>
          pose proof (sector_switch_frame a b c d e f) as S;
          cbv zeta in S; destruct S as (_ & S2 & S3 & _);
          assert (S5 : startPointArray (sector_switch a b c d e f)
                       = startPointArray f)
            by (unfold sector_switch, case_90, case_180, case_360;
                repeat match goal with
                       | |- context [if ?b then _ else _] => destruct b
                       end; reflexivity);
          set (st3 := sector_switch a b c d e f) in *; clearbody st3
      end.
      destruct (i =? 1).
      * returns H. injection H as <-. cbn.
        rewrite S2, S3, S5, F1, F5. auto.
      * destruct (i =? usub tpNum 1); injection H as <-; cbn;
          rewrite ?S2, ?S3, ?S5, ?F1, ?F5; auto.
  - destruct (_ =? SECTOR_WINDOW); injection H as <-; cbn;
      rewrite F1, F5; auto.
Qed.

(** A property the body preserves holds after the loop. *)
Lemma TaskProcess_loop_invariant (P : State -> Prop) taskParser tpNum gen :
  (forall i st st',
     P st -> TaskProcess_point taskParser tpNum gen i st = Return st' -> P st') ->
  forall n i st st',
    P st -> TaskProcess_loop taskParser tpNum gen n i st = Return st' -> P st'.
Proof.
  intros Hstep n. induction n as [|n IH]; intros i st st' HP H; cbn in H.
  - injection H as <-. exact HP.
  - destruct (TaskProcess_point taskParser tpNum gen i st) as [e|st1] eqn:E;
      [discriminate|].
    rewrite bind_Return in H. eapply IH; [|exact H]. eapply Hstep; eauto.
Qed.

(** ** The finish height *)

(** C9. Whatever the task declares, a translated task has finish minimum
    height 0, and the profile carries the text of 0 under FinishMinHeight
    and the same value under FAIFinishHeight. *)
Theorem finish_min_height_zero profileParser taskParser aatTime maxTaskPoints
    maxStartPoints gen profile st :
  TaskProcess profileParser taskParser aatTime maxTaskPoints maxStartPoints gen
    = Return (profile, st) ->
  FinishMinHeight (settingsTask st) = 0
  /\ profile !! ("", "FinishMinHeight") = Some "0"
  /\ profile !! ("", "FAIFinishHeight") = profile !! ("", "FinishMinHeight").
Proof.
  unfold TaskProcess. intros H.
  destruct (Value taskParser "Task" "Count" ≫= Convert_u) as [e|tpNum];
    [discriminate|].
  rewrite bind_Return in H.
  destruct (maxTaskPoints <? usub tpNum 1); [discriminate|].
  destruct (TaskProcess_loop _ _ _ _ _ _) as [e|st1] eqn:E; [discriminate|].
  rewrite bind_Return in H. cbv zeta in H. injection H as <- <-.
  assert (Z0 : FinishMinHeight (settingsTask st1) = 0).
  { revert E.
    apply (TaskProcess_loop_invariant
             (fun st => FinishMinHeight (settingsTask st) = 0)).
    - intros j s s' Hs Hb.
      now apply (TaskProcess_point_frame _ _ _ _ _ _ Hb).
    - reflexivity. }
  assert (Z1 : FinishMinHeight
                 (settingsTask (if tpsValid st1 then st1
                                else warn warning_not_uniform st1)) = 0)
    by (destruct (tpsValid st1); exact Z0).
  split; [exact Z1|].
  split; profile_key; [rewrite Z1; reflexivity|].
  symmetry. profile_key. reflexivity.
Qed.

(** ** Capacity and totality *)

Lemma Count_unsigned taskParser tpNum :
  (Value taskParser "Task" "Count" ≫= Convert_u) = Return tpNum ->
  is_unsigned tpNum.
Proof.
  intros H. destruct (Value taskParser "Task" "Count") as [e|s];
    [discriminate|].
  rewrite bind_Return in H. unfold Convert_u in H.
  destruct (Convert_unsigned s) as [n|] eqn:E; [|discriminate].
  injection H as <-. exact (Convert_unsigned_range _ _ E).
Qed.

(** The body returns on every point of a task whose points are declared,
    and appends one waypoint. *)
Lemma TaskProcess_point_total taskParser tpNum gen i st :
  is_unsigned tpNum ->
  (forall j, 1 <= j < tpNum -> exists d, declares taskParser j d) ->
  1 <= i < tpNum ->
  exists st',
    TaskProcess_point taskParser tpNum gen i st = Return st'
    /\ length (waypointArray st') = S (length (waypointArray st))
    /\ length (taskPointArray st') = length (taskPointArray st).
Proof.
  intros Hu Hall Hi.
  assert (Hsub : usub tpNum 1 = tpNum - 1)
    by (apply usub_1; unfold is_unsigned in Hu; lia).
  destruct (Hall i Hi) as [d Hd].
  rewrite (TaskProcess_point_declared _ _ _ _ _ _ Hd). cbv zeta.
  assert (F : forall st2,
            st2 = fill_waypoint tpNum gen i (TPName d) (TPPosX d) (TPPosY d)
                    (altitude_of d) st ->
            length (waypointArray st2) = S (length (waypointArray st))
            /\ length (taskPointArray st2) = length (taskPointArray st)).
  { intros st2 ->. unfold fill_waypoint. destruct gen; cbn.
    all: rewrite length_app, length_alter; cbn; split; lia. }
  specialize (F _ eq_refl). destruct F as [F1 F2].
  set (st2 := fill_waypoint tpNum gen i (TPName d) (TPPosX d) (TPPosY d)
                (altitude_of d) st) in *.
  clearbody st2.
  destruct (TPSectorType d =? SECTOR_CLASSIC).
  - destruct (AAT_point tpNum i st) eqn:A.
    + unfold AAT_point in A. rewrite Hsub in A.
      apply andb_prop in A as [A A3]. apply andb_prop in A as [_ A2].
      apply Z.ltb_lt in A2, A3.
      unfold AAT_waypoint.
      destruct (TPAngle d =? 360).
      * eexists. split; [reflexivity|]. cbn. rewrite length_alter. auto.
      * destruct (Hall (i - 1) ltac:(lia)) as [dp Hp].
        destruct (Hall (i + 1) ltac:(lia)) as [dn Hn].
        rewrite (declares_TPPosX _ _ _ Hp), bind_Return.
        rewrite (declares_TPPosY _ _ _ Hp), bind_Return.
        rewrite (declares_TPPosX _ _ _ Hn), bind_Return.
        rewrite (declares_TPPosY _ _ _ Hn), bind_Return.
        eexists. split; [reflexivity|]. cbn. rewrite length_alter. auto.
    + rewrite (regular_waypoint_declared _ _ _ _ _ _ Hd). cbv zeta.
      pose proof (sector_switch_frame i tpNum (TPRadius d)
                    (point_name tpNum i (TPName d)) (TPAngle d) st2)
        as (_ & _ & _ & S4 & S5).
      eexists. split; [reflexivity|].
      destruct (i =? 1); [|destruct (i =? usub tpNum 1)]; cbn;
        rewrite S4, S5; auto.
  - destruct (TPSectorType d =? SECTOR_WINDOW);
      eexists; (split; [reflexivity|]); cbn; auto.
Qed.

Lemma TaskProcess_loop_total taskParser tpNum gen :
  is_unsigned tpNum ->
  (forall j, 1 <= j < tpNum -> exists d, declares taskParser j d) ->
  forall n i st,
    1 <= i -> i + Z.of_nat n <= tpNum ->
    exists st',
      TaskProcess_loop taskParser tpNum gen n i st = Return st'
      /\ length (waypointArray st') = (length (waypointArray st) + n)%nat
      /\ length (taskPointArray st') = length (taskPointArray st).
Proof.
  intros Hu Hall n. induction n as [|n IH]; intros i st Hi Hn; cbn.
  - exists st. repeat split; lia.
  - destruct (TaskProcess_point_total taskParser tpNum gen i st Hu Hall
                ltac:(lia)) as (st1 & E & L1 & L2).
    rewrite E, bind_Return.
    destruct (IH (i + 1) st1 ltac:(lia) ltac:(lia)) as (st' & E' & L1' & L2').
    exists st'. split; [exact E'|]. split; lia.
Qed.

(** C2. If the number of task points without the takeoff point exceeds
    [maxTaskPoints], [TaskProcess] throws and returns nothing.  On a
    well-formed task file (the takeoff point and every further point
    declared in full) whose point count fits, it returns: the waypoint list
    has one waypoint per point after the takeoff, the task-point table keeps
    its [maxTaskPoints] slots, and the profile carries all the task keys;
    an unsupported angle, a window zone or an unknown sector type of a
    point does not stop it. *)
Theorem capacity_and_totality :
  (forall profileParser taskParser aatTime maxTaskPoints maxStartPoints gen
     tpNum,
     (Value taskParser "Task" "Count" ≫= Convert_u) = Return tpNum ->
     1 <= tpNum ->
     maxTaskPoints < tpNum - 1 ->
     TaskProcess profileParser taskParser aatTime maxTaskPoints maxStartPoints
       gen = Throw (EOperationFailed (too_many_waypoints tpNum maxTaskPoints)))
  /\ (forall profileParser taskParser aatTime maxTaskPoints maxStartPoints gen
        tpNum,
        well_formed_task taskParser tpNum ->
        tpNum - 1 <= maxTaskPoints ->
        exists profile st,
          TaskProcess profileParser taskParser aatTime maxTaskPoints
            maxStartPoints gen = Return (profile, st)
          /\ length (waypointArray st) = Z.to_nat (tpNum - 1)
          /\ length (taskPointArray st) = Z.to_nat maxTaskPoints
          /\ Forall (fun key => is_Some (profile !! ("", key)))
               ["StartLine"; "StartMaxHeight"; "StartMaxHeightMargin";
                "StartHeightRef"; "StartRadius"; "StartMaxSpeed";
                "StartMaxSpeedMargin"; "FAISector"; "Radius"; "FinishLine";
                "FinishMinHeight"; "FinishRadius"; "FAIFinishHeight"]).
Proof.
  split.
  - intros profileParser taskParser aatTime maxTaskPoints maxStartPoints gen
      tpNum HC H1 Hmax.
    pose proof (Count_unsigned _ _ HC) as Hu.
    unfold TaskProcess. rewrite HC, bind_Return.
    rewrite usub_1 by (unfold is_unsigned in Hu; lia).
    is_true (maxTaskPoints <? tpNum - 1). reflexivity.
  - intros profileParser taskParser aatTime maxTaskPoints maxStartPoints gen
      tpNum (HC & H1 & Hall) Hmax.
    pose proof (Count_unsigned _ _ HC) as Hu.
    unfold TaskProcess. rewrite HC, bind_Return.
    rewrite usub_1 by (unfold is_unsigned in Hu; lia).
    is_false (maxTaskPoints <? tpNum - 1).
    destruct (TaskProcess_loop_total taskParser tpNum gen Hu Hall
                (Z.to_nat (tpNum - 1)) 1
                (TaskProcess_init profileParser aatTime maxTaskPoints
                   maxStartPoints) ltac:(lia) ltac:(lia))
      as (st1 & E & L1 & L2).
    rewrite E, bind_Return. cbv zeta.
    eexists _, _. split; [reflexivity|].
    split; [|split].
    + destruct (tpsValid st1); cbn; rewrite L1; reflexivity.
    + destruct (tpsValid st1); cbn; rewrite L2; cbn; apply length_replicate.
    + repeat (constructor; [eexists; profile_key; reflexivity|]).
      constructor.
Qed.

(** C10, amended. A task file that declares 0 points: the capacity check
    computes [0 - 1] on [unsigned], which wraps to [2^32 - 1], so that
    [TaskProcess] throws the "Too many waypoints" error for every capacity
    below [2^32 - 1]. *)
Theorem zero_count_throws profileParser taskParser aatTime maxTaskPoints
    maxStartPoints gen :
  (Value taskParser "Task" "Count" ≫= Convert_u) = Return 0 ->
  0 <= maxTaskPoints < UINT_MAX ->
  usub 0 1 = 2 ^ UINT_BITS - 1
  /\ TaskProcess profileParser taskParser aatTime maxTaskPoints maxStartPoints
       gen = Throw (EOperationFailed (too_many_waypoints 0 maxTaskPoints))
  /\ too_many_waypoints 0 maxTaskPoints
     = "ERROR: Too many waypoints (4294967295) in a task file (only "
       +:+ Convert maxTaskPoints +:+ " supported)!!!".
Proof.
  intros HC Hmax.
  assert (W : usub 0 1 = 4294967295) by reflexivity.
  split; [exact W|]. split.
  - unfold TaskProcess. rewrite HC, bind_Return, W.
    change UINT_MAX with 4294967295 in Hmax.
    is_true (maxTaskPoints <? 4294967295). reflexivity.
  - unfold too_many_waypoints. rewrite W.
    replace (Convert 4294967295) with "4294967295" by (vm_compute; reflexivity).
    reflexivity.
Qed.

(** ** Bearings and AAT sectors *)

(** The bearing is a whole number of degrees in [0, 360). *)
Lemma WaypointBearing_range lon1 lat1 lon2 lat2 :
  0 <= WaypointBearing lon1 lat1 lon2 lat2 < 360.
Proof.
  unfold WaypointBearing. cbv zeta.
  destruct (_ && _); [lia|]. apply Z.mod_pos_bound. lia.
Qed.

(** Coincident points (both arguments of atan2 zero) have bearing 0. *)
Lemma WaypointBearing_coincident lon1 lat1 lon2 lat2 :
  let clat1 := dcos (Deg2Rad lat1) in
  let clat2 := dcos (Deg2Rad lat2) in
  let dlon := dsub (Deg2Rad lon2) (Deg2Rad lon1) in
  let y := dmul (dsin dlon) clat2 in
  let x := dsub (dmul clat1 (dsin (Deg2Rad lat2)))
                (dmul (dmul (dsin (Deg2Rad lat1)) clat2) (dcos dlon)) in
  double_is_zero x = true -> double_is_zero y = true ->
  WaypointBearing lon1 lat1 lon2 lat2 = 0.
Proof.
  cbv zeta. intros Hx Hy. unfold WaypointBearing. cbv zeta.
  rewrite Hx, Hy. reflexivity.
Qed.

Lemma cast_half_small t :
  0 <= t < 2 * UINT_MODULUS -> cast_half t = t / 2.
Proof.
  intros H. unfold cast_half.
  rewrite Z.quot_div_nonneg by lia.
  apply Z.mod_small. split.
  - apply Z.div_pos; lia.
  - apply Z.div_lt_upper_bound; lia.
Qed.

(** The half angle of two bearings: their mean, rounded down to a whole
    degree, turned by 180 degrees when the bearings are more than 180
    degrees apart. *)
Lemma halfAngle_bearings angle1 angle2 :
  0 <= angle1 < 360 -> 0 <= angle2 < 360 ->
  halfAngle angle1 angle2
  = (if 180 <? Z.abs (angle1 - angle2)
     then ((angle1 + angle2) / 2 + 180) mod 360
     else (angle1 + angle2) / 2)
  /\ 0 <= halfAngle angle1 angle2 < 360.
Proof.
  intros H1 H2. unfold halfAngle.
  destruct (Z.eqb_spec angle1 angle2) as [->|N].
  - replace (angle2 - angle2) with 0 by lia. cbn.
    replace (angle2 + angle2) with (angle2 * 2) by lia.
    rewrite Z.div_mul by lia. split; [reflexivity|lia].
  - cbv zeta. unfold uadd, usub.
    change UINT_MODULUS with 4294967296.
    rewrite (Z.mod_small (angle1 + angle2)) by lia.
    rewrite cast_half_small by (change UINT_MODULUS with 4294967296; lia).
    assert (B : 0 <= (angle1 + angle2) / 2 < 360).
    { split; [apply Z.div_pos; lia | apply Z.div_lt_upper_bound; lia]. }
    rewrite (Z.mod_small ((angle1 + angle2) / 2 + 180)) by lia.
    destruct (Z.ltb_spec angle2 angle1) as [L|L];
      destruct (Z.ltb_spec angle1 angle2) as [L'|L']; try lia; cbn [andb orb].
    + rewrite (Z.mod_small (angle1 - angle2)) by lia.
      replace (Z.abs (angle1 - angle2)) with (angle1 - angle2) by lia.
      rewrite orb_false_r.
      destruct (180 <? angle1 - angle2); [|split; [reflexivity|lia]].
      split; [reflexivity|]. apply Z.mod_pos_bound. lia.
    + rewrite (Z.mod_small (angle2 - angle1)) by lia.
      replace (Z.abs (angle1 - angle2)) with (angle2 - angle1) by lia.
      destruct (180 <? angle2 - angle1); [|split; [reflexivity|lia]].
      split; [reflexivity|]. apply Z.mod_pos_bound. lia.
Qed.

(** The radials: the half angle minus and plus half the declared angle,
    rounded down to a whole degree and reduced into [0, 360). *)
Lemma StartRadial_floor h angle :
  0 <= h < 360 -> 0 <= angle <= 720 ->
  StartRadial h angle = ((2 * h - angle) / 2) mod 360.
Proof.
  intros Hh Ha. unfold StartRadial, uadd.
  change UINT_MODULUS with 4294967296.
  rewrite (Z.mod_small (360 + h)) by lia.
  rewrite cast_half_small by (change UINT_MODULUS with 4294967296; lia).
  replace (2 * (360 + h) - angle) with ((2 * h - angle) + 360 * 2) by lia.
  rewrite Z.div_add by lia.
  replace ((2 * h - angle) / 2 + 360) with ((2 * h - angle) / 2 + 1 * 360)
    by lia.
  apply Z.mod_add. lia.
Qed.

Lemma FinishRadial_floor h angle :
  0 <= h < 360 -> is_unsigned angle ->
  FinishRadial h angle = ((2 * h + angle) / 2) mod 360.
Proof.
  unfold is_unsigned. change UINT_MODULUS with 4294967296.
  intros Hh Ha. unfold FinishRadial, uadd.
  change UINT_MODULUS with 4294967296.
  rewrite (Z.mod_small (360 + h)) by lia.
  rewrite cast_half_small by (change UINT_MODULUS with 4294967296; lia).
  replace (2 * (360 + h) + angle) with ((2 * h + angle) + 360 * 2) by lia.
  rewrite Z.div_add by lia.
  replace ((2 * h + angle) / 2 + 360) with ((2 * h + angle) / 2 + 1 * 360)
    by lia.
  apply Z.mod_add. lia.
Qed.

Lemma TaskUnsigned_range taskParser key i n :
  TaskUnsigned taskParser key i = Return n -> is_unsigned n.
Proof.
  unfold TaskUnsigned. intros H.
  destruct (TaskValue taskParser key i) as [e|s]; [discriminate|].
  rewrite bind_Return in H. unfold Convert_u in H.
  destruct (Convert_unsigned s) as [m|] eqn:E; [|discriminate].
  injection H as <-. exact (Convert_unsigned_range _ _ E).
Qed.

(** C3, amended. In a task with AAT, a strictly interior point of classic
    type whose angle is not 360 (and at most 720) becomes an AAT sector of
    the declared radius.  With [a1] and [a2] the bearings from the previous
    and from the next point to it, its half angle [h] is the mean of [a1]
    and [a2] rounded down to a whole degree, plus 180 modulo 360 exactly
    when the bearings are more than 180 apart; the start radial is
    [h - angle/2] and the finish radial [h + angle/2], each rounded down to
    a whole degree and reduced into [0, 360).  Bearings 10 and 350 give the
    half angle 0. *)
Theorem AAT_sector_radials :
  (forall taskParser tpNum gen i d dp dn st,
     is_unsigned tpNum ->
     intermediate tpNum i ->
     AATEnabled (settingsTask st) = true ->
     declares taskParser i d ->
     declares taskParser (i - 1) dp ->
     declares taskParser (i + 1) dn ->
     TPSectorType d = SECTOR_CLASSIC ->
     TPAngle d <> 360 -> TPAngle d <= 720 ->
     (Z.to_nat (i - 1) < length (taskPointArray st))%nat ->
     let lon := Longitude (TPPosX d) (TPPosY d) in
     let lat := Latitude (TPPosX d) (TPPosY d) in
     let a1 := WaypointBearing (Longitude (TPPosX dp) (TPPosY dp))
                 (Latitude (TPPosX dp) (TPPosY dp)) lon lat in
     let a2 := WaypointBearing (Longitude (TPPosX dn) (TPPosY dn))
                 (Latitude (TPPosX dn) (TPPosY dn)) lon lat in
     let h := if 180 <? Z.abs (a1 - a2)
              then ((a1 + a2) / 2 + 180) mod 360
              else (a1 + a2) / 2 in
     exists st' p,
       TaskProcess_point taskParser tpNum gen i st = Return st'
       /\ taskPointArray st' !! Z.to_nat (i - 1) = Some p
       /\ AATType p = WAYPOINT_AAT_SECTOR
       /\ AATSectorRadius p = TPRadius d
       /\ AATStartRadial p = ((2 * h - TPAngle d) / 2) mod 360
       /\ AATFinishRadial p = ((2 * h + TPAngle d) / 2) mod 360
       /\ 0 <= h < 360
       /\ 0 <= AATStartRadial p < 360
       /\ 0 <= AATFinishRadial p < 360)
  /\ halfAngle 10 350 = 0.
Proof.
  split; [|reflexivity].
  intros taskParser tpNum gen i d dp dn st Hu [Hi1 Hi2] Haat Hd Hp Hn Hs
    H360 H720 Hlen lon lat a1 a2 h.
  assert (Hsub : usub tpNum 1 = tpNum - 1)
    by (apply usub_1; unfold is_unsigned in Hu; lia).
  pose proof (TaskUnsigned_range _ _ _ _ (declares_TPAngle _ _ _ Hd)) as Ua.
  pose proof (WaypointBearing_range (Longitude (TPPosX dp) (TPPosY dp))
                (Latitude (TPPosX dp) (TPPosY dp)) lon lat) as B1.
  pose proof (WaypointBearing_range (Longitude (TPPosX dn) (TPPosY dn))
                (Latitude (TPPosX dn) (TPPosY dn)) lon lat) as B2.
  fold a1 in B1. fold a2 in B2.
  destruct (halfAngle_bearings a1 a2 B1 B2) as [Hh Bh]. fold h in Hh.
  rewrite Hh in Bh.
  rewrite (TaskProcess_point_declared _ _ _ _ _ _ Hd). cbv zeta.
  unfold AAT_point. rewrite Hs, Z.eqb_refl, Haat, Hsub.
  is_true (1 <? i). is_true (i <? tpNum - 1). cbn [andb].
  unfold AAT_waypoint. is_false (TPAngle d =? 360).
  rewrite (declares_TPPosX _ _ _ Hp), bind_Return.
  rewrite (declares_TPPosY _ _ _ Hp), bind_Return.
  rewrite (declares_TPPosX _ _ _ Hn), bind_Return.
  rewrite (declares_TPPosY _ _ _ Hn), bind_Return.
  cbv zeta. fold lon lat a1 a2. rewrite Hh.
  destruct (lookup_lt_is_Some_2 (taskPointArray st) _ Hlen) as [p0 Hp0].
  eexists _, _. split; [reflexivity|].
  split.
  { unfold fill_waypoint. destruct gen; cbn.
    all: rewrite !list_lookup_alter_eq, Hp0; reflexivity. }
  cbn. split; [reflexivity|]. split; [reflexivity|].
  rewrite StartRadial_floor by (unfold is_unsigned in Ua; lia).
  rewrite FinishRadial_floor by assumption.
  split; [reflexivity|]. split; [reflexivity|]. split; [exact Bh|].
  split; apply Z.mod_pos_bound; lia.
Qed.

(** ** Penalty zones *)

Lemma Count_unsigned_PZ taskParser pzNum :
  (Value taskParser "Task" "PZCount" ≫= Convert_u) = Return pzNum ->
  is_unsigned pzNum.
Proof.
  intros H. destruct (Value taskParser "Task" "PZCount") as [e|s];
    [discriminate|].
  rewrite bind_Return in H. unfold Convert_u in H.
  destruct (Convert_unsigned s) as [n|] eqn:E; [|discriminate].
  injection H as <-. exact (Convert_unsigned_range _ _ E).
Qed.

Lemma PenaltyZone_declared taskParser i z airspacesFile :
  zone_declares taskParser i z ->
  PenaltyZone taskParser i airspacesFile
  = Return (airspacesFile ++ zone_record i z)%list.
Proof.
  intros [Ht Hb Hx Hy]. unfold PenaltyZone. cbv zeta.
  rewrite Ht, bind_Return, Hb, bind_Return.
  cbn [PenaltyZone_corners]. unfold PenaltyZone_corner.
  change (0 + 1) with 1. change (1 + 1) with 2. change (2 + 1) with 3.
  rewrite !Hx, !Hy by lia. rewrite !bind_Return.
  unfold zone_record, zone_DP.
  rewrite <- !app_assoc. reflexivity.
Qed.

Lemma PenaltyZones_loop_declared taskParser (zones : Z -> PZDecl) :
  forall n i airspacesFile,
    (forall k, i <= k < i + Z.of_nat n ->
       zone_declares taskParser k (zones k)) ->
    PenaltyZones_loop taskParser n i airspacesFile
    = Return (airspacesFile
              ++ concat (map (fun k => zone_record k (zones k))
                           (seqZ i (Z.of_nat n))))%list.
Proof.
  induction n as [|n IH]; intros i airspacesFile Hall.
  - cbn. rewrite app_nil_r. reflexivity.
  - cbn [PenaltyZones_loop].
    rewrite (PenaltyZone_declared _ _ (zones i)) by (apply Hall; lia).
    rewrite bind_Return, IH by (intros k Hk; apply Hall; lia).
    rewrite (seqZ_cons i (Z.of_nat (S n))) by lia.
    replace (Z.pred (Z.of_nat (S n))) with (Z.of_nat n) by lia.
    cbn [map concat]. rewrite <- app_assoc.
    replace (Z.succ i) with (i + 1) by lia. reflexivity.
Qed.

(** C8. With a zone count of 0 the profile gets the airspace-file key set
    to an empty quoted text and no airspace file is written.  With a zone
    count [n] other than 0 and the zones declared, the profile gets the
    quoted path of the airspace file, and the file holds the banner followed
    by the records of the zones [0 .. n-1] in that order. *)
Theorem penalty_zones_output :
  (forall profileParser taskParser pathPrefix outputPathPrefix,
     (Value taskParser "Task" "PZCount" ≫= Convert_u) = Return 0 ->
     PenaltyZonesProcess profileParser taskParser pathPrefix outputPathPrefix
     = Return (<[("", "AirspaceFile") := dquote +:+ dquote]> profileParser,
               None)
     /\ String.length (dquote +:+ dquote) = 2%nat)
  /\ (forall profileParser taskParser pathPrefix outputPathPrefix pzNum
        (zones : Z -> PZDecl),
        (Value taskParser "Task" "PZCount" ≫= Convert_u) = Return pzNum ->
        pzNum <> 0 ->
        (forall i, 0 <= i < pzNum -> zone_declares taskParser i (zones i)) ->
        PenaltyZonesProcess profileParser taskParser pathPrefix
          outputPathPrefix
        = Return
            (<[("", "AirspaceFile") :=
                 dquote +:+ path_append pathPrefix AIRSPACES_FILE_NAME
                 +:+ dquote]> profileParser,
             Some (path_append outputPathPrefix AIRSPACES_FILE_NAME,
                   (airspaces_banner
                    ++ concat (map (fun i => zone_record i (zones i))
                                 (seqZ 0 pzNum)))%list))).
Proof.
  split.
  - intros profileParser taskParser pathPrefix outputPathPrefix HC.
    unfold PenaltyZonesProcess. rewrite HC, bind_Return.
    split; reflexivity.
  - intros profileParser taskParser pathPrefix outputPathPrefix pzNum zones
      HC Hn Hall.
    pose proof (Count_unsigned_PZ _ _ HC) as Hu.
    unfold PenaltyZonesProcess. rewrite HC, bind_Return.
    is_false (pzNum =? 0). cbv zeta.
    rewrite (PenaltyZones_loop_declared taskParser zones)
      by (intros k Hk; apply Hall; unfold is_unsigned in Hu; lia).
    rewrite bind_Return, Z2Nat.id by (unfold is_unsigned in Hu; lia).
    reflexivity.
Qed.

(** * Further properties of the engine *)

(** ** Points that are not of classic type *)

Lemma TaskProcess_point_position taskParser tpNum gen i tpName x y alt
    sectorTypeStr sectorType st :
  declares_position taskParser i tpName x y alt ->
  TaskValue taskParser "TPSectorType" i = Return sectorTypeStr ->
  Convert_u sectorTypeStr = Return sectorType ->
  sectorType <> SECTOR_CLASSIC ->
  TaskProcess_point taskParser tpNum gen i st =
    let name := point_name tpNum i tpName in
    let st2 := fill_waypoint tpNum gen i tpName x y alt st in
    if sectorType =? SECTOR_WINDOW
    then Return (warn (warning_window name) st2)
    else Return (report (error_sector_type sectorTypeStr name) st2).
Proof.
  intros [Hn Hx Hy (minAlt & Hw & Ha)] Hss Hs Hc.
  unfold TaskProcess_point.
  rewrite Hn, bind_Return, Hx, bind_Return, Hy, bind_Return, Hw, bind_Return.
  rewrite Ha, bind_Return, Hss, bind_Return, Hs, bind_Return. cbv zeta.
  is_false (sectorType =? SECTOR_CLASSIC). reflexivity.
Qed.

(** X6. A point of window type, at any position of the task and whether or not
    its radius, angle and height keys exist: its waypoint is added, the
    window warning is emitted, and the task settings, the validity flag and
    the error sink are left alone.  A window start thus leaves the start
    type, radius and height at their initial values. *)
Theorem window_point taskParser tpNum gen i tpName x y alt sectorTypeStr st :
  declares_position taskParser i tpName x y alt ->
  TaskValue taskParser "TPSectorType" i = Return sectorTypeStr ->
  Convert_u sectorTypeStr = Return SECTOR_WINDOW ->
  SECTOR_WINDOW <> SECTOR_CLASSIC ->
  exists st',
    TaskProcess_point taskParser tpNum gen i st = Return st'
    /\ settingsTask st' = settingsTask st
    /\ tpsValid st' = tpsValid st
    /\ Warning st'
       = (Warning st ++ [warning_window (point_name tpNum i tpName)])%list
    /\ Error st' = Error st
    /\ length (waypointArray st') = S (length (waypointArray st)).
Proof.
  intros Hp Hss Hs Hne.
  rewrite (TaskProcess_point_position _ _ _ _ _ _ _ _ _ _ _ Hp Hss Hs Hne).
  cbv zeta. rewrite Z.eqb_refl.
  eexists. split; [reflexivity|].
  unfold fill_waypoint. destruct gen; cbn; rewrite length_app; cbn;
    repeat split; lia.
Qed.

(** X7. A point whose sector type is neither classic nor window: the error
    naming the type text and the point is reported, nothing is thrown, the
    waypoint is still added, and the task settings, the validity flag and
    the warnings are left alone. *)
Theorem unsupported_sector_type taskParser tpNum gen i tpName x y alt
    sectorTypeStr sectorType st :
  declares_position taskParser i tpName x y alt ->
  TaskValue taskParser "TPSectorType" i = Return sectorTypeStr ->
  Convert_u sectorTypeStr = Return sectorType ->
  sectorType <> SECTOR_CLASSIC -> sectorType <> SECTOR_WINDOW ->
  exists st',
    TaskProcess_point taskParser tpNum gen i st = Return st'
    /\ settingsTask st' = settingsTask st
    /\ tpsValid st' = tpsValid st
    /\ Warning st' = Warning st
    /\ Error st'
       = (Error st
          ++ [error_sector_type sectorTypeStr (point_name tpNum i tpName)])%list
    /\ length (waypointArray st') = S (length (waypointArray st)).
Proof.
  intros Hp Hss Hs Hc Hw.
  rewrite (TaskProcess_point_position _ _ _ _ _ _ _ _ _ _ _ Hp Hss Hs Hc).
  cbv zeta. is_false (sectorType =? SECTOR_WINDOW).
  eexists. split; [reflexivity|].
  unfold fill_waypoint. destruct gen; cbn; rewrite length_app; cbn;
    repeat split; lia.
Qed.

(** ** Start and finish *)

(** A declared point of classic type that is not an AAT point: the waypoint
    is filled, the switch runs, and the start or finish settings follow. *)
Lemma regular_point taskParser tpNum gen i d st :
  AAT_point tpNum i st = false ->
  declares taskParser i d ->
  TPSectorType d = SECTOR_CLASSIC ->
  TaskProcess_point taskParser tpNum gen i st =
    Return
      (let name := point_name tpNum i (TPName d) in
       let st2 := fill_waypoint tpNum gen i (TPName d) (TPPosX d) (TPPosY d)
                    (altitude_of d) st in
       let st1 := sector_switch i tpNum (TPRadius d) name (TPAngle d) st2 in
       if i =? 1 then with_settings (set_Start (TPRadius d) (TPHeight d)) st1
       else if i =? usub tpNum 1
            then with_settings (set_Finish (TPRadius d) 0) st1
            else st1).
Proof.
  intros Haat Hd Hs.
  rewrite (TaskProcess_point_declared _ _ _ _ _ _ Hd). cbv zeta.
  rewrite Hs, Z.eqb_refl, Haat.
  apply (regular_waypoint_declared _ _ _ _ _ _ Hd).
Qed.

(** X1. The start point (the first point after the takeoff), of classic type:
    whether or not the task has AAT, it sets the start radius and the start
    maximum height, and the start type by its angle (90 sector, 180 line,
    270 and 360 circle, any other angle leaves the type as it was).  It
    never touches the task sector, the finish settings or the validity
    flag, not even when it is the only point of the task; only angle 270
    emits a warning. *)
Theorem start_point_settings taskParser tpNum gen d st :
  declares taskParser 1 d ->
  TPSectorType d = SECTOR_CLASSIC ->
  exists st',
    TaskProcess_point taskParser tpNum gen 1 st = Return st'
    /\ StartRadius (settingsTask st') = TPRadius d
    /\ StartMaxHeight (settingsTask st') = TPHeight d
    /\ (TPAngle d = 90 -> StartType (settingsTask st') = START_SECTOR)
    /\ (TPAngle d = 180 -> StartType (settingsTask st') = START_LINE)
    /\ (TPAngle d = 270 \/ TPAngle d = 360 ->
        StartType (settingsTask st') = START_CIRCLE)
    /\ (TPAngle d <> 90 -> TPAngle d <> 180 -> TPAngle d <> 270 ->
        TPAngle d <> 360 ->
        StartType (settingsTask st') = StartType (settingsTask st))
    /\ SectorType (settingsTask st') = SectorType (settingsTask st)
    /\ SectorRadius (settingsTask st') = SectorRadius (settingsTask st)
    /\ FinishType (settingsTask st') = FinishType (settingsTask st)
    /\ FinishRadius (settingsTask st') = FinishRadius (settingsTask st)
    /\ FinishMinHeight (settingsTask st') = FinishMinHeight (settingsTask st)
    /\ tpsValid st' = tpsValid st
    /\ Error st' = Error st
    /\ Warning st'
       = (if TPAngle d =? 270
          then Warning st ++ [warning_270 ("S:" +:+ TPName d)]
          else Warning st)%list.
Proof.
  intros Hd Hs.
  assert (Haat : AAT_point tpNum 1 st = false)
    by (unfold AAT_point; change (1 <? 1) with false;
        rewrite andb_false_r; reflexivity).
  rewrite (regular_point _ _ _ _ _ _ Haat Hd Hs).
  cbv zeta. change (1 =? 1) with true. cbv iota.
  pose proof (fill_waypoint_frame tpNum gen 1 (TPName d) (TPPosX d) (TPPosY d)
                (altitude_of d) st) as F.
  cbv zeta in F. destruct F as (F1 & F2 & F3 & F4 & _).
  set (st2 := fill_waypoint tpNum gen 1 (TPName d) (TPPosX d) (TPPosY d)
                (altitude_of d) st) in *.
  clearbody st2.
  change (point_name tpNum 1 (TPName d)) with ("S:" +:+ TPName d).
  eexists. split; [reflexivity|].
  unfold sector_switch, case_90, case_180, case_360.
  change (1 =? 1) with true. cbv iota.
  destruct (Z.eqb_spec (TPAngle d) 90) as [E|N1];
    [|destruct (Z.eqb_spec (TPAngle d) 180) as [E|N2];
      [|destruct (Z.eqb_spec (TPAngle d) 270) as [E|N3];
        [|destruct (Z.eqb_spec (TPAngle d) 360) as [E|N4]]]];
    state_simpl; rewrite ?F1, ?F2, ?F3, ?F4;
    repeat split; intros; try reflexivity; try lia;
    rewrite E; reflexivity.
Qed.

(** X2. The finish point (the last point of a task with at least two points
    after the takeoff), of classic type: whether or not the task has AAT, it
    sets the finish radius, the finish minimum height 0, and the finish type
    by its angle (90 sector, 180 line, 270 and 360 circle, any other angle
    leaves the type as it was).  It never touches the start settings, the
    task sector or the validity flag. *)
Theorem finish_point_settings taskParser tpNum gen i d st :
  is_unsigned tpNum ->
  i = tpNum - 1 -> 1 < i ->
  declares taskParser i d ->
  TPSectorType d = SECTOR_CLASSIC ->
  exists st',
    TaskProcess_point taskParser tpNum gen i st = Return st'
    /\ FinishRadius (settingsTask st') = TPRadius d
    /\ FinishMinHeight (settingsTask st') = 0
    /\ (TPAngle d = 90 -> FinishType (settingsTask st') = FINISH_SECTOR)
    /\ (TPAngle d = 180 -> FinishType (settingsTask st') = FINISH_LINE)
    /\ (TPAngle d = 270 \/ TPAngle d = 360 ->
        FinishType (settingsTask st') = FINISH_CIRCLE)
    /\ (TPAngle d <> 90 -> TPAngle d <> 180 -> TPAngle d <> 270 ->
        TPAngle d <> 360 ->
        FinishType (settingsTask st') = FinishType (settingsTask st))
    /\ StartType (settingsTask st') = StartType (settingsTask st)
    /\ StartRadius (settingsTask st') = StartRadius (settingsTask st)
    /\ StartMaxHeight (settingsTask st') = StartMaxHeight (settingsTask st)
    /\ SectorType (settingsTask st') = SectorType (settingsTask st)
    /\ SectorRadius (settingsTask st') = SectorRadius (settingsTask st)
    /\ tpsValid st' = tpsValid st
    /\ Error st' = Error st
    /\ Warning st'
       = (if TPAngle d =? 270
          then Warning st ++ [warning_270 ("F:" +:+ TPName d)]
          else Warning st)%list.
Proof.
  intros Hu Hi H1 Hd Hs.
  assert (Hsub : usub tpNum 1 = tpNum - 1)
    by (apply usub_1; unfold is_unsigned in Hu; lia).
  assert (Haat : AAT_point tpNum i st = false).
  { unfold AAT_point. rewrite Hsub. is_false (i <? tpNum - 1).
    apply andb_false_r. }
  rewrite (regular_point _ _ _ _ _ _ Haat Hd Hs).
  cbv zeta. rewrite Hsub.
  assert (Hname : point_name tpNum i (TPName d) = "F:" +:+ TPName d).
  { unfold point_name. rewrite Hsub. is_false (i =? 1).
    is_true (i =? tpNum - 1). reflexivity. }
  rewrite Hname.
  is_false (i =? 1). is_true (i =? tpNum - 1).
  pose proof (fill_waypoint_frame tpNum gen i (TPName d) (TPPosX d) (TPPosY d)
                (altitude_of d) st) as F.
  cbv zeta in F. destruct F as (F1 & F2 & F3 & F4 & _).
  set (st2 := fill_waypoint tpNum gen i (TPName d) (TPPosX d) (TPPosY d)
                (altitude_of d) st) in *.
  clearbody st2.
  eexists. split; [reflexivity|].
  unfold sector_switch, case_90, case_180, case_360. rewrite Hsub.
  is_false (i =? 1). is_true (i =? tpNum - 1).
  destruct (Z.eqb_spec (TPAngle d) 90) as [E|N1];
    [|destruct (Z.eqb_spec (TPAngle d) 180) as [E|N2];
      [|destruct (Z.eqb_spec (TPAngle d) 270) as [E|N3];
        [|destruct (Z.eqb_spec (TPAngle d) 360) as [E|N4]]]];
    state_simpl; rewrite ?F1, ?F2, ?F3, ?F4;
    repeat split; intros; try reflexivity; try lia;
    rewrite E; reflexivity.
Qed.

(** ** Intermediate points of a task without AAT *)

(** X3. The first intermediate point (the point after the start), of classic
    type, in a task without AAT: angles 90, 180, 270 and 360 overwrite the
    task sector type and radius with the point's own, whatever they were,
    without comparing radii and without flagging the task.  90 gives FAI;
    180 gives FAI too, with the line warning; 270 and 360 give circle, 270
    with its warning. *)
Theorem first_intermediate_point taskParser tpNum gen d st :
  is_unsigned tpNum ->
  intermediate tpNum 2 ->
  AATEnabled (settingsTask st) = false ->
  declares taskParser 2 d ->
  TPSectorType d = SECTOR_CLASSIC ->
  TPAngle d = 90 \/ TPAngle d = 180 \/ TPAngle d = 270 \/ TPAngle d = 360 ->
  let name := "1:" +:+ TPName d in
  exists st',
    TaskProcess_point taskParser tpNum gen 2 st = Return st'
    /\ SectorRadius (settingsTask st') = TPRadius d
    /\ SectorType (settingsTask st')
       = (if (TPAngle d =? 90) || (TPAngle d =? 180) then AST_FAI
          else AST_CIRCLE)
    /\ tpsValid st' = tpsValid st
    /\ Error st' = Error st
    /\ Warning st'
       = (if TPAngle d =? 180 then Warning st ++ [warning_line name]
          else if TPAngle d =? 270 then Warning st ++ [warning_270 name]
          else Warning st)%list.
Proof.
  intros Hu [_ Hi] Haat Hd Hs Ha name.
  assert (Hsub : usub tpNum 1 = tpNum - 1)
    by (apply usub_1; unfold is_unsigned in Hu; lia).
  assert (Haat' : AAT_point tpNum 2 st = false)
    by (unfold AAT_point; rewrite Haat; reflexivity).
  rewrite (regular_point _ _ _ _ _ _ Haat' Hd Hs).
  cbv zeta. rewrite Hsub.
  assert (Hname : point_name tpNum 2 (TPName d) = name).
  { unfold point_name. rewrite Hsub. is_false (2 =? tpNum - 1). reflexivity. }
  rewrite Hname.
  change (2 =? 1) with false. is_false (2 =? tpNum - 1).
  pose proof (fill_waypoint_frame tpNum gen 2 (TPName d) (TPPosX d) (TPPosY d)
                (altitude_of d) st) as F.
  cbv zeta in F. destruct F as (F1 & F2 & F3 & F4 & _).
  set (st2 := fill_waypoint tpNum gen 2 (TPName d) (TPPosX d) (TPPosY d)
                (altitude_of d) st) in *.
  clearbody st2.
  eexists. split; [reflexivity|].
  unfold sector_switch, case_90, case_180, case_360. rewrite Hsub.
  change (2 =? 1) with false. is_false (2 =? tpNum - 1).
  change (2 <? 2) with false.
  destruct Ha as [E | [E | [E | E] ] ]; rewrite E;
    cbn [Z.eqb Pos.eqb andb orb negb]; state_simpl;
    rewrite ?F1, ?F2, ?F3, ?F4; repeat split; reflexivity.
Qed.

(** X4. A later intermediate point (one that follows another intermediate
    point) of classic type and angle 180, in a task without AAT.  The
    target has no line turnpoint: if the task sector type is FAI already,
    the point changes neither type nor radius and emits no warning of its
    own, but flags the task as not uniform; otherwise the task switches to
    FAI with the point's own radius and the line warning is emitted. *)
Theorem later_line_point taskParser tpNum gen i d st :
  is_unsigned tpNum ->
  intermediate tpNum i -> 2 < i ->
  AATEnabled (settingsTask st) = false ->
  declares taskParser i d ->
  TPSectorType d = SECTOR_CLASSIC ->
  TPAngle d = 180 ->
  let name := point_name tpNum i (TPName d) in
  exists st',
    TaskProcess_point taskParser tpNum gen i st = Return st'
    /\ Error st' = Error st
    /\ (SectorType (settingsTask st) = AST_FAI ->
        settingsTask st' = settingsTask st
        /\ Warning st' = Warning st
        /\ tpsValid st' = false)
    /\ (SectorType (settingsTask st) <> AST_FAI ->
        SectorType (settingsTask st') = AST_FAI
        /\ SectorRadius (settingsTask st') = TPRadius d
        /\ Warning st' = (Warning st ++ [warning_line name])%list
        /\ tpsValid st' = tpsValid st).
Proof.
  intros Hu [Hi1 Hi2] H2 Haat Hd Hs Ha name.
  assert (Hsub : usub tpNum 1 = tpNum - 1)
    by (apply usub_1; unfold is_unsigned in Hu; lia).
  assert (Haat' : AAT_point tpNum i st = false)
    by (unfold AAT_point; rewrite Haat; reflexivity).
  rewrite (regular_point _ _ _ _ _ _ Haat' Hd Hs).
  cbv zeta. rewrite Hsub. fold name.
  is_false (i =? 1). is_false (i =? tpNum - 1).
  pose proof (fill_waypoint_frame tpNum gen i (TPName d) (TPPosX d) (TPPosY d)
                (altitude_of d) st) as F.
  cbv zeta in F. destruct F as (F1 & F2 & F3 & F4 & _).
  set (st2 := fill_waypoint tpNum gen i (TPName d) (TPPosX d) (TPPosY d)
                (altitude_of d) st) in *.
  clearbody st2.
  eexists. split; [reflexivity|].
  unfold sector_switch, case_180. rewrite Hsub, Ha.
  cbn [Z.eqb Pos.eqb].
  is_false (i =? 1). is_false (i =? tpNum - 1). is_true (2 <? i).
  cbn [andb]. rewrite F1.
  destruct (Z.eqb_spec (SectorType (settingsTask st)) AST_FAI) as [E|N];
    state_simpl; rewrite ?F1, ?F2, ?F3, ?F4;
    repeat split; intros; first [reflexivity | congruence].
Qed.

(** ** Intermediate points of a task with AAT *)

(** X8. In a task with AAT an intermediate point of classic type, whatever its
    angle, only writes its own slot of the task-point table: the task
    settings (start, sector and finish types and radii), the validity flag
    and both sinks stay as they were.  Angles 90, 180 and 270 in particular
    raise no warning and choose no task sector type there. *)
Theorem AAT_point_leaves_settings taskParser tpNum gen i d dp dn st :
  is_unsigned tpNum ->
  intermediate tpNum i ->
  AATEnabled (settingsTask st) = true ->
  declares taskParser i d ->
  declares taskParser (i - 1) dp ->
  declares taskParser (i + 1) dn ->
  TPSectorType d = SECTOR_CLASSIC ->
  exists st',
    TaskProcess_point taskParser tpNum gen i st = Return st'
    /\ settingsTask st' = settingsTask st
    /\ tpsValid st' = tpsValid st
    /\ Warning st' = Warning st
    /\ Error st' = Error st
    /\ length (taskPointArray st') = length (taskPointArray st)
    /\ forall k, k <> Z.to_nat (i - 1) ->
         taskPointArray st' !! k = taskPointArray st !! k.
Proof.
  intros Hu [Hi1 Hi2] Haat Hd Hp Hn Hs.
  assert (Hsub : usub tpNum 1 = tpNum - 1)
    by (apply usub_1; unfold is_unsigned in Hu; lia).
  rewrite (TaskProcess_point_declared _ _ _ _ _ _ Hd). cbv zeta.
  unfold AAT_point. rewrite Hs, Z.eqb_refl, Haat, Hsub.
  is_true (1 <? i). is_true (i <? tpNum - 1). cbn [andb].
  unfold AAT_waypoint.
  rewrite (declares_TPPosX _ _ _ Hp), (declares_TPPosY _ _ _ Hp).
  rewrite (declares_TPPosX _ _ _ Hn), (declares_TPPosY _ _ _ Hn).
  rewrite !bind_Return. cbv zeta.
  destruct (TPAngle d =? 360); (eexists; split; [reflexivity|]);
    unfold fill_waypoint; destruct gen; cbn;
    rewrite !length_alter; repeat split; try reflexivity;
    intros k Hk; rewrite !list_lookup_alter_ne by congruence; reflexivity.
Qed.

(** X9. In a task with AAT an intermediate point of classic type and angle 360
    becomes an AAT circle of the declared radius: its slot gets the
    waypoint index, the circle type and the radius, and keeps the sector
    radius and the radials it had (0 and 360 in a fresh table).  The
    neighbours of the point are not read. *)
Theorem AAT_circle_point taskParser tpNum gen i d st p0 :
  is_unsigned tpNum ->
  intermediate tpNum i ->
  AATEnabled (settingsTask st) = true ->
  declares taskParser i d ->
  TPSectorType d = SECTOR_CLASSIC ->
  TPAngle d = 360 ->
  taskPointArray st !! Z.to_nat (i - 1) = Some p0 ->
  exists st' p,
    TaskProcess_point taskParser tpNum gen i st = Return st'
    /\ taskPointArray st' !! Z.to_nat (i - 1) = Some p
    /\ Index p = WAYPOINT_INDEX_OFFSET + i
    /\ AATType p = WAYPOINT_AAT_CIRCLE
    /\ AATCircleRadius p = TPRadius d
    /\ AATSectorRadius p = AATSectorRadius p0
    /\ AATStartRadial p = AATStartRadial p0
    /\ AATFinishRadial p = AATFinishRadial p0.
Proof.
  intros Hu [Hi1 Hi2] Haat Hd Hs Ha Hp0.
  assert (Hsub : usub tpNum 1 = tpNum - 1)
    by (apply usub_1; unfold is_unsigned in Hu; lia).
  rewrite (TaskProcess_point_declared _ _ _ _ _ _ Hd). cbv zeta.
  unfold AAT_point. rewrite Hs, Z.eqb_refl, Haat, Hsub.
  is_true (1 <? i). is_true (i <? tpNum - 1). cbn [andb].
  unfold AAT_waypoint. rewrite Ha. change (360 =? 360) with true. cbv iota.
  eexists _, _. split; [reflexivity|].
  split.
  { unfold fill_waypoint. destruct gen; cbn.
    all: rewrite !list_lookup_alter_eq, Hp0; reflexivity. }
  cbn. repeat split; reflexivity.
Qed.

(** ** The task-point table and the waypoint list *)

(** On a declared task the loop body appends the waypoint of its point,
    gives slot [i - 1] of the task-point table the index of that waypoint
    and leaves every other slot alone. *)
Lemma TaskProcess_point_table taskParser tpNum gen (D : Z -> TPDecl) i st :
  is_unsigned tpNum ->
  (forall j, 1 <= j < tpNum -> declares taskParser j (D j)) ->
  1 <= i < tpNum ->
  (Z.to_nat (i - 1) < length (taskPointArray st))%nat ->
  exists st',
    TaskProcess_point taskParser tpNum gen i st = Return st'
    /\ waypointArray st' = (waypointArray st ++ [waypoint_of tpNum i (D i)])%list
    /\ length (taskPointArray st') = length (taskPointArray st)
    /\ (forall k, k <> Z.to_nat (i - 1) ->
          taskPointArray st' !! k = taskPointArray st !! k)
    /\ (exists p, taskPointArray st' !! Z.to_nat (i - 1) = Some p
                  /\ Index p = WAYPOINT_INDEX_OFFSET + i).
Proof.
  intros Hu Hall Hi Hlen.
  assert (Hsub : usub tpNum 1 = tpNum - 1)
    by (apply usub_1; unfold is_unsigned in Hu; lia).
  pose proof (Hall i Hi) as Hd.
  destruct (lookup_lt_is_Some_2 (taskPointArray st) _ Hlen) as [p0 Hp0].
  rewrite (TaskProcess_point_declared _ _ _ _ _ _ Hd). cbv zeta.
  assert (F : forall st2,
            st2 = fill_waypoint tpNum gen i (TPName (D i)) (TPPosX (D i))
                    (TPPosY (D i)) (altitude_of (D i)) st ->
            waypointArray st2
            = (waypointArray st ++ [waypoint_of tpNum i (D i)])%list
            /\ taskPointArray st2
               = alter (set_Index (WAYPOINT_INDEX_OFFSET + i))
                   (Z.to_nat (i - 1)) (taskPointArray st)).
  { intros st2 ->. unfold fill_waypoint. destruct gen; cbn; auto. }
  specialize (F _ eq_refl). destruct F as [F1 F2].
  set (st2 := fill_waypoint tpNum gen i (TPName (D i)) (TPPosX (D i))
                (TPPosY (D i)) (altitude_of (D i)) st) in *.
  clearbody st2.
  assert (T : forall st',
            waypointArray st' = waypointArray st2 ->
            (taskPointArray st' = taskPointArray st2
             \/ exists g, taskPointArray st'
                          = alter g (Z.to_nat (i - 1)) (taskPointArray st2)
                          /\ forall p, Index (g p) = Index p) ->
            waypointArray st'
            = (waypointArray st ++ [waypoint_of tpNum i (D i)])%list
            /\ length (taskPointArray st') = length (taskPointArray st)
            /\ (forall k, k <> Z.to_nat (i - 1) ->
                  taskPointArray st' !! k = taskPointArray st !! k)
            /\ (exists p, taskPointArray st' !! Z.to_nat (i - 1) = Some p
                          /\ Index p = WAYPOINT_INDEX_OFFSET + i)).
  { intros st' Hw Ht. rewrite Hw, F1. split; [reflexivity|].
    destruct Ht as [-> | (g & -> & Hg)]; rewrite F2.
    - rewrite length_alter. split; [reflexivity|]. split.
      + intros k Hk. rewrite list_lookup_alter_ne by congruence. reflexivity.
      + rewrite list_lookup_alter_eq, Hp0. eexists. split; reflexivity.
    - rewrite !length_alter. split; [reflexivity|]. split.
      + intros k Hk. rewrite !list_lookup_alter_ne by congruence. reflexivity.
      + rewrite !list_lookup_alter_eq, Hp0. eexists. split; [reflexivity|].
        rewrite Hg. reflexivity. }
  destruct (TPSectorType (D i) =? SECTOR_CLASSIC).
  - destruct (AAT_point tpNum i st) eqn:A.
    + unfold AAT_point in A. rewrite Hsub in A.
      apply andb_prop in A as [A A3]. apply andb_prop in A as [_ A2].
      apply Z.ltb_lt in A2, A3.
      unfold AAT_waypoint.
      rewrite (declares_TPPosX _ _ _ (Hall (i - 1) ltac:(lia))).
      rewrite (declares_TPPosY _ _ _ (Hall (i - 1) ltac:(lia))).
      rewrite (declares_TPPosX _ _ _ (Hall (i + 1) ltac:(lia))).
      rewrite (declares_TPPosY _ _ _ (Hall (i + 1) ltac:(lia))).
      rewrite !bind_Return. cbv zeta.
      destruct (TPAngle (D i) =? 360);
        (eexists; split; [reflexivity|]); apply T; [reflexivity| |reflexivity|];
        right; eexists; (split; [reflexivity|]); intros p; reflexivity.
    + rewrite (regular_waypoint_declared _ _ _ _ _ _ Hd). cbv zeta.
      pose proof (sector_switch_frame i tpNum (TPRadius (D i))
                    (point_name tpNum i (TPName (D i))) (TPAngle (D i)) st2)
        as (_ & _ & _ & S4 & S5).
      eexists. split; [reflexivity|].
      destruct (i =? 1); [|destruct (i =? usub tpNum 1)]; apply T; cbn;
        auto.
  - destruct (TPSectorType (D i) =? SECTOR_WINDOW);
      (eexists; split; [reflexivity|]); apply T; cbn; auto.
Qed.

Lemma TaskProcess_loop_table taskParser tpNum gen (D : Z -> TPDecl) :
  is_unsigned tpNum ->
  (forall j, 1 <= j < tpNum -> declares taskParser j (D j)) ->
  forall n i st,
    1 <= i -> i + Z.of_nat n <= tpNum ->
    (Z.to_nat (i - 1) + n <= length (taskPointArray st))%nat ->
    exists st',
      TaskProcess_loop taskParser tpNum gen n i st = Return st'
      /\ waypointArray st'
         = (waypointArray st
            ++ map (fun j => waypoint_of tpNum j (D j)) (seqZ i (Z.of_nat n)))%list
      /\ length (taskPointArray st') = length (taskPointArray st)
      /\ (forall k, (k < Z.to_nat (i - 1) \/ Z.to_nat (i - 1) + n <= k)%nat ->
            taskPointArray st' !! k = taskPointArray st !! k)
      /\ (forall j, i <= j < i + Z.of_nat n ->
            exists p, taskPointArray st' !! Z.to_nat (j - 1) = Some p
                      /\ Index p = WAYPOINT_INDEX_OFFSET + j).
Proof.
  intros Hu Hall n. induction n as [|n IH]; intros i st Hi Hn Hlen.
  - exists st. cbn. rewrite app_nil_r. repeat split; auto. intros j Hj. lia.
  - cbn [TaskProcess_loop].
    destruct (TaskProcess_point_table taskParser tpNum gen D i st Hu Hall
                ltac:(lia) ltac:(lia)) as (st1 & E & W1 & L1 & O1 & p1 & P1 & I1).
    rewrite E, bind_Return.
    destruct (IH (i + 1) st1 ltac:(lia) ltac:(lia) ltac:(rewrite L1; lia))
      as (st' & E' & W' & L' & O' & P').
    exists st'. split; [exact E'|]. split; [|split; [|split]].
    + rewrite W', W1, <- app_assoc.
      rewrite (seqZ_cons i (Z.of_nat (S n))) by lia.
      replace (Z.pred (Z.of_nat (S n))) with (Z.of_nat n) by lia.
      replace (Z.succ i) with (i + 1) by lia. reflexivity.
    + lia.
    + intros k Hk. rewrite O' by lia. apply O1. lia.
    + intros j Hj. destruct (Z.eq_dec j i) as [-> | Hne].
      * exists p1. rewrite O' by lia. split; assumption.
      * apply P'. lia.
Qed.

(** X14. A translated task, on a well-formed task file whose points fit the
    table.  The table keeps its [maxTaskPoints] slots; the slot and the
    waypoint of point [i] sit at position [i - 1] and carry the same
    number, the fixed offset plus [i]; the waypoint has the prefixed name,
    the raw name as comment, the turnpoint flag and the in-task mark; and
    the slots beyond the last point are unused (index -1, radials 0 and
    360). *)
Theorem task_point_table profileParser taskParser aatTime maxTaskPoints
    maxStartPoints gen tpNum (D : Z -> TPDecl) :
  (Value taskParser "Task" "Count" ≫= Convert_u) = Return tpNum ->
  1 <= tpNum ->
  (forall i, 1 <= i < tpNum -> declares taskParser i (D i)) ->
  tpNum - 1 <= maxTaskPoints ->
  exists profile st,
    TaskProcess profileParser taskParser aatTime maxTaskPoints maxStartPoints
      gen = Return (profile, st)
    /\ length (taskPointArray st) = Z.to_nat maxTaskPoints
    /\ waypointArray st
       = map (fun i => waypoint_of tpNum i (D i)) (seqZ 1 (tpNum - 1))
    /\ (forall i, 1 <= i < tpNum ->
          exists p w,
            taskPointArray st !! Z.to_nat (i - 1) = Some p
            /\ waypointArray st !! Z.to_nat (i - 1) = Some w
            /\ Index p = WAYPOINT_INDEX_OFFSET + i
            /\ number w = WAYPOINT_INDEX_OFFSET + i
            /\ name w = point_name tpNum i (TPName (D i))
            /\ comment w = TPName (D i)
            /\ flags w = WAYPOINT_TURNPOINT
            /\ inTask w = true)
    /\ (forall k, (Z.to_nat (tpNum - 1) <= k < Z.to_nat maxTaskPoints)%nat ->
          taskPointArray st !! k = Some TASK_POINT_init).
Proof.
  intros HC H1 Hall Hmax.
  pose proof (Count_unsigned _ _ HC) as Hu.
  unfold TaskProcess. rewrite HC, bind_Return.
  rewrite usub_1 by (unfold is_unsigned in Hu; lia).
  is_false (maxTaskPoints <? tpNum - 1).
  set (st0 := TaskProcess_init profileParser aatTime maxTaskPoints
                maxStartPoints).
  assert (L0 : length (taskPointArray st0) = Z.to_nat maxTaskPoints)
    by apply length_replicate.
  destruct (TaskProcess_loop_table taskParser tpNum gen D Hu Hall
              (Z.to_nat (tpNum - 1)) 1 st0 ltac:(lia) ltac:(lia)
              ltac:(rewrite L0; lia))
    as (st1 & E & W & L & O & P).
  rewrite E, bind_Return. cbv zeta.
  rewrite Z2Nat.id in W, P by lia. change (waypointArray st0) with
    (@nil TWaypoint) in W. cbn [app] in W.
  assert (Q : forall st', waypointArray st' = waypointArray st1 ->
                          taskPointArray st' = taskPointArray st1 ->
    length (taskPointArray st') = Z.to_nat maxTaskPoints
    /\ waypointArray st'
       = map (fun i => waypoint_of tpNum i (D i)) (seqZ 1 (tpNum - 1))
    /\ (forall i, 1 <= i < tpNum ->
          exists p w,
            taskPointArray st' !! Z.to_nat (i - 1) = Some p
            /\ waypointArray st' !! Z.to_nat (i - 1) = Some w
            /\ Index p = WAYPOINT_INDEX_OFFSET + i
            /\ number w = WAYPOINT_INDEX_OFFSET + i
            /\ name w = point_name tpNum i (TPName (D i))
            /\ comment w = TPName (D i)
            /\ flags w = WAYPOINT_TURNPOINT
            /\ inTask w = true)
    /\ (forall k, (Z.to_nat (tpNum - 1) <= k < Z.to_nat maxTaskPoints)%nat ->
          taskPointArray st' !! k = Some TASK_POINT_init)).
  { intros st' -> ->. split; [lia|]. split; [exact W|]. split.
    - intros i Hi. destruct (P i ltac:(lia)) as (p & Hp & Ip).
      exists p, (waypoint_of tpNum i (D i)).
      split; [exact Hp|]. split.
      + rewrite W, list_lookup_fmap.
        rewrite (lookup_seqZ_lt 1 (tpNum - 1) (Z.to_nat (i - 1))) by lia.
        cbn. replace (1 + Z.of_nat (Z.to_nat (i - 1))) with i by lia.
        reflexivity.
      + repeat split; auto.
    - intros k Hk. rewrite O by (right; cbn; lia).
      apply lookup_replicate_2. lia. }
  eexists _, _. split; [reflexivity|].
  destruct (tpsValid st1); apply Q; reflexivity.
Qed.

(** ** What the loop never touches *)

Lemma sector_switch_frame_flags i tpNum radius name angle st :
  let st' := sector_switch i tpNum radius name angle st in
  AATTaskLength (settingsTask st') = AATTaskLength (settingsTask st)
  /\ AutoAdvance (settingsTask st') = AutoAdvance (settingsTask st)
  /\ EnableMultipleStartPoints (settingsTask st')
     = EnableMultipleStartPoints (settingsTask st)
  /\ startPointArray st' = startPointArray st.
Proof.
  unfold sector_switch, case_90, case_180, case_360.
  repeat match goal with
         | |- context [if ?b then _ else _] => destruct b
         end; cbn; auto.
Qed.

Lemma TaskProcess_point_frame_flags taskParser tpNum gen i st st' :
  TaskProcess_point taskParser tpNum gen i st = Return st' ->
  AATTaskLength (settingsTask st') = AATTaskLength (settingsTask st)
  /\ AutoAdvance (settingsTask st') = AutoAdvance (settingsTask st)
  /\ EnableMultipleStartPoints (settingsTask st')
     = EnableMultipleStartPoints (settingsTask st).
Proof.
  intros H. unfold TaskProcess_point in H. returns H.
  match type of H with
  | context [fill_waypoint ?a ?b ?c ?d ?e ?f ?g ?h] =>
      pose proof (fill_waypoint_settings a b c d e f g h) as F1;
      set (st2 := fill_waypoint a b c d e f g h) in *; clearbody st2
  end.
  destruct (_ =? SECTOR_CLASSIC).
  - returns H. destruct (AAT_point tpNum i st2).
    + unfold AAT_waypoint in H.
      destruct (_ =? 360).
      * injection H as <-. cbn. rewrite F1. auto.
      * returns H. injection H as <-. cbn. rewrite F1. auto.
    + unfold regular_waypoint in H. cbv zeta in H.
      match type of H with
      | context [sector_switch ?a ?b ?c ?d ?e ?f] =>
          pose proof (sector_switch_frame_flags a b c d e f) as S;
          cbv zeta in S; destruct S as (S1 & S2 & S3 & _);
          set (st3 := sector_switch a b c d e f) in *; clearbody st3
      end.
      destruct (i =? 1).
      * returns H. injection H as <-. cbn. rewrite S1, S2, S3, F1. auto.
      * destruct (i =? usub tpNum 1); injection H as <-; cbn;
          rewrite ?S1, ?S2, ?S3, ?F1; auto.
  - destruct (_ =? SECTOR_WINDOW); injection H as <-; cbn; rewrite F1; auto.
Qed.

(** X15. Whatever the task file holds, a translated task has AAT enabled exactly
    when the AAT time is positive, carries that time as the AAT task
    length, has multiple start points disabled and leaves every one of the
    [maxStartPoints] start slots unused.  Its auto-advance mode is the one
    the profile held before, and ARMSTART when the profile has no
    AutoAdvance key or its text does not convert: reading it never fails
    the translation. *)
Theorem task_flags_and_start_points profileParser taskParser aatTime
    maxTaskPoints maxStartPoints gen profile st :
  TaskProcess profileParser taskParser aatTime maxTaskPoints maxStartPoints gen
    = Return (profile, st) ->
  AATEnabled (settingsTask st) = (0 <? aatTime)
  /\ AATTaskLength (settingsTask st) = aatTime
  /\ EnableMultipleStartPoints (settingsTask st) = false
  /\ startPointArray st
     = replicate (Z.to_nat maxStartPoints) START_POINT_init
  /\ AutoAdvance (settingsTask st)
     = match profileParser !! ("", "AutoAdvance") with
       | Some text => match Convert_unsigned text with
                      | Some mode => mode
                      | None => AUTOADVANCE_ARMSTART
                      end
       | None => AUTOADVANCE_ARMSTART
       end.
Proof.
  unfold TaskProcess. intros H.
  destruct (Value taskParser "Task" "Count" ≫= Convert_u) as [e|tpNum];
    [discriminate|].
  rewrite bind_Return in H.
  destruct (maxTaskPoints <? usub tpNum 1); [discriminate|].
  destruct (TaskProcess_loop _ _ _ _ _ _) as [e|st1] eqn:E; [discriminate|].
  rewrite bind_Return in H. cbv zeta in H. injection H as _ <-.
  set (st0 := TaskProcess_init profileParser aatTime maxTaskPoints
                maxStartPoints) in E.
  set (P := fun s : State =>
         AATEnabled (settingsTask s) = AATEnabled (settingsTask st0)
         /\ AATTaskLength (settingsTask s) = AATTaskLength (settingsTask st0)
         /\ EnableMultipleStartPoints (settingsTask s)
            = EnableMultipleStartPoints (settingsTask st0)
         /\ startPointArray s = startPointArray st0
         /\ AutoAdvance (settingsTask s) = AutoAdvance (settingsTask st0)).
  assert (I : P st1).
  { revert E. apply (TaskProcess_loop_invariant P).
    - intros j s s' (P1 & P2 & P3 & P4 & P5) Hb.
      destruct (TaskProcess_point_frame _ _ _ _ _ _ Hb) as (A1 & _ & A3).
      destruct (TaskProcess_point_frame_flags _ _ _ _ _ _ Hb)
        as (B1 & B2 & B3).
      unfold P. rewrite A1, A3, B1, B2, B3. auto.
    - unfold P. auto. }
  assert (I' : P (if tpsValid st1 then st1 else warn warning_not_uniform st1))
    by (destruct (tpsValid st1); exact I).
  destruct I' as (P1 & P2 & P3 & P4 & P5).
  rewrite P1, P2, P3, P4, P5. subst st0. unfold TaskProcess_init. cbn.
  repeat split.
  unfold Value. destruct (profileParser !! ("", "AutoAdvance")) as [text|];
    [|reflexivity].
  cbn. unfold Convert_u. destruct (Convert_unsigned text); reflexivity.
Qed.

(** ** The profile *)

(** X16. A translated task leaves every profile entry outside its thirteen keys
    as it was, and the entries it writes agree with the settings it hands
    to the task dump: the types and radii in decimal, the start height
    reference 1, and 0 for the margins and the maximum start speed. *)
Theorem task_profile_entries profileParser taskParser aatTime maxTaskPoints
    maxStartPoints gen profile st :
  TaskProcess profileParser taskParser aatTime maxTaskPoints maxStartPoints gen
    = Return (profile, st) ->
  (forall key, key ∉ task_profile_keys ->
     profile !! key = profileParser !! key)
  /\ profile !! ("", "StartLine") = Some (Convert (StartType (settingsTask st)))
  /\ profile !! ("", "StartMaxHeight")
     = Some (Convert (StartMaxHeight (settingsTask st)))
  /\ profile !! ("", "StartRadius")
     = Some (Convert (StartRadius (settingsTask st)))
  /\ profile !! ("", "FAISector") = Some (Convert (SectorType (settingsTask st)))
  /\ profile !! ("", "Radius") = Some (Convert (SectorRadius (settingsTask st)))
  /\ profile !! ("", "FinishLine")
     = Some (Convert (FinishType (settingsTask st)))
  /\ profile !! ("", "FinishRadius")
     = Some (Convert (FinishRadius (settingsTask st)))
  /\ profile !! ("", "StartHeightRef") = Some "1"
  /\ profile !! ("", "StartMaxHeightMargin") = Some "0"
  /\ profile !! ("", "StartMaxSpeed") = Some "0"
  /\ profile !! ("", "StartMaxSpeedMargin") = Some "0".
Proof.
  unfold TaskProcess. intros H.
  destruct (Value taskParser "Task" "Count" ≫= Convert_u) as [e|tpNum];
    [discriminate|].
  rewrite bind_Return in H.
  destruct (maxTaskPoints <? usub tpNum 1); [discriminate|].
  destruct (TaskProcess_loop _ _ _ _ _ _) as [e|st1]; [discriminate|].
  rewrite bind_Return in H. cbv zeta in H. injection H as <- <-.
  split.
  - intros key Hkey. unfold task_profile_keys in Hkey.
    repeat (apply not_elem_of_cons in Hkey as [? Hkey]).
    unfold profile_write. cbv zeta.
    rewrite !lookup_insert_ne by congruence. reflexivity.
  - repeat split; profile_key; reflexivity.
Qed.

(** ** The geometry of the AAT sector *)

(** X11. The half angle of two bearings does not depend on their order, lies on
    the shorter arc between them and splits it into two parts that differ
    by at most one degree: it is within 90 degrees of either bearing. *)
Theorem half_angle_bisects angle1 angle2 :
  0 <= angle1 < 360 -> 0 <= angle2 < 360 ->
  let h := halfAngle angle1 angle2 in
  0 <= h < 360
  /\ halfAngle angle2 angle1 = h
  /\ arc h angle1 + arc h angle2 = arc angle1 angle2
  /\ Z.abs (arc h angle1 - arc h angle2) <= 1
  /\ arc h angle1 <= 90 /\ arc h angle2 <= 90.
Proof.
  intros H1 H2 h.
  destruct (halfAngle_bearings angle1 angle2 H1 H2) as [E B].
  destruct (halfAngle_bearings angle2 angle1 H2 H1) as [E' _].
  fold h in E, B.
  split; [exact B|].
  split.
  { rewrite E', E. replace (angle2 - angle1) with (- (angle1 - angle2)) by lia.
    rewrite Z.abs_opp, (Z.add_comm angle2 angle1). reflexivity. }
  clear E'. unfold arc.
  destruct (Z.ltb_spec 180 (Z.abs (angle1 - angle2))) as [L|L].
  - assert (Hh : h = (angle1 + angle2) / 2 + 180
                 \/ h = (angle1 + angle2) / 2 - 180).
    { rewrite E.
      assert (0 <= (angle1 + angle2) / 2 < 360)
        by (split; [apply Z.div_pos; lia | apply Z.div_lt_upper_bound; lia]).
      destruct (Z_lt_ge_dec ((angle1 + angle2) / 2 + 180) 360).
      - left. apply Z.mod_small. lia.
      - right.
        replace ((angle1 + angle2) / 2 + 180)
          with (((angle1 + angle2) / 2 - 180) + 1 * 360) by lia.
        rewrite Z.mod_add by lia. apply Z.mod_small. lia. }
    clear E. Z.div_mod_to_equations. lia.
  - rewrite E in *. clear E. Z.div_mod_to_equations. lia.
Qed.

(** X12. The two radials open the declared angle: going from the start radial
    to the finish radial turns by the declared angle modulo 360, for every
    half angle and every declared angle up to 720. *)
Theorem radials_open_the_angle h angle :
  0 <= h < 360 -> 0 <= angle <= 720 ->
  (FinishRadial h angle - StartRadial h angle) mod 360 = angle mod 360
  /\ 0 <= StartRadial h angle < 360
  /\ 0 <= FinishRadial h angle < 360.
Proof.
  intros Hh Ha.
  rewrite StartRadial_floor by lia.
  rewrite FinishRadial_floor
    by (try (unfold is_unsigned; change UINT_MODULUS with 4294967296); lia).
  split; [|split; apply Z.mod_pos_bound; lia].
  rewrite <- Zminus_mod.
  replace ((2 * h + angle) / 2 - (2 * h - angle) / 2) with angle;
    [reflexivity|].
  Z.div_mod_to_equations. lia.
Qed.

(** ** Edge cases of the point count *)

(** X17. A task file that declares the takeoff point only: no point key is
    read, the translation returns an empty task (no waypoint, every table
    slot unused, both sinks empty) and still writes the profile, with the
    zero settings: circle-coded types, radii and heights 0. *)
Theorem takeoff_only_task profileParser taskParser aatTime maxTaskPoints
    maxStartPoints gen :
  (Value taskParser "Task" "Count" ≫= Convert_u) = Return 1 ->
  0 <= maxTaskPoints ->
  exists profile st,
    TaskProcess profileParser taskParser aatTime maxTaskPoints maxStartPoints
      gen = Return (profile, st)
    /\ waypointArray st = []
    /\ taskPointArray st
       = replicate (Z.to_nat maxTaskPoints) TASK_POINT_init
    /\ Warning st = [] /\ Error st = [] /\ wpFile st = []
    /\ StartType (settingsTask st) = 0 /\ StartRadius (settingsTask st) = 0
    /\ SectorType (settingsTask st) = 0 /\ SectorRadius (settingsTask st) = 0
    /\ FinishType (settingsTask st) = 0 /\ FinishRadius (settingsTask st) = 0
    /\ profile !! ("", "StartLine") = Some "0"
    /\ profile !! ("", "FAISector") = Some "0"
    /\ profile !! ("", "FinishLine") = Some "0".
Proof.
  intros HC Hmax. unfold TaskProcess. rewrite HC, bind_Return.
  change (usub 1 1) with 0. is_false (maxTaskPoints <? 0).
  change (Z.to_nat (1 - 1)) with 0%nat. cbn [TaskProcess_loop].
  rewrite bind_Return. cbv zeta.
  change (tpsValid (TaskProcess_init profileParser aatTime maxTaskPoints
                      maxStartPoints)) with true. cbv iota.
  eexists _, _. split; [reflexivity|].
  repeat split; try reflexivity; profile_key; reflexivity.
Qed.

(** ** The layout of the airspace file *)

Lemma concat_records_length (zones : Z -> PZDecl) (l : list Z) :
  length (concat (map (fun k => zone_record k (zones k)) l))
  = (9 * length l)%nat.
Proof.
  induction l as [|k l IH]; [reflexivity|].
  cbn [map concat]. rewrite length_app, IH. cbn [length zone_record]. lia.
Qed.

Lemma concat_records_at (zones : Z -> PZDecl) :
  forall (n : nat) (i : Z) (k : nat),
    (k < n)%nat ->
    take 9 (drop (9 * k)
              (concat (map (fun j => zone_record j (zones j))
                         (seqZ i (Z.of_nat n)))))
    = zone_record (i + Z.of_nat k) (zones (i + Z.of_nat k)).
Proof.
  induction n as [|n IH]; intros i k Hk; [lia|].
  rewrite (seqZ_cons i (Z.of_nat (S n))) by lia.
  replace (Z.pred (Z.of_nat (S n))) with (Z.of_nat n) by lia.
  cbn [map concat].
  destruct k as [|k].
  - rewrite Z.add_0_r. reflexivity.
  - replace (9 * S k)%nat with (9 + 9 * k)%nat by lia.
    rewrite <- drop_drop.
    change (drop 9 (zone_record i (zones i) ++ ?l)) with l.
    replace (drop 9 (zone_record i (zones i)
                     ++ concat (map (fun j => zone_record j (zones j))
                                  (seqZ (Z.succ i) (Z.of_nat n)))))
      with (concat (map (fun j => zone_record j (zones j))
                      (seqZ (Z.succ i) (Z.of_nat n)))) by reflexivity.
    rewrite IH by lia. f_equal; [lia | f_equal; lia].
Qed.

Lemma penalty_zones_layout_run profileParser taskParser pathPrefix
    outputPathPrefix pzNum (zones : Z -> PZDecl) :
  (Value taskParser "Task" "PZCount" ≫= Convert_u) = Return pzNum ->
  pzNum <> 0 ->
  (forall i, 0 <= i < pzNum -> zone_declares taskParser i (zones i)) ->
  PenaltyZonesProcess profileParser taskParser pathPrefix outputPathPrefix
  = Return
      (<[("", "AirspaceFile") :=
           dquote +:+ path_append pathPrefix AIRSPACES_FILE_NAME +:+ dquote]>
         profileParser,
       Some (path_append outputPathPrefix AIRSPACES_FILE_NAME,
             (airspaces_banner
              ++ concat (map (fun i => zone_record i (zones i))
                           (seqZ 0 pzNum)))%list)).
Proof.
  intros HC Hn Hall.
  pose proof (Count_unsigned_PZ _ _ HC) as Hu.
  unfold PenaltyZonesProcess. rewrite HC, bind_Return.
  is_false (pzNum =? 0). cbv zeta.
  rewrite (PenaltyZones_loop_declared taskParser zones)
    by (intros k Hk; apply Hall; unfold is_unsigned in Hu; lia).
  rewrite bind_Return, Z2Nat.id by (unfold is_unsigned in Hu; lia).
  reflexivity.
Qed.

(** X21. With [pzNum] declared zones, [pzNum] not 0, the airspace file has
    [3 + 9 * pzNum] lines, and the nine lines from line [3 + 9 * k] on are
    the record of zone [k]: a blank line, the class, the name with the
    number [k + 1], the ceiling, the floor ("AL 0" exactly when the base
    is 0) and the four corners.  In the profile only the airspace-file key
    changes. *)
Theorem airspace_file_layout profileParser taskParser pathPrefix
    outputPathPrefix pzNum (zones : Z -> PZDecl) :
  (Value taskParser "Task" "PZCount" ≫= Convert_u) = Return pzNum ->
  pzNum <> 0 ->
  (forall i, 0 <= i < pzNum -> zone_declares taskParser i (zones i)) ->
  exists profile path airspacesFile,
    PenaltyZonesProcess profileParser taskParser pathPrefix outputPathPrefix
    = Return (profile, Some (path, airspacesFile))
    /\ length airspacesFile = Z.to_nat (3 + 9 * pzNum)
    /\ take 3 airspacesFile = airspaces_banner
    /\ (forall k, 0 <= k < pzNum ->
          take 9 (drop (Z.to_nat (3 + 9 * k)) airspacesFile)
          = zone_record k (zones k)
          /\ airspacesFile !! Z.to_nat (3 + 9 * k + 2)
             = Some ("AN Penalty Zone " +:+ Convert (k + 1))
          /\ airspacesFile !! Z.to_nat (3 + 9 * k + 4)
             = Some (if PZBase (zones k) =? 0 then "AL 0"
                     else "AL " +:+ Convert (PZBase (zones k)) +:+ "m AMSL"))
    /\ (forall key, key <> ("", "AirspaceFile") ->
          profile !! key = profileParser !! key).
Proof.
  intros HC Hn Hall.
  pose proof (Count_unsigned_PZ _ _ HC) as Hu. unfold is_unsigned in Hu.
  rewrite (penalty_zones_layout_run profileParser taskParser pathPrefix
             outputPathPrefix pzNum zones HC Hn Hall). eexists _, _, _. split; [reflexivity|].
  assert (T : forall k, 0 <= k < pzNum ->
            take 9 (drop (Z.to_nat (3 + 9 * k))
                      (airspaces_banner
                       ++ concat (map (fun i => zone_record i (zones i))
                                    (seqZ 0 pzNum))))
            = zone_record k (zones k)).
  { intros k Hk.
    replace (Z.to_nat (3 + 9 * k)) with (3 + 9 * Z.to_nat k)%nat by lia.
    rewrite <- drop_drop.
    replace (drop 3 (airspaces_banner
                     ++ concat (map (fun i => zone_record i (zones i))
                                  (seqZ 0 pzNum))))
      with (concat (map (fun i => zone_record i (zones i)) (seqZ 0 pzNum)))
      by reflexivity.
    rewrite <- (Z2Nat.id pzNum) at 1 by lia.
    rewrite (concat_records_at zones (Z.to_nat pzNum) 0 (Z.to_nat k)) by lia.
    rewrite Z.add_0_l, Z2Nat.id by lia. reflexivity. }
  split; [|split; [reflexivity|split]].
  - rewrite length_app, concat_records_length, length_seqZ. cbn [length
      airspaces_banner]. lia.
  - intros k Hk. split; [exact (T k Hk)|].
    pose proof (T k Hk) as Tk.
    split.
    + replace (Z.to_nat (3 + 9 * k + 2)) with (Z.to_nat (3 + 9 * k) + 2)%nat
        by lia.
      rewrite <- lookup_drop, <- (lookup_take_lt _ 9) by lia.
      rewrite Tk. reflexivity.
    + replace (Z.to_nat (3 + 9 * k + 4)) with (Z.to_nat (3 + 9 * k) + 4)%nat
        by lia.
      rewrite <- lookup_drop, <- (lookup_take_lt _ 9) by lia.
      rewrite Tk. reflexivity.
  - intros key Hkey. rewrite lookup_insert_ne by congruence. reflexivity.
Qed.

(** ** How the profile writers compose *)





(** ** The bearing *)

(** X13. Whatever the positions and whatever the floating-point operations
    return, the bearing is a whole number of degrees in [0, 360); and it is
    0, without atan2 being looked at, when both arguments of the arctangent
    compare equal to zero, as for the bearing of a point to itself. *)
Theorem bearing_is_a_compass_degree lon1 lat1 lon2 lat2 :
  0 <= WaypointBearing lon1 lat1 lon2 lat2 < 360
  /\ (let clat1 := dcos (Deg2Rad lat1) in
      let clat2 := dcos (Deg2Rad lat2) in
      let dlon := dsub (Deg2Rad lon2) (Deg2Rad lon1) in
      let y := dmul (dsin dlon) clat2 in
      let x := dsub (dmul clat1 (dsin (Deg2Rad lat2)))
                    (dmul (dmul (dsin (Deg2Rad lat1)) clat2) (dcos dlon)) in
      double_is_zero x = true -> double_is_zero y = true ->
      WaypointBearing lon1 lat1 lon2 lat2 = 0).
Proof.
  split; [apply WaypointBearing_range|].
  cbv zeta. apply WaypointBearing_coincident.
Qed.

(** ** The WP file option *)

(** A conditional on a state commutes with forgetting the WP file when
    the condition does not look at it. *)
Ltac same_branch :=
  lazymatch goal with
  | |- without_wpFile (if ?c then _ else _) = (if ?c' then _ else _) =>
      change c' with c; destruct c
  end.

Lemma case_90_without_wpFile i tpNum radius name st :
  without_wpFile (case_90 i tpNum radius name st)
  = case_90 i tpNum radius name (without_wpFile st).
Proof.
  unfold case_90.
  same_branch; [reflexivity|]. same_branch; [reflexivity|].
  change (settingsTask (without_wpFile st)) with (settingsTask st).
  destruct ((2 <? i) && negb (SectorType (settingsTask st) =? AST_FAI));
    cbv zeta; same_branch; reflexivity.
Qed.

Lemma case_180_without_wpFile i tpNum radius name st :
  without_wpFile (case_180 i tpNum radius name st)
  = case_180 i tpNum radius name (without_wpFile st).
Proof.
  unfold case_180.
  same_branch; [reflexivity|]. same_branch; [reflexivity|].
  same_branch; reflexivity.
Qed.

Lemma case_360_without_wpFile i tpNum radius name st :
  without_wpFile (case_360 i tpNum radius name st)
  = case_360 i tpNum radius name (without_wpFile st).
Proof.
  unfold case_360.
  same_branch; [reflexivity|]. same_branch; [reflexivity|].
  same_branch; [reflexivity|]. cbv zeta. same_branch; reflexivity.
Qed.

Lemma sector_switch_without_wpFile i tpNum radius name angle st :
  without_wpFile (sector_switch i tpNum radius name angle st)
  = sector_switch i tpNum radius name angle (without_wpFile st).
Proof.
  unfold sector_switch.
  same_branch; [apply case_90_without_wpFile|].
  same_branch; [apply case_180_without_wpFile|].
  same_branch; [apply (case_360_without_wpFile _ _ _ _ (warn _ st))|].
  same_branch; [apply case_360_without_wpFile|reflexivity].
Qed.

Lemma TaskProcess_point_without_wpFile taskParser tpNum gen i st :
  Result_map without_wpFile (TaskProcess_point taskParser tpNum gen i st)
  = TaskProcess_point taskParser tpNum false i (without_wpFile st).
Proof.
  unfold TaskProcess_point.
  destruct (TaskValue taskParser "TPName" i) as [e|tpName]; [reflexivity|].
  rewrite !bind_Return.
  destruct (TaskValue taskParser "TPPosX" i) as [e|x]; [reflexivity|].
  rewrite !bind_Return.
  destruct (TaskValue taskParser "TPPosY" i) as [e|y]; [reflexivity|].
  rewrite !bind_Return.
  destruct (TaskUnsigned taskParser "TPWidth" i) as [e|minAlt]; [reflexivity|].
  rewrite !bind_Return.
  destruct (if minAlt =? 0 then TaskDouble taskParser "TPPosZ" i
            else Return (double_of_unsigned minAlt)) as [e|alt];
    [reflexivity|].
  rewrite !bind_Return. cbv zeta.
  assert (F : without_wpFile (fill_waypoint tpNum gen i tpName x y alt st)
              = fill_waypoint tpNum false i tpName x y alt (without_wpFile st))
    by (unfold fill_waypoint; destruct gen; reflexivity).
  set (st2 := fill_waypoint tpNum gen i tpName x y alt st) in *.
  set (st2' := fill_waypoint tpNum false i tpName x y alt (without_wpFile st))
    in *.
  clearbody st2 st2'. subst st2'.
  destruct (TaskValue taskParser "TPSectorType" i) as [e|s]; [reflexivity|].
  rewrite !bind_Return.
  destruct (Convert_u s) as [e|sectorType]; [reflexivity|].
  rewrite !bind_Return.
  destruct (sectorType =? SECTOR_CLASSIC).
  - destruct (TaskUnsigned taskParser "TPRadius" i) as [e|radius];
      [reflexivity|].
    rewrite !bind_Return.
    destruct (TaskUnsigned taskParser "TPAngle" i) as [e|angle];
      [reflexivity|].
    rewrite !bind_Return.
    change (AAT_point tpNum i (without_wpFile st2)) with (AAT_point tpNum i st2).
    destruct (AAT_point tpNum i st2).
    + unfold AAT_waypoint. destruct (angle =? 360); [reflexivity|].
      destruct (TaskValue taskParser "TPPosX" (i - 1)); [reflexivity|].
      rewrite !bind_Return.
      destruct (TaskValue taskParser "TPPosY" (i - 1)); [reflexivity|].
      rewrite !bind_Return.
      destruct (TaskValue taskParser "TPPosX" (i + 1)); [reflexivity|].
      rewrite !bind_Return.
      destruct (TaskValue taskParser "TPPosY" (i + 1)); [reflexivity|].
      rewrite !bind_Return. reflexivity.
    + unfold regular_waypoint. cbv zeta.
      rewrite <- sector_switch_without_wpFile.
      destruct (i =? 1).
      * destruct (TaskUnsigned taskParser "TPHeight" i); reflexivity.
      * destruct (i =? usub tpNum 1); reflexivity.
  - destruct (sectorType =? SECTOR_WINDOW); reflexivity.
Qed.

Lemma TaskProcess_loop_without_wpFile taskParser tpNum gen :
  forall n i st,
    Result_map without_wpFile (TaskProcess_loop taskParser tpNum gen n i st)
    = TaskProcess_loop taskParser tpNum false n i (without_wpFile st).
Proof.
  induction n as [|n IH]; intros i st; [reflexivity|].
  cbn [TaskProcess_loop].
  rewrite <- (TaskProcess_point_without_wpFile _ _ gen).
  destruct (TaskProcess_point taskParser tpNum gen i st) as [e|st1];
    [reflexivity|].
  cbn [Result_map]. rewrite !bind_Return. apply IH.
Qed.

(** X19. Asking for the WP file changes nothing but the WP file: with and
    without it the translation throws the same exception or returns the
    same profile, settings, tables, waypoints, warnings and errors; and
    without it nothing is written to the WP file. *)
Theorem wp_file_option_is_independent profileParser taskParser aatTime
    maxTaskPoints maxStartPoints :
  Result_map (fun r => (fst r, without_wpFile (snd r)))
    (TaskProcess profileParser taskParser aatTime maxTaskPoints maxStartPoints
       true)
  = TaskProcess profileParser taskParser aatTime maxTaskPoints maxStartPoints
      false
  /\ forall profile st,
       TaskProcess profileParser taskParser aatTime maxTaskPoints
         maxStartPoints false = Return (profile, st) ->
       wpFile st = [].
Proof.
  assert (E : Result_map (fun r => (fst r, without_wpFile (snd r)))
                (TaskProcess profileParser taskParser aatTime maxTaskPoints
                   maxStartPoints true)
              = TaskProcess profileParser taskParser aatTime maxTaskPoints
                  maxStartPoints false).
  { unfold TaskProcess.
    destruct (Value taskParser "Task" "Count" ≫= Convert_u) as [e|tpNum];
      [reflexivity|].
    rewrite !bind_Return.
    destruct (maxTaskPoints <? usub tpNum 1); [reflexivity|].
    change (TaskProcess_init profileParser aatTime maxTaskPoints maxStartPoints)
      with (without_wpFile
              (TaskProcess_init profileParser aatTime maxTaskPoints
                 maxStartPoints)) at 2.
    rewrite <- (TaskProcess_loop_without_wpFile _ _ true).
    destruct (TaskProcess_loop taskParser tpNum true _ _ _) as [e|st1];
      [reflexivity|].
    cbn [Result_map]. rewrite !bind_Return. cbv zeta.
    change (tpsValid (without_wpFile st1)) with (tpsValid st1).
    destruct (tpsValid st1); reflexivity. }
  split; [exact E|].
  intros profile st H. rewrite <- E in H.
  destruct (TaskProcess profileParser taskParser aatTime maxTaskPoints
              maxStartPoints true) as [e|[p s]]; [discriminate|].
  cbn in H. injection H as _ <-. reflexivity.
Qed.

Lemma sector_switch_wpFile i tpNum radius name angle st :
  wpFile (sector_switch i tpNum radius name angle st) = wpFile st.
Proof.
  unfold sector_switch, case_90, case_180, case_360.
  repeat match goal with
         | |- context [if ?b then _ else _] => destruct b
         end; reflexivity.
Qed.

Lemma TaskProcess_point_wpFile taskParser tpNum gen i d st st' :
  declares taskParser i d ->
  TaskProcess_point taskParser tpNum gen i st = Return st' ->
  wpFile st'
  = (wpFile st ++ if gen then [wp_line tpNum i d] else [])%list.
Proof.
  intros Hd H.
  rewrite (TaskProcess_point_declared _ _ _ _ _ _ Hd) in H. cbv zeta in H.
  assert (F : wpFile (fill_waypoint tpNum gen i (TPName d) (TPPosX d)
                        (TPPosY d) (altitude_of d) st)
              = (wpFile st ++ if gen then [wp_line tpNum i d] else [])%list).
  { unfold fill_waypoint. destruct gen; cbn; [reflexivity|].
    rewrite app_nil_r. reflexivity. }
  set (st2 := fill_waypoint tpNum gen i (TPName d) (TPPosX d) (TPPosY d)
                (altitude_of d) st) in *.
  clearbody st2. rewrite <- F. clear F.
  destruct (TPSectorType d =? SECTOR_CLASSIC).
  - destruct (AAT_point tpNum i st).
    + unfold AAT_waypoint in H. destruct (TPAngle d =? 360).
      * injection H as <-. reflexivity.
      * returns H. injection H as <-. reflexivity.
    + rewrite (regular_waypoint_declared _ _ _ _ _ _ Hd) in H.
      injection H as <-. cbv zeta.
      destruct (i =? 1); [|destruct (i =? usub tpNum 1)]; cbn;
        apply sector_switch_wpFile.
  - destruct (TPSectorType d =? SECTOR_WINDOW); injection H as <-;
      reflexivity.
Qed.

Lemma TaskProcess_loop_wpFile taskParser tpNum (D : Z -> TPDecl) :
  forall n i st st',
    (forall j, i <= j < i + Z.of_nat n -> declares taskParser j (D j)) ->
    TaskProcess_loop taskParser tpNum true n i st = Return st' ->
    wpFile st'
    = (wpFile st
       ++ map (fun j => wp_line tpNum j (D j)) (seqZ i (Z.of_nat n)))%list.
Proof.
  induction n as [|n IH]; intros i st st' Hall H.
  - injection H as <-. cbn. rewrite app_nil_r. reflexivity.
  - cbn [TaskProcess_loop] in H.
    destruct (TaskProcess_point taskParser tpNum true i st) as [e|st1] eqn:E;
      [discriminate|].
    rewrite bind_Return in H.
    assert (Hall' : forall j, i + 1 <= j < i + 1 + Z.of_nat n ->
                              declares taskParser j (D j))
      by (intros j Hj; apply Hall; lia).
    rewrite (IH (i + 1) st1 st' Hall' H).
    rewrite (TaskProcess_point_wpFile _ _ _ _ _ _ _ (Hall i ltac:(lia)) E).
    rewrite <- app_assoc.
    rewrite (seqZ_cons i (Z.of_nat (S n))) by lia.
    replace (Z.pred (Z.of_nat (S n))) with (Z.of_nat n) by lia.
    replace (Z.succ i) with (i + 1) by lia. reflexivity.
Qed.

(** X20. When the WP file is asked for, a translated task has written one line
    per point after the takeoff, in task order, each made of the task
    index, the latitude, the longitude, the altitude followed by "M", the
    letter T, the prefixed name and the raw name, separated by commas. *)
Theorem wp_file_lines profileParser taskParser aatTime maxTaskPoints
    maxStartPoints tpNum (D : Z -> TPDecl) profile st :
  (Value taskParser "Task" "Count" ≫= Convert_u) = Return tpNum ->
  (forall i, 1 <= i < tpNum -> declares taskParser i (D i)) ->
  TaskProcess profileParser taskParser aatTime maxTaskPoints maxStartPoints
    true = Return (profile, st) ->
  wpFile st = map (fun i => wp_line tpNum i (D i)) (seqZ 1 (tpNum - 1))
  /\ forall i, 1 <= i < tpNum ->
       wpFile st !! Z.to_nat (i - 1)
       = Some (Convert i +:+ ","
               +:+ Coord2DDMMFF_lat (Latitude (TPPosX (D i)) (TPPosY (D i)))
               +:+ ","
               +:+ Coord2DDMMFF_lon (Longitude (TPPosX (D i)) (TPPosY (D i)))
               +:+ "," +:+ ostream_double (altitude_of (D i)) +:+ "M,T,"
               +:+ point_name tpNum i (TPName (D i)) +:+ ","
               +:+ TPName (D i)).
Proof.
  intros HC Hall H.
  assert (W : wpFile st
              = map (fun i => wp_line tpNum i (D i)) (seqZ 1 (tpNum - 1))).
  { unfold TaskProcess in H. rewrite HC, bind_Return in H.
    destruct (maxTaskPoints <? usub tpNum 1); [discriminate|].
    destruct (TaskProcess_loop _ _ _ _ _ _) as [e|st1] eqn:E; [discriminate|].
    rewrite bind_Return in H. cbv zeta in H. injection H as _ <-.
    assert (W1 : wpFile st1
                 = map (fun i => wp_line tpNum i (D i)) (seqZ 1 (tpNum - 1))).
    { destruct (Z_le_gt_dec tpNum 1) as [Hle|Hgt].
      - replace (Z.to_nat (tpNum - 1)) with 0%nat in E by lia.
        injection E as <-. rewrite seqZ_nil by lia. reflexivity.
      - assert (Hall' : forall j,
                  1 <= j < 1 + Z.of_nat (Z.to_nat (tpNum - 1)) ->
                  declares taskParser j (D j))
          by (intros j Hj; apply Hall; lia).
        rewrite (TaskProcess_loop_wpFile _ _ D _ _ _ _ Hall' E).
        rewrite Z2Nat.id by lia. reflexivity. }
    destruct (tpsValid st1); exact W1. }
  split; [exact W|].
  intros i Hi. rewrite W, list_lookup_fmap.
  rewrite (lookup_seqZ_lt 1 (tpNum - 1) (Z.to_nat (i - 1))) by lia.
  cbn. replace (1 + Z.of_nat (Z.to_nat (i - 1))) with i by lia.
  reflexivity.
Qed.

(** ** Tasks whose turnpoints agree *)

Lemma TaskProcess_loop_app taskParser tpNum gen :
  forall n m i st,
    TaskProcess_loop taskParser tpNum gen (n + m) i st
    = TaskProcess_loop taskParser tpNum gen n i st
      ≫= TaskProcess_loop taskParser tpNum gen m (i + Z.of_nat n).
Proof.
  induction n as [|n IH]; intros m i st.
  - cbn. rewrite Z.add_0_r. reflexivity.
  - cbn [TaskProcess_loop Nat.add].
    destruct (TaskProcess_point taskParser tpNum gen i st) as [e|st1];
      [reflexivity|].
    rewrite !bind_Return, IH.
    replace (i + 1 + Z.of_nat n) with (i + Z.of_nat (S n)) by lia.
    reflexivity.
Qed.

(** The start or the finish of a task without AAT, of classic type and an
    angle other than 270: nothing of the task sector, the validity flag or
    the sinks changes. *)
Lemma end_step taskParser tpNum gen i d st :
  is_unsigned tpNum ->
  i = 1 \/ i = tpNum - 1 -> 1 <= i < tpNum ->
  AATEnabled (settingsTask st) = false ->
  declares taskParser i d ->
  TPSectorType d = SECTOR_CLASSIC ->
  TPAngle d <> 270 ->
  exists st',
    TaskProcess_point taskParser tpNum gen i st = Return st'
    /\ AATEnabled (settingsTask st') = false
    /\ SectorType (settingsTask st') = SectorType (settingsTask st)
    /\ SectorRadius (settingsTask st') = SectorRadius (settingsTask st)
    /\ tpsValid st' = tpsValid st
    /\ Warning st' = Warning st
    /\ Error st' = Error st.
Proof.
  intros Hu Hi H1 Haat Hd Hs Ha.
  assert (Hsub : usub tpNum 1 = tpNum - 1)
    by (apply usub_1; unfold is_unsigned in Hu; lia).
  assert (Haat' : AAT_point tpNum i st = false)
    by (unfold AAT_point; rewrite Haat; reflexivity).
  rewrite (regular_point _ _ _ _ _ _ Haat' Hd Hs). cbv zeta. rewrite Hsub.
  pose proof (fill_waypoint_frame tpNum gen i (TPName d) (TPPosX d) (TPPosY d)
                (altitude_of d) st) as F.
  cbv zeta in F. destruct F as (F1 & F2 & F3 & F4 & _).
  set (st2 := fill_waypoint tpNum gen i (TPName d) (TPPosX d) (TPPosY d)
                (altitude_of d) st) in *.
  clearbody st2.
  eexists. split; [reflexivity|].
  unfold sector_switch, case_90, case_180, case_360. rewrite Hsub.
  is_false (TPAngle d =? 270).
  destruct (Z.eqb_spec i 1) as [E1|N1].
  - destruct (TPAngle d =? 90), (TPAngle d =? 180), (TPAngle d =? 360);
      state_simpl; rewrite ?F1, ?F2, ?F3, ?F4; repeat split; auto.
  - is_true (i =? tpNum - 1).
    destruct (TPAngle d =? 90), (TPAngle d =? 180), (TPAngle d =? 360);
      state_simpl; rewrite ?F1, ?F2, ?F3, ?F4; repeat split; auto.
Qed.

(** An intermediate point of a task without AAT whose angle (90 or 360)
    and radius are those of the intermediate points before it. *)
Lemma uniform_step taskParser tpNum gen i d angle radius st :
  is_unsigned tpNum ->
  intermediate tpNum i ->
  AATEnabled (settingsTask st) = false ->
  declares taskParser i d ->
  TPSectorType d = SECTOR_CLASSIC ->
  angle = 90 \/ angle = 360 ->
  TPAngle d = angle -> TPRadius d = radius ->
  let type := if angle =? 90 then AST_FAI else AST_CIRCLE in
  (2 < i -> SectorType (settingsTask st) = type
            /\ SectorRadius (settingsTask st) = radius) ->
  exists st',
    TaskProcess_point taskParser tpNum gen i st = Return st'
    /\ AATEnabled (settingsTask st') = false
    /\ SectorType (settingsTask st') = type
    /\ SectorRadius (settingsTask st') = radius
    /\ tpsValid st' = tpsValid st
    /\ Warning st' = Warning st
    /\ Error st' = Error st.
Proof.
  intros Hu [Hi1 Hi2] Haat Hd Hs Hang Ha Hr type Hprev.
  assert (Hsub : usub tpNum 1 = tpNum - 1)
    by (apply usub_1; unfold is_unsigned in Hu; lia).
  assert (Haat' : AAT_point tpNum i st = false)
    by (unfold AAT_point; rewrite Haat; reflexivity).
  rewrite (regular_point _ _ _ _ _ _ Haat' Hd Hs). cbv zeta. rewrite Hsub.
  is_false (i =? 1). is_false (i =? tpNum - 1).
  pose proof (fill_waypoint_frame tpNum gen i (TPName d) (TPPosX d) (TPPosY d)
                (altitude_of d) st) as F.
  cbv zeta in F. destruct F as (F1 & F2 & F3 & F4 & _).
  set (st2 := fill_waypoint tpNum gen i (TPName d) (TPPosX d) (TPPosY d)
                (altitude_of d) st) in *.
  clearbody st2.
  eexists. split; [reflexivity|].
  unfold sector_switch, case_90, case_360. rewrite Hsub, Ha, Hr.
  is_false (i =? 1). is_false (i =? tpNum - 1).
  destruct (Z.ltb_spec 2 i) as [L|L].
  - destruct (Hprev L) as [Pt Pr]. subst type.
    destruct Hang as [-> | ->]; cbn [Z.eqb Pos.eqb] in *;
      rewrite F1, Pt, Z.eqb_refl; cbn [andb negb]; state_simpl;
      rewrite ?F1, ?Pr, ?Z.eqb_refl; cbn [negb]; state_simpl;
      rewrite ?F1, ?F2, ?F3, ?F4, ?Pt; repeat split; auto.
  - subst type.
    destruct Hang as [-> | ->]; cbn [Z.eqb Pos.eqb andb negb]; state_simpl;
      rewrite ?F1, ?F2, ?F3, ?F4; repeat split; auto.
Qed.

Lemma uniform_loop taskParser tpNum gen (D : Z -> TPDecl) angle radius :
  is_unsigned tpNum ->
  angle = 90 \/ angle = 360 ->
  (forall i, intermediate tpNum i ->
     declares taskParser i (D i) /\ TPSectorType (D i) = SECTOR_CLASSIC
     /\ TPAngle (D i) = angle /\ TPRadius (D i) = radius) ->
  let type := if angle =? 90 then AST_FAI else AST_CIRCLE in
  forall n i st,
    2 <= i -> i + Z.of_nat n <= tpNum - 1 ->
    AATEnabled (settingsTask st) = false ->
    (2 < i -> SectorType (settingsTask st) = type
              /\ SectorRadius (settingsTask st) = radius) ->
    exists st',
      TaskProcess_loop taskParser tpNum gen n i st = Return st'
      /\ AATEnabled (settingsTask st') = false
      /\ (2 < i + Z.of_nat n ->
          SectorType (settingsTask st') = type
          /\ SectorRadius (settingsTask st') = radius)
      /\ tpsValid st' = tpsValid st
      /\ Warning st' = Warning st
      /\ Error st' = Error st.
Proof.
  intros Hu Hang Hall type n.
  induction n as [|n IH]; intros i st Hi Hn Haat Hprev.
  - exists st. cbn. rewrite Z.add_0_r. repeat split; tauto.
  - cbn [TaskProcess_loop].
    destruct (Hall i ltac:(unfold intermediate; lia)) as (Hd & Hs & Ha & Hr).
    destruct (uniform_step taskParser tpNum gen i (D i) angle radius st Hu
                ltac:(unfold intermediate; lia) Haat Hd Hs Hang Ha Hr Hprev)
      as (st1 & E & A1 & T1 & R1 & V1 & W1 & E1).
    rewrite E, bind_Return.
    destruct (IH (i + 1) st1 ltac:(lia) ltac:(lia) A1 ltac:(auto))
      as (st' & E' & A' & P' & V' & W' & Er').
    exists st'. split; [exact E'|]. split; [exact A'|].
    split; [intros _; apply P'; lia|].
    split; [congruence|]. split; congruence.
Qed.

(** X5. A task without AAT, with a start, at least one intermediate point and
    a finish, all of classic type: when the intermediate points all
    declare the same angle, 90 or 360, and the same radius (and neither end
    declares angle 270), the translation returns without any warning or
    error, the task is uniform, and the task sector is the FAI sector
    (angle 90) or the circle (angle 360) of that radius. *)
Theorem uniform_task profileParser taskParser maxTaskPoints maxStartPoints
    gen tpNum (D : Z -> TPDecl) angle radius :
  (Value taskParser "Task" "Count" ≫= Convert_u) = Return tpNum ->
  4 <= tpNum -> tpNum - 1 <= maxTaskPoints ->
  (forall i, 1 <= i < tpNum ->
     declares taskParser i (D i) /\ TPSectorType (D i) = SECTOR_CLASSIC) ->
  TPAngle (D 1) <> 270 -> TPAngle (D (tpNum - 1)) <> 270 ->
  angle = 90 \/ angle = 360 ->
  (forall i, intermediate tpNum i ->
     TPAngle (D i) = angle /\ TPRadius (D i) = radius) ->
  exists profile st,
    TaskProcess profileParser taskParser 0 maxTaskPoints maxStartPoints gen
      = Return (profile, st)
    /\ SectorType (settingsTask st)
       = (if angle =? 90 then AST_FAI else AST_CIRCLE)
    /\ SectorRadius (settingsTask st) = radius
    /\ tpsValid st = true
    /\ Warning st = [] /\ Error st = []
    /\ profile !! ("", "FAISector")
       = Some (Convert (if angle =? 90 then AST_FAI else AST_CIRCLE))
    /\ profile !! ("", "Radius") = Some (Convert radius).
Proof.
  intros HC H4 Hmax Hall Hs270 Hf270 Hang Hmid.
  pose proof (Count_unsigned _ _ HC) as Hu.
  unfold TaskProcess. rewrite HC, bind_Return.
  rewrite usub_1 by (unfold is_unsigned in Hu; lia).
  is_false (maxTaskPoints <? tpNum - 1).
  set (st0 := TaskProcess_init profileParser 0 maxTaskPoints maxStartPoints).
  replace (Z.to_nat (tpNum - 1))
    with (1 + (Z.to_nat (tpNum - 3) + 1))%nat by lia.
  rewrite TaskProcess_loop_app. cbn [TaskProcess_loop].
  destruct (Hall 1 ltac:(lia)) as [Hd1 Hc1].
  destruct (end_step taskParser tpNum gen 1 (D 1) st0 Hu ltac:(auto)
              ltac:(lia) eq_refl Hd1 Hc1 Hs270)
    as (st1 & E1 & A1 & _ & _ & V1 & W1 & Er1).
  rewrite E1, !bind_Return.
  rewrite TaskProcess_loop_app.
  assert (Hall' : forall i, intermediate tpNum i ->
            declares taskParser i (D i) /\ TPSectorType (D i) = SECTOR_CLASSIC
            /\ TPAngle (D i) = angle /\ TPRadius (D i) = radius).
  { intros i Hi. destruct (Hall i ltac:(unfold intermediate in Hi; lia)).
    destruct (Hmid i Hi). auto. }
  destruct (uniform_loop taskParser tpNum gen D angle radius Hu Hang Hall'
              (Z.to_nat (tpNum - 3)) (1 + Z.of_nat 1) st1 ltac:(lia)
              ltac:(lia) A1 ltac:(lia))
    as (st2 & E2 & A2 & P2 & V2 & W2 & Er2).
  rewrite E2, bind_Return.
  destruct (P2 ltac:(lia)) as [T2 R2].
  cbn [TaskProcess_loop].
  replace (1 + Z.of_nat 1 + Z.of_nat (Z.to_nat (tpNum - 3))) with (tpNum - 1)
    by lia.
  destruct (Hall (tpNum - 1) ltac:(lia)) as [Hdf Hcf].
  destruct (end_step taskParser tpNum gen (tpNum - 1) (D (tpNum - 1)) st2 Hu
              ltac:(auto) ltac:(lia) A2 Hdf Hcf Hf270)
    as (st3 & E3 & A3 & T3 & R3 & V3 & W3 & Er3).
  rewrite E3, !bind_Return. cbv zeta.
  assert (V : tpsValid st3 = true) by (rewrite V3, V2, V1; reflexivity).
  rewrite V.
  eexists _, _. split; [reflexivity|].
  split; [congruence|]. split; [congruence|]. split; [exact V|].
  split; [rewrite W3, W2, W1; reflexivity|].
  split; [rewrite Er3, Er2, Er1; reflexivity|].
  split; profile_key; congruence.
Qed.

(** ** Truncated task files *)

(** Without AAT a declared point is translated without reading any other
    point, and AAT stays disabled. *)
Lemma plain_point_returns taskParser tpNum gen i d st :
  AATEnabled (settingsTask st) = false ->
  declares taskParser i d ->
  exists st',
    TaskProcess_point taskParser tpNum gen i st = Return st'
    /\ AATEnabled (settingsTask st') = false.
Proof.
  intros Haat Hd.
  assert (E : exists st', TaskProcess_point taskParser tpNum gen i st
                          = Return st').
  { rewrite (TaskProcess_point_declared _ _ _ _ _ _ Hd). cbv zeta.
    replace (AAT_point tpNum i st) with false
      by (unfold AAT_point; rewrite Haat; reflexivity).
    destruct (TPSectorType d =? SECTOR_CLASSIC).
    - rewrite (regular_waypoint_declared _ _ _ _ _ _ Hd). eauto.
    - destruct (TPSectorType d =? SECTOR_WINDOW); eauto. }
  destruct E as [st' E]. exists st'. split; [exact E|].
  destruct (TaskProcess_point_frame _ _ _ _ _ _ E) as [A _]. congruence.
Qed.

Lemma plain_loop_returns taskParser tpNum gen k :
  (forall j, 1 <= j < k -> exists d, declares taskParser j d) ->
  forall n i st,
    1 <= i -> i + Z.of_nat n <= k ->
    AATEnabled (settingsTask st) = false ->
    exists st', TaskProcess_loop taskParser tpNum gen n i st = Return st'.
Proof.
  intros Hall n. induction n as [|n IH]; intros i st Hi Hn Haat; cbn.
  - eauto.
  - destruct (Hall i ltac:(lia)) as [d Hd].
    destruct (plain_point_returns taskParser tpNum gen i d st Haat Hd)
      as (st1 & E & A1).
    rewrite E, bind_Return. apply IH; [lia|lia|exact A1].
Qed.

(** X18. A task file without AAT whose point count promises more points than
    the file holds: when the points before point [k] are declared in full
    and the name key of point [k] is absent, the translation throws the
    missing-value exception of exactly that key and returns no task. *)
Theorem truncated_task_throws profileParser taskParser maxTaskPoints
    maxStartPoints gen tpNum k :
  (Value taskParser "Task" "Count" ≫= Convert_u) = Return tpNum ->
  tpNum - 1 <= maxTaskPoints ->
  1 <= k < tpNum ->
  (forall j, 1 <= j < k -> exists d, declares taskParser j d) ->
  taskParser !! ("Task", "TPName" +:+ Convert k) = None ->
  TaskProcess profileParser taskParser 0 maxTaskPoints maxStartPoints gen
  = Throw (EValueMissing "Task" ("TPName" +:+ Convert k)).
Proof.
  intros HC Hmax Hk Hall Hmiss.
  pose proof (Count_unsigned _ _ HC) as Hu.
  unfold TaskProcess. rewrite HC, bind_Return.
  rewrite usub_1 by (unfold is_unsigned in Hu; lia).
  is_false (maxTaskPoints <? tpNum - 1).
  replace (Z.to_nat (tpNum - 1))
    with (Z.to_nat (k - 1) + S (Z.to_nat (tpNum - 1 - k)))%nat by lia.
  rewrite TaskProcess_loop_app.
  destruct (plain_loop_returns taskParser tpNum gen k Hall (Z.to_nat (k - 1)) 1
              (TaskProcess_init profileParser 0 maxTaskPoints maxStartPoints)
              ltac:(lia) ltac:(lia) eq_refl) as [st1 E].
  rewrite E, bind_Return.
  replace (1 + Z.of_nat (Z.to_nat (k - 1))) with k by lia.
  assert (T : TaskValue taskParser "TPName" k
              = Throw (EValueMissing "Task" ("TPName" +:+ Convert k)))
    by (unfold TaskValue, Value; rewrite Hmiss; reflexivity).
  cbn [TaskProcess_loop]. unfold TaskProcess_point. rewrite T. reflexivity.
Qed.

(** ** Tasks with AAT *)

(** In a task with AAT the loop body keeps the task sector at its initial
    zero values and the task valid, and warns about nothing but an angle of
    270 and a window. *)
Lemma AAT_task_step taskParser tpNum gen i st st' :
  is_unsigned tpNum -> 1 <= i < tpNum ->
  TaskProcess_point taskParser tpNum gen i st = Return st' ->
  AATEnabled (settingsTask st) = true ->
  SectorType (settingsTask st') = SectorType (settingsTask st)
  /\ SectorRadius (settingsTask st') = SectorRadius (settingsTask st)
  /\ tpsValid st' = tpsValid st
  /\ (Warning st' = Warning st
      \/ exists name, Warning st' = (Warning st ++ [warning_270 name])%list
      \/ Warning st' = (Warning st ++ [warning_window name])%list).
Proof.
  intros Hu Hi H Haat.
  assert (Hsub : usub tpNum 1 = tpNum - 1)
    by (apply usub_1; unfold is_unsigned in Hu; lia).
  unfold TaskProcess_point in H. returns H.
  match type of H with
  | context [fill_waypoint ?a ?b ?c ?d ?e ?f ?g ?h] =>
      pose proof (fill_waypoint_frame a b c d e f g h) as F;
      cbv zeta in F; destruct F as (F1 & F2 & F3 & _);
      set (st2 := fill_waypoint a b c d e f g h) in *; clearbody st2
  end.
  destruct (_ =? SECTOR_CLASSIC).
  - returns H. unfold AAT_point in H. rewrite F1, Haat, Hsub in H.
    cbn [andb] in H.
    destruct (Z.ltb_spec 1 i) as [L1|L1];
      [destruct (Z.ltb_spec i (tpNum - 1)) as [L2|L2]|]; cbn [andb] in H.
    + unfold AAT_waypoint in H.
      destruct (_ =? 360).
      * injection H as <-. state_simpl. rewrite F1, F2, F3. auto.
      * returns H. injection H as <-. state_simpl. rewrite F1, F2, F3. auto.
    + unfold regular_waypoint in H. cbv zeta in H. rewrite Hsub in H.
      replace (i =? 1) with false in H by (symmetry; apply Z.eqb_neq; lia).
      replace (i =? tpNum - 1) with true in H
        by (symmetry; apply Z.eqb_eq; lia).
      injection H as <-.
      unfold sector_switch, case_90, case_180, case_360. rewrite Hsub.
      is_false (i =? 1). is_true (i =? tpNum - 1).
      repeat match goal with
             | |- context [if ?b then _ else _] => destruct b
             end; state_simpl; rewrite F1, F2, F3; eauto 7.
    + unfold regular_waypoint in H. cbv zeta in H.
      replace (i =? 1) with true in H by (symmetry; apply Z.eqb_eq; lia).
      returns H. injection H as <-.
      unfold sector_switch, case_90, case_180, case_360.
      is_true (i =? 1).
      repeat match goal with
             | |- context [if ?b then _ else _] => destruct b
             end; state_simpl; rewrite F1, F2, F3; eauto 7.
  - destruct (_ =? SECTOR_WINDOW); injection H as <-; state_simpl;
      rewrite F1, F2, F3; eauto 7.
Qed.

Lemma AAT_task_loop taskParser tpNum gen
    (Q := fun w => exists name, w = warning_270 name
                                \/ w = warning_window name) :
  is_unsigned tpNum ->
  forall n i st st',
    1 <= i -> i + Z.of_nat n <= tpNum ->
    TaskProcess_loop taskParser tpNum gen n i st = Return st' ->
    AATEnabled (settingsTask st) = true ->
    Forall Q (Warning st) ->
    SectorType (settingsTask st') = SectorType (settingsTask st)
    /\ SectorRadius (settingsTask st') = SectorRadius (settingsTask st)
    /\ tpsValid st' = tpsValid st
    /\ Forall Q (Warning st').
Proof.
  intros Hu n. induction n as [|n IH]; intros i st st' Hi Hn H Haat HQ;
    cbn [TaskProcess_loop] in H.
  - injection H as <-. auto.
  - destruct (TaskProcess_point taskParser tpNum gen i st) as [e|st1] eqn:E;
      [discriminate|].
    rewrite bind_Return in H.
    assert (Hi' : 1 <= i < tpNum) by lia.
    destruct (AAT_task_step _ _ _ _ _ _ Hu Hi' E Haat) as (T1 & R1 & V1 & W1).
    destruct (TaskProcess_point_frame _ _ _ _ _ _ E) as [A1 _].
    assert (HQ1 : Forall Q (Warning st1)).
    { destruct W1 as [-> | (name & [-> | ->])]; [exact HQ| |];
        apply Forall_app; (split; [exact HQ|]);
        constructor; [|constructor| |constructor]; exists name; auto. }
    assert (A1' : AATEnabled (settingsTask st1) = true) by congruence.
    destruct (IH (i + 1) st1 st' ltac:(lia) ltac:(lia) H A1' HQ1)
      as (T & R & V & W).
    repeat split; [congruence..|exact W].
Qed.

(** X10. A translated task with AAT never chooses a task sector: whatever the
    points declare, the task sector type and radius stay 0, and so do the
    FAISector and Radius entries of the profile; the task is never flagged
    as not uniform; and every warning is the 270 warning of the start or
    the finish, or a window warning. *)
Theorem AAT_task_sets_no_sector profileParser taskParser aatTime
    maxTaskPoints maxStartPoints gen profile st :
  0 < aatTime ->
  TaskProcess profileParser taskParser aatTime maxTaskPoints maxStartPoints gen
    = Return (profile, st) ->
  SectorType (settingsTask st) = 0
  /\ SectorRadius (settingsTask st) = 0
  /\ tpsValid st = true
  /\ profile !! ("", "FAISector") = Some (Convert 0)
  /\ profile !! ("", "Radius") = Some (Convert 0)
  /\ Forall (fun w => exists name, w = warning_270 name
                                   \/ w = warning_window name) (Warning st).
Proof.
  intros Haat H. unfold TaskProcess in H.
  destruct (Value taskParser "Task" "Count" ≫= Convert_u) as [e|tpNum] eqn:HC;
    [discriminate|].
  pose proof (Count_unsigned _ _ HC) as Hu.
  rewrite bind_Return in H.
  destruct (maxTaskPoints <? usub tpNum 1); [discriminate|].
  destruct (TaskProcess_loop _ _ _ _ _ _) as [e|st1] eqn:E; [discriminate|].
  rewrite bind_Return in H. cbv zeta in H.
  set (st0 := TaskProcess_init profileParser aatTime maxTaskPoints
                maxStartPoints) in *.
  assert (L : SectorType (settingsTask st1) = SectorType (settingsTask st0)
              /\ SectorRadius (settingsTask st1)
                 = SectorRadius (settingsTask st0)
              /\ tpsValid st1 = tpsValid st0
              /\ Forall (fun w => exists name, w = warning_270 name
                                               \/ w = warning_window name)
                   (Warning st1)).
  { destruct (Z.eq_dec tpNum 0) as [-> | Hne].
    - cbn in E. injection E as <-. repeat split. constructor.
    - assert (Hn : 1 + Z.of_nat (Z.to_nat (tpNum - 1)) <= tpNum)
        by (unfold is_unsigned in Hu; lia).
      apply (AAT_task_loop taskParser tpNum gen Hu _ _ _ _ (Z.le_refl 1) Hn E).
      + cbn. apply Z.ltb_lt. exact Haat.
      + constructor. }
  destruct L as (T & R & V & W).
  cbn in T, R, V. rewrite V in H. injection H as <- <-.
  split; [exact T|]. split; [exact R|]. split; [exact V|].
  split; [profile_key; congruence|]. split; [profile_key; congruence|exact W].
Qed.

End Properties.

(** * Runs on the sample target *)

Section Runs.
Import Sample.

Ltac declared := constructor; vm_compute; reflexivity.

(** Replaces a closed run by its value. *)
Ltac run t :=
  let v := eval vm_compute in t in change t with v.

Definition task_45 : gmap (string * string) string :=
  task_file [classic "TO" 0 0; classic "A" 500 90; classic "B" 1000 45;
             classic "C" 400 180].

Lemma other_angle_silently_dropped_witness :
  exists st',
    TaskProcess_point task_45 4 false 2 st_plain = Return st'
    /\ SectorType (settingsTask st') = SectorType (settingsTask st_plain)
    /\ SectorRadius (settingsTask st') = SectorRadius (settingsTask st_plain)
    /\ settingsTask st' = settingsTask st_plain
    /\ tpsValid st' = tpsValid st_plain
    /\ Warning st' = Warning st_plain
    /\ Error st' = Error st_plain.
Proof.
  apply (@other_angle_silently_dropped xcsoar collaborators task_45 4 false 2
           (decl_of 2 (classic "B" 1000 45)) st_plain).
  - unfold is_unsigned. vm_compute. split; [discriminate | reflexivity].
  - unfold intermediate. lia.
  - reflexivity.
  - declared.
  - reflexivity.
  - vm_compute; discriminate.
  - vm_compute; discriminate.
  - vm_compute; discriminate.
  - vm_compute; discriminate.
Defined.

Definition task_270 : gmap (string * string) string :=
  task_file [classic "TO" 0 0; classic "A" 500 90; classic "B" 1000 270;
             classic "C" 400 180].

Definition task_360 : gmap (string * string) string :=
  task_file [classic "TO" 0 0; classic "A" 500 90; classic "B" 1000 360;
             classic "C" 400 180].

Lemma angle_270_warns_then_as_360_witness :
  exists st',
    TaskProcess_point task_270 4 false 2 st_plain = Return st'
    /\ TaskProcess_point task_360 4 false 2
         (warn (warning_270 "1:B") st_plain) = Return st'
    /\ (exists rest,
          Warning st' = (Warning st_plain ++ warning_270 "1:B" :: rest)%list)
    /\ SectorType (settingsTask st') = AST_CIRCLE.
Proof.
  destruct (@angle_270_warns_then_as_360 xcsoar collaborators
              task_270 task_360 4 false 2
              (decl_of 2 (classic "B" 1000 270)) st_plain)
    as (st' & H1 & H2 & H3 & _ & _ & H6).
  - unfold is_unsigned. vm_compute. split; [discriminate | reflexivity].
  - lia.
  - reflexivity.
  - declared.
  - reflexivity.
  - reflexivity.
  - declared.
  - exists st'. split; [exact H1|]. split; [exact H2|]. split; [exact H3|].
    destruct H6 as [H6 _]; [unfold intermediate; lia|].
    apply H6. left. reflexivity.
Defined.

(** C6 as stated fails on a task with AAT: the intermediate point "B" of
    [task_270], of classic type and angle 270, becomes an AAT sector and no
    warning at all is emitted. *)
Lemma angle_270_AAT_point_no_warning :
  exists profile st tp,
    TaskProcess ∅ task_270 60 10 10 false = Return (profile, st)
    /\ Warning st = []
    /\ taskPointArray st !! 1%nat = Some tp
    /\ AATType tp = WAYPOINT_AAT_SECTOR
    /\ AATType tp <> WAYPOINT_AAT_CIRCLE.
Proof.
  run (TaskProcess ∅ task_270 60 10 10 false).
  eexists _, _, _. split; [reflexivity|].
  split; [reflexivity|]. split; [reflexivity|].
  split; [reflexivity|]. discriminate.
Qed.

Lemma three_point_task_witness :
  exists profile st,
    TaskProcess ∅ task_360 0 10 10 false = Return (profile, st)
    /\ StartType (settingsTask st) = START_SECTOR
    /\ StartRadius (settingsTask st) = 500
    /\ SectorType (settingsTask st) = AST_CIRCLE
    /\ SectorRadius (settingsTask st) = 1000
    /\ FinishType (settingsTask st) = FINISH_LINE
    /\ FinishRadius (settingsTask st) = 400
    /\ Warning st = [] /\ Error st = []
    /\ profile !! ("", "StartLine") = Some (Convert START_SECTOR)
    /\ profile !! ("", "StartRadius") = Some (Convert 500)
    /\ profile !! ("", "FAISector") = Some (Convert AST_CIRCLE)
    /\ profile !! ("", "Radius") = Some (Convert 1000)
    /\ profile !! ("", "FinishLine") = Some (Convert FINISH_LINE)
    /\ profile !! ("", "FinishRadius") = Some (Convert 400).
Proof.
  apply (@three_point_task xcsoar collaborators ∅ task_360 10 10 false
           (decl_of 1 (classic "A" 500 90))
           (decl_of 2 (classic "B" 1000 360))
           (decl_of 3 (classic "C" 400 180)));
    first [ declared | reflexivity | lia ].
Defined.

Definition task_FAI_500_300 : gmap (string * string) string :=
  task_file [classic "TO" 0 0; classic "A" 500 90; classic "B" 500 90;
             classic "B2" 300 90; classic "C" 400 180].

Lemma sector_conflict_policy_witness :
  exists profile st,
    TaskProcess ∅ task_FAI_500_300 0 10 10 false = Return (profile, st)
    /\ SectorType (settingsTask st) = AST_FAI
    /\ SectorRadius (settingsTask st) = 300
    /\ Warning st = [warning_FAI_radius "2:B2"]
    /\ tpsValid st = true
    /\ profile !! ("", "Radius") = Some "300".
Proof.
  destruct (@sector_conflict_policy xcsoar collaborators) as (_ & _ & H).
  apply (H ∅ task_FAI_500_300 10 10 false
           (decl_of 1 (classic "A" 500 90)) (decl_of 2 (classic "B" 500 90))
           (decl_of 3 (classic "B2" 300 90))
           (decl_of 4 (classic "C" 400 180)));
    first [ declared | reflexivity | lia | (vm_compute; discriminate) ].
Defined.

Definition task_circle_300_FAI_500 : gmap (string * string) string :=
  task_file [classic "TO" 0 0; classic "A" 500 90; classic "B" 300 360;
             classic "B2" 500 90; classic "C" 400 180].

(** C1 as stated fails when the two intermediate points disagree on the
    type: after a circle of radius 300, an angle-90 point of radius 500
    leaves the task sector radius at 500, not at the smaller 300, and the
    only warning is the summary one. *)
Lemma type_conflict_keeps_larger_radius :
  exists profile st,
    TaskProcess ∅ task_circle_300_FAI_500 0 10 10 false = Return (profile, st)
    /\ SectorType (settingsTask st) = AST_FAI
    /\ SectorRadius (settingsTask st) = 500
    /\ SectorRadius (settingsTask st) <> Z.min 300 500
    /\ Warning st = [warning_not_uniform].
Proof.
  run (TaskProcess ∅ task_circle_300_FAI_500 0 10 10 false).
  eexists _, _. split; [reflexivity|].
  split; [reflexivity|]. split; [reflexivity|]. split; [discriminate|].
  reflexivity.
Qed.

Lemma finish_min_height_zero_witness :
  exists profile st,
    TaskProcess ∅ task_360 0 10 10 false = Return (profile, st)
    /\ FinishMinHeight (settingsTask st) = 0
    /\ profile !! ("", "FinishMinHeight") = Some "0"
    /\ profile !! ("", "FAIFinishHeight") = profile !! ("", "FinishMinHeight").
Proof.
  destruct (TaskProcess ∅ task_360 0 10 10 false) as [e|[profile st]] eqn:E.
  - revert E. run (TaskProcess ∅ task_360 0 10 10 false). discriminate.
  - exists profile, st. split; [reflexivity|].
    exact (@finish_min_height_zero xcsoar collaborators _ _ _ _ _ _ _ _ E).
Defined.

(** A task with a point of unknown sector type (7) and a window zone. *)
Definition task_odd : list TPText :=
  [classic "TO" 0 0; classic "A" 500 90;
   {| t_name := "B"; t_sector := 7; t_radius := 0; t_angle := 0;
      t_height := 0 |};
   {| t_name := "W"; t_sector := 1; t_radius := 0; t_angle := 0;
      t_height := 0 |};
   classic "C" 400 180].

Lemma task_odd_well_formed : well_formed_task (task_file task_odd) 5.
Proof.
  split; [reflexivity|]. split; [lia|].
  intros i Hi.
  assert (E : i = 1 \/ i = 2 \/ i = 3 \/ i = 4) by lia.
  destruct E as [-> | [-> | [-> | ->] ] ].
  - exists (decl_of 1 (classic "A" 500 90)). declared.
  - exists (decl_of 2 {| t_name := "B"; t_sector := 7; t_radius := 0;
                         t_angle := 0; t_height := 0 |}). declared.
  - exists (decl_of 3 {| t_name := "W"; t_sector := 1; t_radius := 0;
                         t_angle := 0; t_height := 0 |}). declared.
  - exists (decl_of 4 (classic "C" 400 180)). declared.
Defined.

Lemma capacity_and_totality_witness :
  TaskProcess ∅ (task_file task_odd) 0 3 10 false
    = Throw (EOperationFailed (too_many_waypoints 5 3))
  /\ exists profile st,
       TaskProcess ∅ (task_file task_odd) 0 10 10 false = Return (profile, st)
       /\ length (waypointArray st) = 4%nat.
Proof.
  destruct (@capacity_and_totality xcsoar collaborators) as [T1 T2].
  split.
  - apply T1; [reflexivity | lia | lia].
  - destruct (T2 ∅ (task_file task_odd) 0 10 10 false 5
                task_odd_well_formed ltac:(lia))
      as (profile & st & E & L & _).
    exists profile, st. split; [exact E|exact L].
Defined.

Lemma zero_count_throws_witness :
  TaskProcess ∅ (task_file []) 0 10 10 false
  = Throw (EOperationFailed
             "ERROR: Too many waypoints (4294967295) in a task file (only 10 supported)!!!").
Proof.
  destruct (@zero_count_throws xcsoar collaborators ∅ (task_file []) 0 10 10
              false eq_refl) as (_ & T & M).
  - unfold UINT_MAX. vm_compute. split; [discriminate | reflexivity].
  - rewrite T, M. reflexivity.
Defined.

(** C10 as stated fails at the largest capacity an [unsigned] holds:
    [0 - 1] wraps to [2^32 - 1], which does not exceed it, and no capacity
    error is thrown. *)
Lemma zero_count_at_largest_capacity :
  (4294967295 <? usub 0 1) = false
  /\ ~ (exists what,
          TaskProcess ∅ (task_file []) 0 4294967295 0 false
          = Throw (EOperationFailed what)).
Proof.
  split; [reflexivity|].
  intros [what H]. unfold TaskProcess in H.
  change (Value (task_file []) "Task" "Count" ≫= Convert_u)
    with (Return 0 : Result Z) in H.
  rewrite bind_Return in H.
  change (4294967295 <? usub 0 1) with false in H.
  change (Z.to_nat (0 - 1)) with 0%nat in H.
  cbn [TaskProcess_loop] in H. rewrite bind_Return in H.
  discriminate H.
Qed.

(** On the sample target the bearings from "A" and from "C" to "B" are 10
    and 350: the half angle is 0 and an angle of 270 gives the radials 225
    and 135. *)
Lemma AAT_sector_radials_witness :
  exists st' p,
    TaskProcess_point task_270 4 false 2 st_AAT = Return st'
    /\ taskPointArray st' !! 1%nat = Some p
    /\ AATType p = WAYPOINT_AAT_SECTOR
    /\ AATSectorRadius p = 1000
    /\ AATStartRadial p = 225
    /\ AATFinishRadial p = 135.
Proof.
  destruct (@AAT_sector_radials xcsoar collaborators) as [H _].
  destruct (H task_270 4 false 2
              (decl_of 2 (classic "B" 1000 270))
              (decl_of 1 (classic "A" 500 90))
              (decl_of 3 (classic "C" 400 180)) st_AAT)
    as (st' & p & E & L & T & R & S & F & _).
  - unfold is_unsigned. vm_compute. split; [discriminate | reflexivity].
  - unfold intermediate. lia.
  - reflexivity.
  - declared.
  - declared.
  - declared.
  - reflexivity.
  - cbn. lia.
  - cbn. lia.
  - change (1 < 10)%nat. lia.
  - exists st', p. split; [exact E|]. split; [exact L|]. split; [exact T|].
    split; [exact R|]. split; [rewrite S | rewrite F]; reflexivity.
Defined.

(** C3 as stated fails on bearings of odd sum and on odd angles: the half
    angle of the bearings 10 and 11 is 10, not their mean 10.5, and with the
    half angle 10 an angle of 45 gives the start radial 347, not 347.5. *)
Lemma half_angle_drops_the_fraction :
  halfAngle 10 11 = 10
  /\ ~ (inject_Z (halfAngle 10 11) == (inject_Z 10 + inject_Z 11) / 2)%Q
  /\ StartRadial 10 45 = 347
  /\ ~ (inject_Z (StartRadial 10 45) == inject_Z 10 - (45 # 2) + 360)%Q.
Proof.
  split; [reflexivity|]. split.
  - change (halfAngle 10 11) with 10. unfold Qeq. cbn. lia.
  - split; [reflexivity|].
    change (StartRadial 10 45) with 347. unfold Qeq. cbn. lia.
Qed.

Lemma zones_file_declares i :
  0 <= i < 2 -> zone_declares zones_file i (zones_decl i).
Proof.
  intros Hi. assert (E : i = 0 \/ i = 1) by lia.
  destruct E as [-> | ->]; constructor; try (vm_compute; reflexivity).
  all: intros j Hj; assert (E : j = 0 \/ j = 1 \/ j = 2 \/ j = 3) by lia;
       destruct E as [-> | [-> | [-> | ->] ] ]; vm_compute; reflexivity.
Defined.

Lemma penalty_zones_output_witness :
  PenaltyZonesProcess ∅ no_zones_file "cfg" "out"
  = Return (<[("", "AirspaceFile") := dquote +:+ dquote]> ∅, None)
  /\ PenaltyZonesProcess ∅ zones_file "cfg" "out"
     = Return
         (<[("", "AirspaceFile") := dquote +:+ "cfg/Condor.txt" +:+ dquote]> ∅,
          Some ("out/Condor.txt",
                [ "*******************************************************";
                  "* Condor Task Penalty Zones generated with Condor2Nav *";
                  "*******************************************************";
                  ""; "AC P"; "AN Penalty Zone 1"; "AH 1500m AMSL"; "AL 0";
                  "DP 200 100"; "DP 201 101"; "DP 202 102"; "DP 203 103";
                  ""; "AC P"; "AN Penalty Zone 2"; "AH 2500m AMSL";
                  "AL 500m AMSL";
                  "DP 200 100"; "DP 201 101"; "DP 202 102"; "DP 203 103" ])).
Proof.
  destruct (@penalty_zones_output collaborators) as [Z0 Zn].
  split.
  - apply (Z0 ∅ no_zones_file "cfg" "out"). reflexivity.
  - rewrite (Zn ∅ zones_file "cfg" "out" 2 zones_decl eq_refl ltac:(lia)
               zones_file_declares).
    reflexivity.
Defined.

(** ** Runs of the further properties *)

Lemma points_360_declared i :
  1 <= i < 4 -> declares (task_file points_360) i (decls_of points_360 i).
Proof.
  intros Hi. assert (E : i = 1 \/ i = 2 \/ i = 3) by lia.
  destruct E as [-> | [-> | ->] ]; declared.
Defined.

Lemma window_point_witness :
  exists st',
    TaskProcess_point (task_file task_odd) 5 false 3 st_plain = Return st'
    /\ settingsTask st' = settingsTask st_plain
    /\ Warning st' = [warning_window "2:W"]
    /\ Error st' = []
    /\ length (waypointArray st') = 1%nat.
Proof.
  destruct (@window_point xcsoar collaborators (task_file task_odd) 5 false 3
              "W" "30" "60" 300 "1" st_plain)
    as (st' & E & S & _ & W & Er & L).
  - constructor; try (vm_compute; reflexivity).
    exists 0. split; vm_compute; reflexivity.
  - vm_compute; reflexivity.
  - reflexivity.
  - vm_compute; discriminate.
  - exists st'. split; [exact E|]. split; [exact S|]. split; [exact W|].
    split; [exact Er|exact L].
Defined.

Lemma unsupported_sector_type_witness :
  exists st',
    TaskProcess_point (task_file task_odd) 5 false 2 st_plain = Return st'
    /\ settingsTask st' = settingsTask st_plain
    /\ Warning st' = []
    /\ Error st' = [error_sector_type "7" "1:B"]
    /\ length (waypointArray st') = 1%nat.
Proof.
  destruct (@unsupported_sector_type xcsoar collaborators (task_file task_odd)
              5 false 2 "B" "20" "40" 300 "7" 7 st_plain)
    as (st' & E & S & _ & W & Er & L).
  - constructor; try (vm_compute; reflexivity).
    exists 0. split; vm_compute; reflexivity.
  - vm_compute; reflexivity.
  - reflexivity.
  - vm_compute; discriminate.
  - vm_compute; discriminate.
  - exists st'. split; [exact E|]. split; [exact S|]. split; [exact W|].
    split; [exact Er|exact L].
Defined.

Lemma start_point_settings_witness :
  exists st',
    TaskProcess_point task_360 4 false 1 st_plain = Return st'
    /\ StartRadius (settingsTask st') = 500
    /\ StartMaxHeight (settingsTask st') = 1500
    /\ StartType (settingsTask st') = START_SECTOR
    /\ SectorRadius (settingsTask st') = 0
    /\ Warning st' = [].
Proof.
  destruct (@start_point_settings xcsoar collaborators task_360 4 false
              (decl_of 1 (classic "A" 500 90)) st_plain)
    as (st' & E & R & H & T & _ & _ & _ & _ & SR & _ & _ & _ & _ & _ & W).
  - declared.
  - reflexivity.
  - exists st'. split; [exact E|]. split; [exact R|]. split; [exact H|].
    split; [exact (T eq_refl)|]. split; [exact SR|exact W].
Defined.

Lemma finish_point_settings_witness :
  exists st',
    TaskProcess_point task_360 4 false 3 st_plain = Return st'
    /\ FinishRadius (settingsTask st') = 400
    /\ FinishMinHeight (settingsTask st') = 0
    /\ FinishType (settingsTask st') = FINISH_LINE
    /\ StartRadius (settingsTask st') = 0
    /\ Warning st' = [].
Proof.
  destruct (@finish_point_settings xcsoar collaborators task_360 4 false 3
              (decl_of 3 (classic "C" 400 180)) st_plain)
    as (st' & E & R & H & _ & T & _ & _ & _ & SR & _ & _ & _ & _ & _ & W).
  - unfold is_unsigned. vm_compute. split; [discriminate | reflexivity].
  - reflexivity.
  - lia.
  - declared.
  - reflexivity.
  - exists st'. split; [exact E|]. split; [exact R|]. split; [exact H|].
    split; [exact (T eq_refl)|]. split; [exact SR|exact W].
Defined.

Lemma first_intermediate_point_witness :
  exists st',
    TaskProcess_point task_270 4 false 2 st_plain = Return st'
    /\ SectorRadius (settingsTask st') = 1000
    /\ SectorType (settingsTask st') = AST_CIRCLE
    /\ tpsValid st' = true
    /\ Warning st' = [warning_270 "1:B"].
Proof.
  destruct (@first_intermediate_point xcsoar collaborators task_270 4 false
              (decl_of 2 (classic "B" 1000 270)) st_plain)
    as (st' & E & R & T & V & _ & W).
  - unfold is_unsigned. vm_compute. split; [discriminate | reflexivity].
  - unfold intermediate. lia.
  - reflexivity.
  - declared.
  - reflexivity.
  - right. right. left. reflexivity.
  - exists st'. split; [exact E|]. split; [exact R|]. split; [exact T|].
    split; [exact V|exact W].
Defined.

Definition task_FAI_then_line : gmap (string * string) string :=
  task_file [classic "TO" 0 0; classic "A" 500 90; classic "B" 500 90;
             classic "B2" 300 180; classic "C" 400 180].

(** From the fresh state, whose task sector type is the circle, the line
    point "B2" switches the task to FAI with its own radius. *)
Lemma later_line_point_witness :
  exists st',
    TaskProcess_point task_FAI_then_line 5 false 3 st_plain = Return st'
    /\ SectorType (settingsTask st') = AST_FAI
    /\ SectorRadius (settingsTask st') = 300
    /\ Warning st' = [warning_line "2:B2"]
    /\ tpsValid st' = true.
Proof.
  destruct (@later_line_point xcsoar collaborators task_FAI_then_line 5 false
              3 (decl_of 3 (classic "B2" 300 180)) st_plain)
    as (st' & E & _ & _ & H).
  - unfold is_unsigned. vm_compute. split; [discriminate | reflexivity].
  - unfold intermediate. lia.
  - lia.
  - reflexivity.
  - declared.
  - reflexivity.
  - reflexivity.
  - destruct H as (T & R & W & V); [vm_compute; discriminate|].
    exists st'. split; [exact E|]. split; [exact T|]. split; [exact R|].
    split; [exact W|exact V].
Defined.

Lemma AAT_point_leaves_settings_witness :
  exists st',
    TaskProcess_point task_270 4 false 2 st_AAT = Return st'
    /\ settingsTask st' = settingsTask st_AAT
    /\ tpsValid st' = true
    /\ Warning st' = [] /\ Error st' = []
    /\ taskPointArray st' !! 0%nat = Some TASK_POINT_init.
Proof.
  destruct (@AAT_point_leaves_settings xcsoar collaborators task_270 4 false 2
              (decl_of 2 (classic "B" 1000 270))
              (decl_of 1 (classic "A" 500 90))
              (decl_of 3 (classic "C" 400 180)) st_AAT)
    as (st' & E & S & V & W & Er & _ & K).
  - unfold is_unsigned. vm_compute. split; [discriminate | reflexivity].
  - unfold intermediate. lia.
  - reflexivity.
  - declared.
  - declared.
  - declared.
  - reflexivity.
  - exists st'. split; [exact E|]. split; [exact S|]. split; [exact V|].
    split; [exact W|]. split; [exact Er|].
    rewrite (K 0%nat); [reflexivity|]. change (Z.to_nat (2 - 1)) with 1%nat.
    lia.
Defined.

Lemma AAT_circle_point_witness :
  exists st' p,
    TaskProcess_point task_360 4 false 2 st_AAT = Return st'
    /\ taskPointArray st' !! 1%nat = Some p
    /\ Index p = WAYPOINT_INDEX_OFFSET + 2
    /\ AATType p = WAYPOINT_AAT_CIRCLE
    /\ AATCircleRadius p = 1000
    /\ AATStartRadial p = 0
    /\ AATFinishRadial p = 360.
Proof.
  destruct (@AAT_circle_point xcsoar collaborators task_360 4 false 2
              (decl_of 2 (classic "B" 1000 360)) st_AAT TASK_POINT_init)
    as (st' & p & E & L & I & T & R & _ & S & F).
  - unfold is_unsigned. vm_compute. split; [discriminate | reflexivity].
  - unfold intermediate. lia.
  - reflexivity.
  - declared.
  - reflexivity.
  - reflexivity.
  - reflexivity.
  - exists st', p. split; [exact E|]. split; [exact L|]. split; [exact I|].
    split; [exact T|]. split; [exact R|]. split; [exact S|exact F].
Defined.

Lemma task_point_table_witness :
  exists profile st,
    TaskProcess ∅ (task_file points_360) 60 10 10 false = Return (profile, st)
    /\ length (taskPointArray st) = 10%nat
    /\ waypointArray st
       = map (fun i => waypoint_of 4 i (decls_of points_360 i)) [1; 2; 3]
    /\ taskPointArray st !! 3%nat = Some TASK_POINT_init.
Proof.
  destruct (@task_point_table xcsoar collaborators ∅ (task_file points_360) 60
              10 10 false 4 (decls_of points_360))
    as (profile & st & E & L & W & _ & K).
  - reflexivity.
  - lia.
  - exact points_360_declared.
  - lia.
  - exists profile, st. split; [exact E|]. split; [exact L|].
    split; [exact W|]. apply K. change (Z.to_nat (4 - 1)) with 3%nat.
    change (Z.to_nat 10) with 10%nat. lia.
Defined.

Lemma task_flags_and_start_points_witness :
  exists profile st,
    TaskProcess ∅ task_360 60 10 2 false = Return (profile, st)
    /\ AATEnabled (settingsTask st) = true
    /\ AATTaskLength (settingsTask st) = 60
    /\ EnableMultipleStartPoints (settingsTask st) = false
    /\ startPointArray st = [START_POINT_init; START_POINT_init]
    /\ AutoAdvance (settingsTask st) = AUTOADVANCE_ARMSTART.
Proof.
  destruct (TaskProcess ∅ task_360 60 10 2 false) as [e|[profile st]] eqn:E.
  - revert E. run (TaskProcess ∅ task_360 60 10 2 false). discriminate.
  - exists profile, st. split; [reflexivity|].
    exact (@task_flags_and_start_points xcsoar collaborators _ _ _ _ _ _ _ _
             E).
Defined.

(** A profile that holds an entry of its own before the translation. *)
Definition profile_with_pilot : gmap (string * string) string :=
  {[ ("", "PilotName") := "Ann" ]}.

Lemma task_profile_entries_witness :
  exists profile st,
    TaskProcess profile_with_pilot task_360 0 10 10 false
    = Return (profile, st)
    /\ profile !! ("", "PilotName") = Some "Ann"
    /\ profile !! ("", "Radius") = Some (Convert (SectorRadius (settingsTask st)))
    /\ profile !! ("", "StartHeightRef") = Some "1".
Proof.
  destruct (TaskProcess profile_with_pilot task_360 0 10 10 false)
    as [e|[profile st]] eqn:E.
  - revert E. run (TaskProcess profile_with_pilot task_360 0 10 10 false).
    discriminate.
  - exists profile, st. split; [reflexivity|].
    destruct (@task_profile_entries xcsoar collaborators _ _ _ _ _ _ _ _ E)
      as (K & _ & _ & _ & _ & R & _ & _ & H & _).
    split; [|split; [exact R|exact H] ].
    rewrite K; [reflexivity|].
    unfold task_profile_keys. intros H'.
    repeat (apply elem_of_cons in H' as [H'|H']; [discriminate H'|]).
    apply elem_of_nil in H'. exact H'.
Defined.

Lemma half_angle_bisects_witness :
  halfAngle 350 20 = 5
  /\ halfAngle 20 350 = 5
  /\ arc 5 350 + arc 5 20 = arc 350 20
  /\ Z.abs (arc 5 350 - arc 5 20) <= 1.
Proof.
  destruct (half_angle_bisects 350 20 ltac:(lia) ltac:(lia))
    as (_ & S & A & B & _).
  split; [reflexivity|]. split; [exact S|]. split; [exact A|exact B].
Defined.

Lemma radials_open_the_angle_witness :
  (FinishRadial 0 270 - StartRadial 0 270) mod 360 = 270
  /\ 0 <= StartRadial 0 270 < 360
  /\ 0 <= FinishRadial 0 270 < 360.
Proof.
  exact (radials_open_the_angle 0 270 ltac:(lia) ltac:(lia)).
Defined.

Lemma takeoff_only_task_witness :
  exists profile st,
    TaskProcess ∅ (task_file [classic "TO" 0 0]) 0 2 10 true
    = Return (profile, st)
    /\ waypointArray st = []
    /\ taskPointArray st = [TASK_POINT_init; TASK_POINT_init]
    /\ Warning st = [] /\ Error st = [] /\ wpFile st = []
    /\ profile !! ("", "StartLine") = Some "0".
Proof.
  destruct (@takeoff_only_task xcsoar collaborators ∅
              (task_file [classic "TO" 0 0]) 0 2 10 true eq_refl ltac:(lia))
    as (profile & st & E & W & T & Wa & Er & F & _ & _ & _ & _ & _ & _ & S & _).
  exists profile, st. split; [exact E|]. split; [exact W|]. split; [exact T|].
  split; [exact Wa|]. split; [exact Er|]. split; [exact F|exact S].
Defined.

Lemma airspace_file_layout_witness :
  exists profile path airspacesFile,
    PenaltyZonesProcess ∅ zones_file "cfg" "out"
    = Return (profile, Some (path, airspacesFile))
    /\ length airspacesFile = 21%nat
    /\ take 9 (drop 12 airspacesFile) = zone_record 1 (zones_decl 1)
    /\ airspacesFile !! 14%nat = Some "AN Penalty Zone 2"
    /\ airspacesFile !! 16%nat = Some "AL 500m AMSL"
    /\ profile !! ("", "UTCOffset") = None.
Proof.
  destruct (@airspace_file_layout collaborators ∅ zones_file "cfg" "out" 2
              zones_decl eq_refl ltac:(lia) zones_file_declares)
    as (profile & path & file & E & L & _ & Z & K).
  destruct (Z 1 ltac:(lia)) as (R & N & B).
  exists profile, path, file. split; [exact E|]. split; [exact L|].
  split; [exact R|]. split; [exact N|]. split; [exact B|].
  rewrite K; [reflexivity|discriminate].
Defined.

Lemma wp_file_lines_witness :
  exists profile st,
    TaskProcess ∅ (task_file points_360) 0 10 10 true = Return (profile, st)
    /\ wpFile st
       = map (fun i => wp_line 4 i (decls_of points_360 i)) [1; 2; 3]
    /\ wpFile st !! 1%nat = Some "2,40,20,300M,T,1:B,B".
Proof.
  destruct (TaskProcess ∅ (task_file points_360) 0 10 10 true)
    as [e|[profile st]] eqn:E.
  - revert E. run (TaskProcess ∅ (task_file points_360) 0 10 10 true).
    discriminate.
  - exists profile, st. split; [reflexivity|].
    destruct (@wp_file_lines xcsoar collaborators ∅ (task_file points_360) 0
                10 10 4 (decls_of points_360) profile st eq_refl
                points_360_declared E) as [W L].
    split; [exact W|]. exact (L 2 ltac:(lia)).
Defined.

Lemma uniform_task_witness :
  exists profile st,
    TaskProcess ∅ (task_file points_360) 0 10 10 false = Return (profile, st)
    /\ SectorType (settingsTask st) = AST_CIRCLE
    /\ SectorRadius (settingsTask st) = 1000
    /\ tpsValid st = true
    /\ Warning st = [] /\ Error st = []
    /\ profile !! ("", "FAISector") = Some (Convert AST_CIRCLE)
    /\ profile !! ("", "Radius") = Some (Convert 1000).
Proof.
  apply (@uniform_task xcsoar collaborators ∅ (task_file points_360) 10 10
           false 4 (decls_of points_360) 360 1000).
  - reflexivity.
  - lia.
  - lia.
  - intros i Hi. split; [exact (points_360_declared i Hi)|].
    assert (E : i = 1 \/ i = 2 \/ i = 3) by lia.
    destruct E as [-> | [-> | ->] ]; reflexivity.
  - vm_compute; discriminate.
  - vm_compute; discriminate.
  - right. reflexivity.
  - unfold intermediate. intros i Hi. assert (E : i = 2) by lia.
    subst i. split; reflexivity.
Defined.

(** A task file that announces four points and holds the takeoff and the
    start only. *)
Definition task_truncated : gmap (string * string) string :=
  <[("Task", "Count") := "4"]>
    (task_file [classic "TO" 0 0; classic "A" 500 90]).

Lemma truncated_task_throws_witness :
  TaskProcess ∅ task_truncated 0 10 10 false
  = Throw (EValueMissing "Task" "TPName2").
Proof.
  apply (@truncated_task_throws xcsoar collaborators ∅ task_truncated 10 10
           false 4 2).
  - reflexivity.
  - lia.
  - lia.
  - intros j Hj. assert (E : j = 1) by lia. subst j.
    exists (decl_of 1 (classic "A" 500 90)). declared.
  - reflexivity.
Defined.

Lemma AAT_task_sets_no_sector_witness :
  exists profile st,
    TaskProcess ∅ task_270 60 10 10 false = Return (profile, st)
    /\ SectorType (settingsTask st) = 0
    /\ SectorRadius (settingsTask st) = 0
    /\ tpsValid st = true
    /\ profile !! ("", "FAISector") = Some "0"
    /\ profile !! ("", "Radius") = Some "0".
Proof.
  destruct (TaskProcess ∅ task_270 60 10 10 false) as [e|[profile st]] eqn:E.
  - revert E. run (TaskProcess ∅ task_270 60 10 10 false). discriminate.
  - exists profile, st. split; [reflexivity|].
    destruct (@AAT_task_sets_no_sector xcsoar collaborators _ _ 60 _ _ _ _ _
                ltac:(lia) E) as (T & R & V & F & Ra & _).
    split; [exact T|]. split; [exact R|]. split; [exact V|].
    split; [exact F|exact Ra].
Defined.

End Runs.
